(** * XchangeBot data access and cache layer: a shallow embedding

    The development follows the Python sources of the repository:
    - [sheets.py]: [CacheManager], the [cache_result] decorator, the
      spreadsheet store [GoogleSheetsClient] and [migrate_transaction_data];
    - [database.py] / [models.py]: the relational store [DatabaseManager];
    - [data_manager.py]: the facade [DataManager].

    Conventions of the embedding.
    - Python strings are Rocq byte strings holding the UTF-8 encoding of the
      source literal.
    - Python [int] is [Z]; Python [float] is modelled by exact rationals [Q]
      (no rounding error, no inf/nan).
    - A Python [dict] with string keys is a [gmap string _].
    - Stateful code is written in a state-and-exception monad in which the
      state changes made before an exception are kept, as in Python. *)

From Stdlib Require Import ZArith QArith Qround String Ascii List Lia Bool.
From stdpp Require Import base option gmap strings list pretty.

Local Open Scope string_scope.
Local Open Scope Z_scope.
Local Open Scope list_scope.

(** ** Python values and the string methods the sources use *)

Module Py.

(** The scalar values that travel through the store: cell contents, the
    entries of a [data] dictionary, positional and keyword arguments. *)
Inductive value : Type :=
  | VNone
  | VBool (b : bool)
  | VInt (z : Z)
  | VFloat (q : Q)
  | VStr (s : string).

Abbreviation dict := (gmap string value).

(** Exceptions that the modelled code can raise. [BackendError] stands for
    any exception coming out of the remote spreadsheet API. *)
Inductive exn : Type :=
  | BackendError
  | WorksheetNotFound
  | KeyError (k : string)
  | IndexError
  | ValueError
  | TypeError
  | AttributeError (name : string).

(** [bool(v)] *)
Definition truthy (v : value) : bool :=
  match v with
  | VNone => false
  | VBool b => b
  | VInt z => negb (z =? 0)
  | VFloat q => negb (Qeq_bool q 0)
  | VStr s => negb (String.eqb s "")
  end.

(** [s.startswith(p)] *)
Definition startswith (s p : string) : bool := String.prefix p s.

(** [sub in s] *)
Fixpoint contains (sub s : string) : bool :=
  if String.prefix sub s then true
  else match s with
       | EmptyString => false
       | String _ s' => contains sub s'
       end.

Definition is_ascii_digit (c : ascii) : bool :=
  let n := nat_of_ascii c in (48 <=? n)%nat && (n <=? 57)%nat.

Fixpoint all_digits (s : string) : bool :=
  match s with
  | EmptyString => true
  | String c s' => is_ascii_digit c && all_digits s'
  end.

(** [s.isdigit()], on ASCII digits. *)
Definition isdigit (s : string) : bool :=
  match s with
  | EmptyString => false
  | _ => all_digits s
  end.

Fixpoint parse_digits (acc : Z) (s : string) : Z :=
  match s with
  | EmptyString => acc
  | String c s' => parse_digits (10 * acc + Z.of_nat (nat_of_ascii c - 48)) s'
  end.

Definition is_space (c : ascii) : bool :=
  let n := nat_of_ascii c in
  (n =? 32)%nat || ((9 <=? n)%nat && (n <=? 13)%nat).

Fixpoint lstrip (s : string) : string :=
  match s with
  | String c s' => if is_space c then lstrip s' else s
  | EmptyString => EmptyString
  end.

(** [s.strip()], on ASCII white space. *)
Definition strip (s : string) : string :=
  String.rev (lstrip (String.rev (lstrip s))).

(** Sign and magnitude of a numeric literal. *)
Definition split_sign (s : string) : bool * string :=
  match s with
  | String "-" s' => (true, s')
  | String "+" s' => (false, s')
  | _ => (false, s)
  end.

(** [int(s)] for a string: white space, an optional sign, ASCII decimal
    digits (digit-group underscores are outside the model). [None] is
    [ValueError]. *)
Definition int_of_string (s : string) : option Z :=
  let '(neg, body) := split_sign (strip s) in
  if isdigit body
  then Some (if neg then - parse_digits 0 body else parse_digits 0 body)
  else None.

Fixpoint split_dot (s : string) : string * option string :=
  match s with
  | EmptyString => (EmptyString, None)
  | String "." s' => (EmptyString, Some s')
  | String c s' => let '(a, b) := split_dot s' in (String c a, b)
  end.

(** [float(s)] for a string holding a plain decimal literal: white space,
    an optional sign, digits with an optional fractional part. Exponents,
    underscores, [inf] and [nan] are outside the model and count as
    unparsable. [None] is [ValueError]. *)
Definition float_of_string (s : string) : option Q :=
  let '(neg, body) := split_sign (strip s) in
  let '(ip, fp) := split_dot body in
  let fp' := default EmptyString fp in
  if all_digits ip && all_digits fp'
     && negb (String.eqb ip "" && String.eqb fp' "")
  then
    let den := Z.pow 10 (Z.of_nat (String.length fp')) in
    let num := parse_digits 0 ip * den + parse_digits 0 fp' in
    Some (Qred (Qmake (if neg then - num else num) (Z.to_pos den)))
  else None.

(** [float(v)]: [inl] carries the exception. *)
Definition to_float (v : value) : exn + Q :=
  match v with
  | VNone => inl TypeError
  | VBool b => inr (if b then 1%Q else 0%Q)
  | VInt z => inr (inject_Z z)
  | VFloat q => inr q
  | VStr s => match float_of_string s with
              | Some q => inr q
              | None => inl ValueError
              end
  end.

Fixpoint replace_go (old new : string) (skip : nat) (s : string) : string :=
  match s with
  | EmptyString => EmptyString
  | String c s' =>
      match skip with
      | S k => replace_go old new k s'
      | O => if String.prefix old s
             then new +:+ replace_go old new (String.length old - 1) s'
             else String c (replace_go old new O s')
      end
  end.

(** [s.replace(old, new)] for a non-empty [old]. *)
Definition replace (old new s : string) : string := replace_go old new O s.

(** [s.lower()] on the UTF-8 bytes: ASCII letters, and the Cyrillic capitals
    U+0410..U+042F and U+0401 that occur in the status texts. *)
Fixpoint lower (s : string) : string :=
  match s with
  | EmptyString => EmptyString
  | String c s' =>
      let n := nat_of_ascii c in
      if (65 <=? n)%nat && (n <=? 90)%nat
      then String (ascii_of_nat (n + 32)) (lower s')
      else if (n =? 208)%nat
      then match s' with
           | String d s'' =>
               let m := nat_of_ascii d in
               if (144 <=? m)%nat && (m <=? 159)%nat
               then String c (String (ascii_of_nat (m + 32)) (lower s''))
               else if (160 <=? m)%nat && (m <=? 175)%nat
               then String (ascii_of_nat 209)
                      (String (ascii_of_nat (m - 32)) (lower s''))
               else if (m =? 129)%nat
               then String (ascii_of_nat 209)
                      (String (ascii_of_nat 145) (lower s''))
               else String c (String d (lower s''))
           | EmptyString => String c EmptyString
           end
      else String c (lower s')
  end.

Fixpoint frac_digits (fuel : nat) (r d : Z) : string :=
  match fuel with
  | O => EmptyString
  | S k =>
      if r =? 0 then EmptyString
      else pretty ((10 * r) / d) +:+ frac_digits k ((10 * r) mod d) d
  end.

(** [str(x)] for a float: the decimal expansion of the rational, cut after
    sixteen fractional digits (Python prints the shortest round-tripping
    literal of the binary double; the two agree on short decimals). *)
Definition float_repr (q : Q) : string :=
  let n := Qnum q in
  let d := Z.pos (Qden q) in
  let a := Z.abs n in
  let f := frac_digits 16 (a mod d) d in
  (if n <? 0 then "-" else "") +:+ pretty (a / d) +:+ "." +:+
  (if String.eqb f "" then "0" else f).

(** [str(v)] *)
Definition str (v : value) : string :=
  match v with
  | VNone => "None"
  | VBool true => "True"
  | VBool false => "False"
  | VInt z => pretty z
  | VFloat q => float_repr q
  | VStr s => s
  end.

(** [d.get(k, default)] *)
Definition get (d : dict) (k : string) (dflt : value) : value :=
  default dflt (d !! k).

(** [round(x, 2)]: to the nearest multiple of 1/100, ties to even. *)
Definition round2 (x : Q) : Q :=
  let y := (x * 100)%Q in
  let f := Qfloor y in
  let r := (y - inject_Z f)%Q in
  let n := match Qcompare r (1 # 2) with
           | Lt => f
           | Gt => f + 1
           | Eq => if Z.even f then f else f + 1
           end in
  Qred (Qmake n 100).

End Py.


(** ** Pure computations that may raise *)

Import Py.

Declare Scope store_scope.
Delimit Scope store_scope with store.
Local Open Scope store_scope.

Definition E (A : Type) : Type := (exn + A)%type.

Definition ebind {A B : Type} (m : E A) (k : A -> E B) : E B :=
  match m with
  | inl e => inl e
  | inr a => k a
  end.

Notation "x <-? m ;; k" := (ebind m (fun x => k))
  (at level 62, m at next level, right associativity) : store_scope.

(** [try: body  except <types>: handler], without state. *)
Definition etry {A : Type} (body : E A) (handles : exn -> bool)
    (handler : exn -> E A) : E A :=
  match body with
  | inl e => if handles e then handler e else inl e
  | inr a => inr a
  end.

Definition eitem {A : Type} (l : list A) (i : nat) : E A :=
  match l !! i with
  | Some x => inr x
  | None => inl IndexError
  end.

Definition esubscript (d : dict) (k : string) : E value :=
  match d !! k with
  | Some v => inr v
  | None => inl (KeyError k)
  end.

(** The receiver of a [str] method: anything else has no such attribute. *)
Definition str_receiver (method : string) (v : value) : E string :=
  match v with
  | VStr s => inr s
  | _ => inl (AttributeError method)
  end.

(** A [str] argument of a [str] method. *)
Definition str_argument (v : value) : E string :=
  match v with
  | VStr s => inr s
  | _ => inl TypeError
  end.

Fixpoint emap {A B : Type} (f : A -> E B) (l : list A) : E (list B) :=
  match l with
  | [] => inr []
  | x :: l' => y <-? f x ;; ys <-? emap f l' ;; inr (y :: ys)
  end.

Fixpoint efilter {A : Type} (f : A -> E bool) (l : list A) : E (list A) :=
  match l with
  | [] => inr []
  | x :: l' =>
      b <-? f x ;; ys <-? efilter f l' ;; inr (if b then x :: ys else ys)
  end.


(** [int(s)] *)
Definition int_ (s : string) : E Z :=
  match int_of_string s with
  | Some z => inr z
  | None => inl ValueError
  end.

(** The number behind a value in arithmetic and comparisons; a string or
    [None] there is a [TypeError]. *)
Definition number (v : value) : E Q :=
  match v with
  | VInt z => inr (inject_Z z)
  | VFloat q => inr q
  | VBool b => inr (if b then 1%Q else 0%Q)
  | _ => inl TypeError
  end.

Definition Qleb (a b : Q) : bool := if Qlt_le_dec b a then false else true.
Definition Qltb (a b : Q) : bool := if Qlt_le_dec a b then true else false.

Fixpoint max_list (l : list Z) : option Z :=
  match l with
  | [] => None
  | x :: l' => match max_list l' with
               | Some m => Some (Z.max x m)
               | None => Some x
               end
  end.

(** [v == n] for an int [n]. *)
Definition eq_int (v : value) (n : Z) : bool :=
  match v with
  | VInt z => z =? n
  | VBool b => (if b then 1 else 0) =? n
  | VFloat q => Qeq_bool q (inject_Z n)
  | _ => false
  end.

(** [a == b] on values. *)
Definition value_eqb (a b : value) : bool :=
  match a, b with
  | VNone, VNone => true
  | VStr s, VStr t => String.eqb s t
  | VInt z, _ => eq_int b z
  | _, VInt z => eq_int a z
  | VBool x, VBool y => Bool.eqb x y
  | VBool x, VFloat q | VFloat q, VBool x =>
      Qeq_bool q (if x then 1%Q else 0%Q)
  | VFloat p, VFloat q => Qeq_bool p q
  | _, _ => false
  end.

(** [round(a / usdt_rate, 2) if usdt_rate > 0 else 0] *)
Definition to_usdt (a usdt_rate : Q) : Q :=
  if Qltb 0 usdt_rate then round2 (a / usdt_rate) else 0%Q.
(** ** [CacheManager] (sheets.py) *)

Module Cache.

(** [CACHE_DURATION], in seconds. *)
Definition CACHE_DURATION : Q := 10%Q.

Section Manager.

Context {V : Type}.

(** The attributes of a [CacheManager]. A cache entry is the pair
    [(timestamp, value)]. Clock readings ([time.time()]) are rationals. *)
Record CacheManager : Type := mkCacheManager {
  cache : gmap string (Q * V);
  hits : nat;
  misses : nat;
  last_access_time : gmap string Q;
  invalidations : nat
}.

(** [CacheManager.__init__] *)
Definition init : CacheManager :=
  {| cache := ∅; hits := O; misses := O;
     last_access_time := ∅; invalidations := O |}.

(** [CacheManager.get]: the pair [(value, exists)] is [Some value] for
    [(value, True)] and [None] for [(None, False)]. *)
Definition get (key : string) (now : Q) (cm : CacheManager)
  : option V * CacheManager :=
  let lat := <[key := now]> (last_access_time cm) in
  match cache cm !! key with
  | Some (timestamp, value) =>
      if Qlt_le_dec (now - timestamp) CACHE_DURATION
      then (Some value,
            {| cache := cache cm; hits := S (hits cm); misses := misses cm;
               last_access_time := lat; invalidations := invalidations cm |})
      else (None,
            {| cache := delete key (cache cm); hits := hits cm;
               misses := S (misses cm); last_access_time := lat;
               invalidations := S (invalidations cm) |})
  | None =>
      (None,
       {| cache := cache cm; hits := hits cm; misses := S (misses cm);
          last_access_time := lat; invalidations := invalidations cm |})
  end.

(** [CacheManager.set] *)
Definition set (key : string) (value : V) (now : Q) (cm : CacheManager)
  : CacheManager :=
  {| cache := <[key := (now, value)]> (cache cm); hits := hits cm;
     misses := misses cm; last_access_time := last_access_time cm;
     invalidations := invalidations cm |}.

(** [CacheManager.invalidate]: [None] clears every entry. *)
Definition invalidate (key : option string) (cm : CacheManager)
  : CacheManager :=
  match key with
  | None =>
      {| cache := ∅; hits := hits cm; misses := misses cm;
         last_access_time := last_access_time cm;
         invalidations := (invalidations cm + size (cache cm))%nat |}
  | Some k =>
      match cache cm !! k with
      | Some _ =>
          {| cache := delete k (cache cm); hits := hits cm;
             misses := misses cm; last_access_time := last_access_time cm;
             invalidations := S (invalidations cm) |}
      | None => cm
      end
  end.

(** [CacheManager.invalidate_pattern] *)
Definition invalidate_pattern (pattern : string) (cm : CacheManager)
  : CacheManager :=
  let kept :=
    filter (λ kv : string * (Q * V), Py.contains pattern kv.1 = false)
           (cache cm) in
  {| cache := kept; hits := hits cm; misses := misses cm;
     last_access_time := last_access_time cm;
     invalidations :=
       (invalidations cm + (size (cache cm) - size kept))%nat |}.

(** The fixed pattern list of [invalidate_transaction_cache]. *)
Definition transaction_patterns : list string :=
  [ "get_transaction"; "get_all_transactions"; "get_daily_transactions";
    "get_unpaid_transactions"; "get_daily_statistics" ].

(** [CacheManager.invalidate_transaction_cache]; [Py.VNone] is the default
    [transaction_id=None]. *)
Definition invalidate_transaction_cache (transaction_id : Py.value)
    (cm : CacheManager) : CacheManager :=
  match transaction_id with
  | Py.VNone =>
      fold_left (λ acc p, invalidate_pattern p acc) transaction_patterns cm
  | _ => invalidate (Some ("get_transaction:" +:+ Py.str transaction_id)) cm
  end.

End Manager.

Arguments CacheManager : clear implicits.

End Cache.

(** ** Results shared by the two stores *)

(** The statistics dictionary of [get_daily_statistics]. The empty record of
    the spreadsheet store carries no ["date"] key, and the relational store
    never fills ["methods_count"]; both are optional here. *)
Record stats : Type := mkStats {
  st_date : option string;
  transactions_count : nat;
  total_amount : Q;
  awaiting_amount : Q;
  to_pay_amount : Q;
  paid_amount : Q;
  avg_rate : Q;
  avg_commission : Q;
  unpaid_usdt : Q;
  to_pay_usdt : Q;
  total_usdt : Q;
  paid_usdt : Q;
  methods_count : option (list (Py.value * nat))
}.

(** The all-zero statistics dictionary. *)
Definition zero_stats (date : option string)
    (methods : option (list (Py.value * nat))) : stats :=
  {| st_date := date; transactions_count := O;
     total_amount := 0; awaiting_amount := 0; to_pay_amount := 0;
     paid_amount := 0; avg_rate := 0; avg_commission := 0;
     unpaid_usdt := 0; to_pay_usdt := 0; total_usdt := 0; paid_usdt := 0;
     methods_count := methods |}.

(** What a read operation of the spreadsheet store returns, and hence what
    the cache holds. [RVal Py.VNone] is Python's [None]. *)
Inductive result : Type :=
  | RVal (v : Py.value)
  | RDict (d : Py.dict)
  | RList (l : list Py.dict)
  | RStats (s : stats).

(** [result is None] *)
Definition is_None (r : result) : bool :=
  match r with
  | RVal Py.VNone => true
  | _ => false
  end.

(** ** The spreadsheet store (sheets.py) *)

Module Sheets.

(** A worksheet row is the list of its cell texts, as the API hands it to
    the code; rows may have different lengths (the sources test [len(row)]
    throughout). *)
Abbreviation row := (list string).

(** Clock and configuration read by the code. *)
Record Env : Type := mkEnv {
  DEBUG : bool;        (* config.DEBUG *)
  now : Q;             (* time.time() *)
  today : string;      (* datetime.now(MSK_TIMEZONE).strftime("%d.%m.%Y") *)
  clock : string       (* datetime.now(MSK_TIMEZONE).strftime("%H:%M:%S") *)
}.

(** The remote spreadsheet. [faults] lists the outcome of the API calls to
    come ([true]: the call raises); [api_calls] counts the calls made. *)
Record Remote : Type := mkRemote {
  faults : list bool;
  api_calls : nat;
  sheet : list row;                     (* worksheet SHEET_NAME *)
  ws_DaySettings : option (list row);   (* worksheet "DaySettings" *)
  ws_DayStatus : option (list row)      (* worksheet "DayStatus" *)
}.

(** A [GoogleSheetsClient] instance together with its surroundings. *)
Record Client : Type := mkClient {
  env : Env;
  remote : Remote;
  dummy_mode : bool;
  cache_manager : Cache.CacheManager result;
  cache : gmap string stats;
  daily_transactions : list dict;
  day_settings : option dict;
  day_open : option bool
}.

Definition set_env (e : Env) (c : Client) : Client :=
  {| env := e; remote := remote c; dummy_mode := dummy_mode c;
     cache_manager := cache_manager c; cache := cache c;
     daily_transactions := daily_transactions c;
     day_settings := day_settings c; day_open := day_open c |}.

Definition set_now (t : Q) (c : Client) : Client :=
  set_env {| DEBUG := DEBUG (env c); now := t; today := today (env c);
             clock := clock (env c) |} c.

Definition set_remote (r : Remote) (c : Client) : Client :=
  {| env := env c; remote := r; dummy_mode := dummy_mode c;
     cache_manager := cache_manager c; cache := cache c;
     daily_transactions := daily_transactions c;
     day_settings := day_settings c; day_open := day_open c |}.

Definition set_cache_manager (cm : Cache.CacheManager result) (c : Client)
  : Client :=
  {| env := env c; remote := remote c; dummy_mode := dummy_mode c;
     cache_manager := cm; cache := cache c;
     daily_transactions := daily_transactions c;
     day_settings := day_settings c; day_open := day_open c |}.

Definition set_cache (m : gmap string stats) (c : Client) : Client :=
  {| env := env c; remote := remote c; dummy_mode := dummy_mode c;
     cache_manager := cache_manager c; cache := m;
     daily_transactions := daily_transactions c;
     day_settings := day_settings c; day_open := day_open c |}.

Definition set_daily_transactions (l : list dict) (c : Client) : Client :=
  {| env := env c; remote := remote c; dummy_mode := dummy_mode c;
     cache_manager := cache_manager c; cache := cache c;
     daily_transactions := l;
     day_settings := day_settings c; day_open := day_open c |}.

Definition set_day_settings (d : option dict) (c : Client) : Client :=
  {| env := env c; remote := remote c; dummy_mode := dummy_mode c;
     cache_manager := cache_manager c; cache := cache c;
     daily_transactions := daily_transactions c;
     day_settings := d; day_open := day_open c |}.

Definition set_day_open (b : option bool) (c : Client) : Client :=
  {| env := env c; remote := remote c; dummy_mode := dummy_mode c;
     cache_manager := cache_manager c; cache := cache c;
     daily_transactions := daily_transactions c;
     day_settings := day_settings c; day_open := b |}.

Definition set_sheet (s : list row) (r : Remote) : Remote :=
  {| faults := faults r; api_calls := api_calls r; sheet := s;
     ws_DaySettings := ws_DaySettings r; ws_DayStatus := ws_DayStatus r |}.

Definition set_ws_DaySettings (s : option (list row)) (r : Remote) : Remote :=
  {| faults := faults r; api_calls := api_calls r; sheet := sheet r;
     ws_DaySettings := s; ws_DayStatus := ws_DayStatus r |}.

Definition set_ws_DayStatus (s : option (list row)) (r : Remote) : Remote :=
  {| faults := faults r; api_calls := api_calls r; sheet := sheet r;
     ws_DaySettings := ws_DaySettings r; ws_DayStatus := s |}.

(** One API call consumes one entry of [faults]. *)
Definition called (r : Remote) : Remote :=
  {| faults := tail (faults r); api_calls := S (api_calls r);
     sheet := sheet r; ws_DaySettings := ws_DaySettings r;
     ws_DayStatus := ws_DayStatus r |}.

(** *** The monad of the store's methods *)

Inductive outcome (A : Type) : Type :=
  | Ret (a : A)
  | Raise (e : exn).

Arguments Ret {A} a.
Arguments Raise {A} e.

Definition M (A : Type) : Type := Client -> outcome A * Client.

Definition ret {A : Type} (a : A) : M A := fun c => (Ret a, c).

Definition raise {A : Type} (e : exn) : M A := fun c => (Raise e, c).

Definition bind {A B : Type} (m : M A) (k : A -> M B) : M B :=
  fun c =>
    match m c with
    | (Ret a, c') => k a c'
    | (Raise e, c') => (Raise e, c')
    end.

Notation "x <- m ;; k" := (bind m (fun x => k))
  (at level 62, m at next level, right associativity) : store_scope.
Notation "m ;;; k" := (bind m (fun _ => k))
  (at level 62, right associativity) : store_scope.

Local Open Scope store_scope.

(** [try: body  except <types> as e: handler e] *)
Definition try_except {A : Type} (body : M A) (handles : exn -> bool)
    (handler : exn -> M A) : M A :=
  fun c =>
    match body c with
    | (Raise e, c') => if handles e then handler e c' else (Raise e, c')
    | r => r
    end.

(** [except Exception] *)
Definition Exception (e : exn) : bool := true.

(** [except (ValueError, TypeError)] *)
Definition ValueError_or_TypeError (e : exn) : bool :=
  match e with
  | ValueError | TypeError => true
  | _ => false
  end.

(** [except gspread.exceptions.WorksheetNotFound] *)
Definition is_WorksheetNotFound (e : exn) : bool :=
  match e with
  | WorksheetNotFound => true
  | _ => false
  end.

Definition self : M Client := fun c => (Ret c, c).

Definition modify (f : Client -> Client) : M unit := fun c => (Ret tt, f c).

Definition lift {A : Type} (x : exn + A) : M A :=
  match x with
  | inl e => raise e
  | inr a => ret a
  end.

(** [l[i]] *)
Definition item {A : Type} (l : list A) (i : nat) : M A :=
  match l !! i with
  | Some x => ret x
  | None => raise IndexError
  end.

(** [d[k]] *)
Definition subscript (d : dict) (k : string) : M value :=
  match d !! k with
  | Some v => ret v
  | None => raise (KeyError k)
  end.

(** [self.cache_manager.<method>(...)] *)
Definition with_cache_manager
    (f : Cache.CacheManager result -> Cache.CacheManager result) : M unit :=
  modify (fun c => set_cache_manager (f (cache_manager c)) c).

(** *** The worksheet API (gspread), as far as the store uses it *)

(** How the spreadsheet shows a written value as cell text. *)
Definition cell_text (v : value) : string :=
  match v with
  | VNone => ""
  | VBool true => "TRUE"
  | VBool false => "FALSE"
  | VInt z => pretty z
  | VFloat q =>
      let q' := Qred q in
      if (Qden q' =? 1)%positive then pretty (Qnum q') else float_repr q
  | VStr s => s
  end.

(** Every API call may raise. *)
Definition api : M unit :=
  fun c =>
    let c' := set_remote (called (remote c)) c in
    match faults (remote c) with
    | true :: _ => (Raise BackendError, c')
    | _ => (Ret tt, c')
    end.

(** [self.sheet.col_values(1)] *)
Definition col_values_1 : M (list string) :=
  api ;;; c <- self ;; ret (map (fun r : row => nth 0 r "") (sheet (remote c))).

(** [self.sheet.row_values(row_idx)], rows counted from 1. *)
Definition row_values (row_idx : nat) : M row :=
  api ;;; c <- self ;; ret (nth (row_idx - 1) (sheet (remote c)) []).

(** [self.sheet.get_all_values()] *)
Definition get_all_values : M (list row) :=
  api ;;; c <- self ;; ret (sheet (remote c)).

(** [self.sheet.append_row(row)] *)
Definition append_row (r : list value) : M unit :=
  api ;;;
  modify (fun c =>
    set_remote (set_sheet (sheet (remote c) ++ [map cell_text r]) (remote c)) c).

(** Writing [cells] over the first cells of an existing row. *)
Definition overwrite (cells old : row) : row :=
  cells ++ drop (length cells) old.

(** [self.sheet.update(f'A{row_idx}:J{row_idx}', [updated_row])] *)
Definition update_row (row_idx : nat) (r : list value) : M unit :=
  api ;;;
  modify (fun c =>
    let s := sheet (remote c) in
    let old := nth (row_idx - 1) s [] in
    set_remote
      (set_sheet (<[(row_idx - 1)%nat := overwrite (map cell_text r) old]> s)
                 (remote c)) c).

(** *** Calls and cache keys *)

(** Keyword arguments, in call order. *)
Abbreviation kwargs := (list (string * value)).

Fixpoint kw_lookup (k : string) (kw : kwargs) : option value :=
  match kw with
  | [] => None
  | (k', v) :: kw' => if String.eqb k k' then Some v else kw_lookup k kw'
  end.

Definition kw_remove (k : string) (kw : kwargs) : kwargs :=
  List.filter (fun kv : string * value => negb (String.eqb k kv.1)) kw.

(** Binding of the parameter at position [pos] called [name], for a call
    that Python binds to the signature: the parameter is the positional
    argument at [pos] when there is one, else the keyword argument [name],
    else the default. A call with a surplus positional argument, an unknown
    keyword or a parameter given twice never reaches the body: Python raises
    [TypeError] at the call, outside the [try] of the method. Such calls are
    not described here; [Spec.binds] says which calls are. *)
Definition param (pos : nat) (name : string) (dflt : value)
    (args : list value) (kw : kwargs) : value :=
  match args !! pos with
  | Some v => v
  | None => default dflt (kw_lookup name kw)
  end.

(** A [str.format] pattern, parsed: literal text and positional fields. *)
Inductive piece : Type :=
  | Lit (s : string)
  | Field (n : nat).

(** [key_pattern.format] on [full_args]; [IndexError] for a missing field. *)
Fixpoint format (pattern : list piece) (full_args : list string) : E string :=
  match pattern with
  | [] => inr ""
  | Lit s :: p => rest <-? format p full_args ;; inr (s +:+ rest)
  | Field n :: p =>
      a <-? eitem full_args n ;;
      rest <-? format p full_args ;; inr (a +:+ rest)
  end.

(** The cache key the decorator computes for a call. *)
Definition cache_key (key_pattern : list piece) (function_name : string)
    (args : list value) (kw : kwargs) : string :=
  let arg_strings := map str args in
  let kwarg_strings :=
    map (fun kv : string * value => kv.1 +:+ "=" +:+ str kv.2)
        (kw_remove "force_cache" kw) in
  let full_args := arg_strings ++ kwarg_strings in
  match full_args with
  | [] => function_name
  | _ =>
      match format key_pattern full_args with
      | inr key => key
      | inl _ => function_name +:+ ":" +:+ String.concat "," full_args
      end
  end.

(** The [cache_result(key_pattern)] decorator applied to [func], whose
    [__name__] is [function_name]. [args] are the positional arguments after
    [self]. The instance always has a [cache_manager] ([__init__] creates
    it), so the [hasattr] branch that would create one is not taken. *)
Definition cache_result (key_pattern : list piece) (function_name : string)
    (func : list value -> kwargs -> M result)
    (args : list value) (kw : kwargs) : M result :=
  c <- self ;;
  if dummy_mode c then func args kw
  else if DEBUG (env c)
          && negb (truthy (default (VBool false) (kw_lookup "force_cache" kw)))
  then func args (kw_remove "force_cache" kw)
  else
    let key := cache_key key_pattern function_name args kw in
    let '(value, cm) := Cache.get key (now (env c)) (cache_manager c) in
    modify (set_cache_manager cm) ;;;
    match value with
    | Some v => ret v
    | None =>
        r <- func args kw ;;
        if is_None r then ret r
        else
          c' <- self ;;
          with_cache_manager (Cache.set key r (now (env c'))) ;;;
          ret r
    end.

(** *** Transactions *)

(** [datetime.now(MSK_TIMEZONE).strftime("%d.%m.%Y %H:%M:%S")] *)
Definition timestamp (e : Env) : string := today e +:+ " " +:+ clock e.

Definition STATUS_UNPAID : string := "Не выплачено".
Definition STATUS_PAID : string := "Выплачено".

(** The number behind an ["id"] entry of the in-memory list. The code only
    ever stores ints there; anything else is a type error here. *)
Definition id_number (v : value) : E Z :=
  match v with
  | VInt z => inr z
  | VBool b => inr (if b then 1 else 0)
  | _ => inl TypeError
  end.

(** The record [add_transaction] builds in dummy mode. *)
Definition new_dummy_transaction (new_id : Z) (e : Env) (data : dict)
    : E dict :=
  amount <-? esubscript data "amount" ;;
  method <-? esubscript data "method" ;;
  commission <-? esubscript data "commission" ;;
  rate <-? esubscript data "rate" ;;
  inr (<["id" := VInt new_id]>
       (<["datetime" := VStr (timestamp e)]>
       (<["amount" := amount]>
       (<["method" := method]>
       (<["commission" := commission]>
       (<["rate" := rate]>
       (<["status" := VStr STATUS_UNPAID]>
       (<["group" := get data "group" (VStr "Development Group")]>
       (<["hash" := VStr ""]>
       (<["chat_id" := get data "chat_id" (VStr "")]> ∅)))))))))).

(** The row [add_transaction] appends in regular mode. *)
Definition new_row (new_id : Z) (e : Env) (data : dict) : E (list value) :=
  amount <-? esubscript data "amount" ;;
  method <-? esubscript data "method" ;;
  commission <-? esubscript data "commission" ;;
  rate <-? esubscript data "rate" ;;
  inr [ VInt new_id; VStr (timestamp e); amount; method; commission; rate;
        VStr STATUS_UNPAID; get data "group" (VStr ""); VStr "";
        get data "chat_id" (VStr "") ].

(** [GoogleSheetsClient.add_transaction] *)
Definition add_transaction (data : dict) : M Z :=
  try_except
    (c <- self ;;
     if dummy_mode c then
       new_id <-
         match daily_transactions c with
         | [] => ret 1
         | ts =>
             ids <- lift (emap (fun t => id_number (get t "id" (VInt 0))) ts) ;;
             match max_list ids with
             | Some m => ret (m + 1)
             | None => raise ValueError
             end
         end ;;
       transaction <- lift (new_dummy_transaction new_id (env c) data) ;;
       modify (fun c => set_daily_transactions
                          (daily_transactions c ++ [transaction]) c) ;;;
       with_cache_manager (Cache.invalidate_transaction_cache VNone) ;;;
       ret new_id
     else
       id_col <- col_values_1 ;;
       let all_ids := tail id_col in
       new_id <-
         match all_ids with
         | [] => ret 1
         | _ =>
             match max_list (map (parse_digits 0)
                                 (List.filter isdigit all_ids)) with
             | Some m => ret (m + 1)
             | None => raise ValueError
             end
         end ;;
       r <- lift (new_row new_id (env c) data) ;;
       append_row r ;;;
       with_cache_manager (Cache.invalidate_transaction_cache VNone) ;;;
       ret new_id)
    Exception
    (fun e => raise e).

(** [for key, value in data.items(): if key in transaction:
    transaction[key] = value] *)
Definition update_existing (transaction data : dict) : dict :=
  map_imap (fun k v => Some (default v (data !! k))) transaction.

(** The dummy-mode loop of [update_transaction] over the in-memory list:
    [Some l'] when a record with the identifier was found and updated. *)
Fixpoint update_in_memory (transaction_id : value) (data : dict)
    (l : list dict) : E (option (list dict)) :=
  match l with
  | [] => inr None
  | t :: l' =>
      i <-? esubscript t "id" ;;
      if value_eqb i transaction_id
      then inr (Some (update_existing t data :: l'))
      else r <-? update_in_memory transaction_id data l' ;;
           inr (option_map (cons t) r)
  end.

(** [r[i] if len(r) > i else ""] *)
Definition cell (r : row) (i : nat) : string :=
  if (i <? length r)%nat then nth i r "" else "".

(** The list [updated_row] that [update_transaction] writes back. *)
Definition updated_row (row_data : row) (data : dict) : E (list value) :=
  r0 <-? eitem row_data 0 ;;
  r1 <-? eitem row_data 1 ;;
  r2 <-? eitem row_data 2 ;;
  r3 <-? eitem row_data 3 ;;
  r4 <-? eitem row_data 4 ;;
  r5 <-? eitem row_data 5 ;;
  r6 <-? eitem row_data 6 ;;
  r7 <-? eitem row_data 7 ;;
  let updated :=
    [ VStr r0;                              (* ID (unchanged) *)
      VStr r1;                              (* Date/time (unchanged) *)
      get data "amount" (VStr r2);
      get data "method" (VStr r3);
      get data "commission" (VStr r4);
      get data "rate" (VStr r5);
      get data "status" (VStr r6);
      VStr r7;                              (* Group (unchanged) *)
      get data "hash" (VStr (cell row_data 8)) ] in
  (* the 10th column, chat_id *)
  if (9 <? length row_data)%nat
  then r9 <-? eitem row_data 9 ;;
       inr (updated ++ [get data "chat_id" (VStr r9)])
  else inr (updated ++ [get data "chat_id" (VStr "")]).

(** Index of the first entry of the ID column equal to [str(id)]. *)
Definition find_row (id_text : string) (id_col : list string) : option nat :=
  fst <$> list_find (fun v : string => v = id_text) id_col.

(** [GoogleSheetsClient.update_transaction] *)
Definition update_transaction (transaction_id : value) (data : dict)
    : M bool :=
  try_except
    (c <- self ;;
     if dummy_mode c then
       r <- lift (update_in_memory transaction_id data (daily_transactions c)) ;;
       match r with
       | Some l' => modify (set_daily_transactions l') ;;; ret true
       | None => ret false
       end
     else
       id_col <- col_values_1 ;;
       match find_row (str transaction_id) id_col with
       | None => ret false
       | Some i =>
           let row_idx := S i in   (* sheet rows are 1-indexed *)
           row_data <- row_values row_idx ;;
           r <- lift (updated_row row_data data) ;;
           update_row row_idx r ;;;
           with_cache_manager
             (Cache.invalidate_transaction_cache transaction_id) ;;;
           ret true
       end)
    Exception
    (fun _ => ret false).

(** The dummy-mode loop of [get_transaction]. *)
Fixpoint find_in_memory (transaction_id : value) (l : list dict)
    : E (option dict) :=
  match l with
  | [] => inr None
  | t :: l' =>
      i <-? esubscript t "id" ;;
      if value_eqb i transaction_id then inr (Some t)
      else find_in_memory transaction_id l'
  end.

(** The dictionary [get_transaction] makes of a row. *)
Definition transaction_of_row_data (row_data : row) : E dict :=
  r0 <-? eitem row_data 0 ;;
  i <-? int_ r0 ;;
  r1 <-? eitem row_data 1 ;;
  r2 <-? eitem row_data 2 ;;
  r3 <-? eitem row_data 3 ;;
  r4 <-? eitem row_data 4 ;;
  r5 <-? eitem row_data 5 ;;
  r6 <-? eitem row_data 6 ;;
  inr (<["id" := VInt i]>
       (<["datetime" := VStr r1]>
       (<["amount" := VStr r2]>
       (<["method" := VStr r3]>
       (<["commission" := VStr r4]>
       (<["rate" := VStr r5]>
       (<["status" := VStr r6]>
       (<["group" := VStr (cell row_data 7)]>
       (<["hash" := VStr (cell row_data 8)]>
       (<["chat_id" := VStr (cell row_data 9)]> ∅)))))))))).

(** The body of [GoogleSheetsClient.get_transaction]. *)
Definition get_transaction_func (args : list value) (kw : kwargs)
    : M result :=
  let transaction_id := param 0 "transaction_id" VNone args kw in
  try_except
    (c <- self ;;
     if dummy_mode c then
       r <- lift (find_in_memory transaction_id (daily_transactions c)) ;;
       match r with
       | Some t => ret (RDict t)
       | None => ret (RVal VNone)
       end
     else
       id_col <- col_values_1 ;;
       match find_row (str transaction_id) id_col with
       | None => ret (RVal VNone)
       | Some i =>
           row_data <- row_values (S i) ;;
           t <- lift (transaction_of_row_data row_data) ;;
           ret (RDict t)
       end)
    Exception
    (fun _ => ret (RVal VNone)).

(** [GoogleSheetsClient.get_transaction], decorated. *)
Definition get_transaction : list value -> kwargs -> M result :=
  cache_result [Lit "get_transaction:"; Field 0] "get_transaction"
               get_transaction_func.

(** The dictionary [get_all_transactions] makes of a row. *)
Definition transaction_of_row (r : row) : dict :=
  let r0 := nth 0 r "" in
  <["id" := VInt (if isdigit r0 then parse_digits 0 r0 else 0)]>
  (<["datetime" := VStr (nth 1 r "")]>
  (<["amount" := VStr (nth 2 r "")]>
  (<["method" := VStr (nth 3 r "")]>
  (<["commission" := VStr (nth 4 r "")]>
  (<["rate" := VStr (nth 5 r "")]>
  (<["status" := VStr (nth 6 r "")]>
  (<["group" := VStr (cell r 7)]>
  (<["hash" := VStr (cell r 8)]>
  (<["chat_id" := VStr (cell r 9)]> ∅))))))))).

(** The regular-mode loop of [get_all_transactions] over the data rows. *)
Fixpoint transactions_of_rows (date : value) (data_rows : list row)
    : E (list dict) :=
  match data_rows with
  | [] => inr []
  | r :: rows =>
      if (length r <? 7)%nat then transactions_of_rows date rows
      else
        skip <-? (if truthy date
                  then d <-? str_argument date ;;
                       inr (negb (startswith (nth 1 r "") d))
                  else inr false) ;;
        rest <-? transactions_of_rows date rows ;;
        inr (if skip then rest else transaction_of_row r :: rest)
  end.

(** The body of [GoogleSheetsClient.get_all_transactions]. *)
Definition get_all_transactions_func (args : list value) (kw : kwargs)
    : M result :=
  let date := param 0 "date" VNone args kw in
  let force_refresh := param 1 "force_refresh" (VBool false) args kw in
  (if truthy force_refresh
   then with_cache_manager (Cache.invalidate_pattern "get_all_transactions") ;;;
        with_cache_manager (Cache.invalidate_pattern "get_transaction")
   else ret tt) ;;;
  try_except
    (c <- self ;;
     if dummy_mode c then
       if negb (truthy date) then ret (RList (daily_transactions c))
       else
         l <- lift (efilter
                      (fun t => dt <-? esubscript t "datetime" ;;
                                s <-? str_receiver "startswith" dt ;;
                                d <-? str_argument date ;;
                                inr (startswith s d))
                      (daily_transactions c)) ;;
         ret (RList l)
     else
       all_data <- get_all_values ;;
       let data_rows := tail all_data in   (* skip header *)
       l <- lift (transactions_of_rows date data_rows) ;;
       ret (RList l))
    Exception
    (fun _ => ret (RList [])).

(** [GoogleSheetsClient.get_all_transactions], decorated. *)
Definition get_all_transactions : list value -> kwargs -> M result :=
  cache_result [Lit "get_all_transactions:"; Field 0] "get_all_transactions"
               get_all_transactions_func.

(** The body of [GoogleSheetsClient.get_daily_transactions]. *)
Definition get_daily_transactions_func (args : list value) (kw : kwargs)
    : M result :=
  let force_refresh := param 0 "force_refresh" (VBool false) args kw in
  c <- self ;;
  let current_date := today (env c) in
  get_all_transactions
    [] [("date", VStr current_date); ("force_refresh", force_refresh)].

(** [GoogleSheetsClient.get_daily_transactions], decorated. *)
Definition get_daily_transactions : list value -> kwargs -> M result :=
  cache_result [Lit "get_daily_transactions"] "get_daily_transactions"
               get_daily_transactions_func.

(** The list behind a result that is a list of transactions. *)
Definition as_list (r : result) : M (list dict) :=
  match r with
  | RList l => ret l
  | _ => raise TypeError
  end.

(** The status test of [get_unpaid_transactions]. *)
Definition looks_unpaid (tx : dict) : E bool :=
  let status := lower (str (get tx "status" (VStr ""))) in
  _ <-? esubscript tx "id" ;;          (* read by the log message *)
  inr (contains "не" status || String.eqb status "").

(** The body of [GoogleSheetsClient.get_unpaid_transactions]. *)
Definition get_unpaid_transactions_func (args : list value) (kw : kwargs)
    : M result :=
  let force_refresh := param 0 "force_refresh" (VBool false) args kw in
  r <- get_all_transactions [] [("force_refresh", force_refresh)] ;;
  all_transactions <- as_list r ;;
  unpaid_transactions <- lift (efilter looks_unpaid all_transactions) ;;
  ret (RList unpaid_transactions).

(** [GoogleSheetsClient.get_unpaid_transactions], decorated. *)
Definition get_unpaid_transactions : list value -> kwargs -> M result :=
  cache_result [Lit "get_unpaid_transactions"] "get_unpaid_transactions"
               get_unpaid_transactions_func.

(** [bool(r)] for a result. *)
Definition result_truthy (r : result) : bool :=
  match r with
  | RVal v => truthy v
  | RDict d => negb (bool_decide (d = ∅))
  | RList l => match l with [] => false | _ => true end
  | RStats _ => true
  end.

(** [GoogleSheetsClient.mark_transaction_paid] *)
Definition mark_transaction_paid (transaction_id transaction_hash : value)
    : M bool :=
  try_except
    (transaction <- get_transaction [transaction_id] [] ;;
     if negb (result_truthy transaction) then ret false
     else
       r <- update_transaction transaction_id
              (<["status" := VStr STATUS_PAID]>
               (<["hash" := transaction_hash]> ∅)) ;;
       (if r
        then with_cache_manager (Cache.invalidate_pattern "get_daily_statistics")
        else ret tt) ;;;
       ret r)
    Exception
    (fun _ => ret false).

(** *** Day settings and day status *)

(** The two auxiliary worksheets. *)
Inductive aux_sheet : Type := DaySettings | DayStatus.

Definition aux_rows (w : aux_sheet) (r : Remote) : option (list row) :=
  match w with
  | DaySettings => ws_DaySettings r
  | DayStatus => ws_DayStatus r
  end.

Definition set_aux_rows (w : aux_sheet) (rows : option (list row))
    (r : Remote) : Remote :=
  match w with
  | DaySettings => set_ws_DaySettings rows r
  | DayStatus => set_ws_DayStatus rows r
  end.

Definition aux_header (w : aux_sheet) : list value :=
  match w with
  | DaySettings =>
      [VStr "Дата"; VStr "Курс"; VStr "Процент комиссии"; VStr "chat_id"]
  | DayStatus => [VStr "Дата"; VStr "Статус"; VStr "Время"; VStr "chat_id"]
  end.

(** [self.client.open_by_key(SPREADSHEET_ID)] *)
Definition open_by_key : M unit := api.

(** [spreadsheet.worksheet(title)] *)
Definition worksheet (w : aux_sheet) : M unit :=
  api ;;;
  c <- self ;;
  match aux_rows w (remote c) with
  | Some _ => ret tt
  | None => raise WorksheetNotFound
  end.

(** [spreadsheet.add_worksheet(title=..., rows=100, cols=20)] *)
Definition add_worksheet (w : aux_sheet) : M unit :=
  api ;;;
  modify (fun c => set_remote (set_aux_rows w (Some []) (remote c)) c).

Definition aux_current (w : aux_sheet) (c : Client) : list row :=
  default [] (aux_rows w (remote c)).

(** [ws.get_all_values()] *)
Definition aux_get_all_values (w : aux_sheet) : M (list row) :=
  api ;;; c <- self ;; ret (aux_current w c).

(** [ws.append_row(r)] *)
Definition aux_append_row (w : aux_sheet) (r : list value) : M unit :=
  api ;;;
  modify (fun c =>
    set_remote
      (set_aux_rows w (Some (aux_current w c ++ [map cell_text r]))
                    (remote c)) c).

(** [ws.update(f'A{i}:D{i}', [r])]; row 1 of an empty worksheet is created. *)
Definition aux_update_row (w : aux_sheet) (i : nat) (r : list value)
    : M unit :=
  api ;;;
  modify (fun c =>
    let s := aux_current w c in
    let s' := match s with
              | [] => [map cell_text r]
              | _ => <[(i - 1)%nat :=
                        overwrite (map cell_text r) (nth (i - 1) s [])]> s
              end in
    set_remote (set_aux_rows w (Some s') (remote c)) c).

(** Creating a missing auxiliary worksheet with its header row. *)
Definition create_aux (w : aux_sheet) : M unit :=
  open_by_key ;;;
  add_worksheet w ;;;
  aux_update_row w 1 (aux_header w).

(** [str(chat_id) if chat_id is not None else ""] *)
Definition chat_id_text (chat_id : value) : string :=
  match chat_id with
  | VNone => ""
  | _ => str chat_id
  end.

(** [len(row) > 3 and row[3] == s] *)
Definition row_is_for (s : string) (r : row) : bool :=
  (3 <? length r)%nat && String.eqb (nth 3 r "") s.

(** [GoogleSheetsClient.save_day_settings] *)
Definition save_day_settings (rate commission_percent chat_id : value)
    : M bool :=
  try_except
    (c <- self ;;
     if dummy_mode c then
       let current_date := today (env c) in
       modify (set_day_settings
                 (Some (<["date" := VStr current_date]>
                        (<["rate" := rate]>
                         (<["commission_percent" := commission_percent]>
                          ∅))))) ;;;
       with_cache_manager (Cache.invalidate_pattern "get_day_settings") ;;;
       with_cache_manager (Cache.invalidate_pattern "get_current_rate") ;;;
       ret true
     else
       try_except
         (open_by_key ;;; worksheet DaySettings)
         is_WorksheetNotFound
         (fun _ => create_aux DaySettings) ;;;
       all_data <- aux_get_all_values DaySettings ;;
       let current_date := today (env c) in
       let chat_id_str := chat_id_text chat_id in
       let entry := [VStr current_date; rate; commission_percent;
                     VStr chat_id_str] in
       match list_find (fun r => row_is_for chat_id_str r = true)
                       (tail all_data) with
       | Some (i, _) =>
           (* rows of the data part are numbered from 2 *)
           aux_update_row DaySettings (i + 2) entry
       | None => aux_append_row DaySettings entry
       end ;;;
       match chat_id with
       | VNone =>
           with_cache_manager (Cache.invalidate_pattern "get_day_settings") ;;;
           with_cache_manager (Cache.invalidate_pattern "get_current_rate")
       | _ =>
           with_cache_manager
             (Cache.invalidate (Some ("get_day_settings:" +:+ str chat_id))) ;;;
           with_cache_manager
             (Cache.invalidate (Some ("get_current_rate:" +:+ str chat_id)))
       end ;;;
       ret true)
    Exception
    (fun _ => ret false).

(** Insertion of [x] behind every element whose key is not greater. *)
Fixpoint insert_by {A : Type} (key : A -> string) (x : A) (l : list A)
    : list A :=
  match l with
  | [] => [x]
  | y :: l' =>
      if String.ltb (key x) (key y) then x :: y :: l'
      else y :: insert_by key x l'
  end.

(** [l.sort(key=key)]: a stable sort on string keys. *)
Definition sort_by {A : Type} (key : A -> string) (l : list A) : list A :=
  fold_left (fun acc x => insert_by key x acc) l [].

(** [float(s) if s else 0] for the cell at position [i] of a settings row. *)
Definition setting_number (r : row) (i : nat) : E value :=
  if (i <? length r)%nat && negb (String.eqb (nth i r "") "")
  then q <-? to_float (VStr (nth i r "")) ;; inr (VFloat q)
  else inr (VInt 0).

(** The dictionary [get_day_settings] makes of the latest row. *)
Definition settings_of_row (e : Env) (latest_settings : row) : E dict :=
  let current_date :=
    if (0 <? length latest_settings)%nat then nth 0 latest_settings ""
    else today e in
  p <-? etry (rate <-? setting_number latest_settings 1 ;;
              commission <-? setting_number latest_settings 2 ;;
              inr (rate, commission))
             ValueError_or_TypeError
             (fun _ => inr (VInt 0, VInt 0)) ;;
  inr (<["date" := VStr current_date]>
       (<["rate" := p.1]>
       (<["commission_percent" := p.2]> ∅))).

(** The body of [GoogleSheetsClient.get_day_settings]. [opened] is false
    when the handler of the missing worksheet returned [None] early. *)
Definition get_day_settings_func (args : list value) (kw : kwargs)
    : M result :=
  let chat_id := param 0 "chat_id" VNone args kw in
  try_except
    (c <- self ;;
     if dummy_mode c then
       match day_settings c with
       | Some d => ret (RDict d)
       | None => ret (RVal VNone)
       end
     else
       opened <-
         try_except
           (open_by_key ;;; worksheet DaySettings ;;; ret true)
           is_WorksheetNotFound
           (fun _ =>
              try_except (create_aux DaySettings ;;; ret true)
                         Exception
                         (fun _ => ret false)) ;;
       if negb opened then ret (RVal VNone)
       else
         all_data <- aux_get_all_values DaySettings ;;
         if (length all_data <=? 1)%nat then ret (RVal VNone)
         else
           let filtered_data :=
             match chat_id with
             | VNone => tail all_data
             | _ => List.filter (row_is_for (str chat_id)) (tail all_data)
             end in
           match filtered_data with
           | [] => ret (RVal VNone)
           | _ =>
               let sorted := sort_by (fun r : row => cell r 0) filtered_data in
               latest_settings <- item sorted (length sorted - 1) ;;
               d <- lift (settings_of_row (env c) latest_settings) ;;
               ret (RDict d)
           end)
    Exception
    (fun _ => ret (RVal VNone)).

(** [GoogleSheetsClient.get_day_settings], decorated. *)
Definition get_day_settings : list value -> kwargs -> M result :=
  cache_result [Lit "get_day_settings:"; Field 0] "get_day_settings"
               get_day_settings_func.

(** The body of [GoogleSheetsClient.get_current_rate]. *)
Definition get_current_rate_func (args : list value) (kw : kwargs)
    : M result :=
  let chat_id := param 0 "chat_id" VNone args kw in
  r <- get_day_settings [] [("chat_id", chat_id)] ;;
  if negb (result_truthy r) then ret (RVal VNone)
  else
    match r with
    | RDict day_settings =>
        let rate := get day_settings "rate" VNone in
        if negb (truthy rate) then ret (RVal VNone)
        else
          q <- lift (number rate) ;;
          if Qleb q 0 then ret (RVal VNone) else ret (RVal rate)
    | _ => raise (AttributeError "get")
    end.

(** [GoogleSheetsClient.get_current_rate], decorated. *)
Definition get_current_rate : list value -> kwargs -> M result :=
  cache_result [Lit "get_current_rate:"; Field 0] "get_current_rate"
               get_current_rate_func.

Definition STATUS_OPEN : string := "Открыт".
Definition STATUS_CLOSED : string := "Закрыт".

(** The chat-specific branch of [is_day_open]. *)
Definition chat_day_open (current_date : string) (chat_id : value)
    (data_rows : list row) : E bool :=
  let str_chat_id := str chat_id in
  let filtered_data := List.filter (row_is_for str_chat_id) data_rows in
  match filtered_data with
  | [] => inr false
  | _ =>
      let sorted := sort_by (fun r : row => cell r 2) filtered_data in
      latest_status <-? eitem sorted (length sorted - 1) ;;
      d <-? eitem latest_status 0 ;;
      is_open <-? (if String.eqb d current_date
                   then s <-? eitem latest_status 1 ;;
                        inr (String.eqb s STATUS_OPEN)
                   else inr false) ;;
      _ <-? eitem latest_status 1 ;;     (* read by the log message *)
      inr is_open
  end.

(** [for row in today_status: if row[1] == "Открыт": return True] *)
Fixpoint any_open (rows : list row) : E bool :=
  match rows with
  | [] => inr false
  | r :: rows' =>
      s <-? eitem r 1 ;;
      if String.eqb s STATUS_OPEN then inr true else any_open rows'
  end.

(** The global branch of [is_day_open] ([chat_id is None]). *)
Definition global_day_open (current_date : string) (data_rows : list row)
    : E bool :=
  today_status <-?
    efilter (fun r : row => d <-? eitem r 0 ;; inr (String.eqb d current_date))
            data_rows ;;
  match today_status with
  | [] => inr false
  | _ =>
      let global_status :=
        List.filter
          (fun r : row => (length r <=? 3)%nat || String.eqb (nth 3 r "") "")
          today_status in
      match global_status with
      | _ :: _ =>
          let sorted := sort_by (fun r : row => cell r 2) global_status in
          latest_global <-? eitem sorted (length sorted - 1) ;;
          s <-? eitem latest_global 1 ;;
          inr (String.eqb s STATUS_OPEN)
      | [] =>
          (* is the day open in at least one chat? *)
          any_open today_status
      end
  end.

(** The body of [GoogleSheetsClient.is_day_open]. *)
Definition is_day_open_func (args : list value) (kw : kwargs) : M result :=
  let chat_id := param 0 "chat_id" VNone args kw in
  try_except
    (c <- self ;;
     if dummy_mode c then
       (* return stored value, default to True *)
       ret (RVal (VBool (default true (day_open c))))
     else
       opened <-
         try_except
           (open_by_key ;;; worksheet DayStatus ;;; ret true)
           is_WorksheetNotFound
           (fun _ => create_aux DayStatus ;;; ret false) ;;
       if negb opened then ret (RVal (VBool false))
       else
         all_data <- aux_get_all_values DayStatus ;;
         if (length all_data <=? 1)%nat then ret (RVal (VBool false))
         else
           let data_rows := tail all_data in
           let current_date := today (env c) in
           b <- lift (match chat_id with
                      | VNone => global_day_open current_date data_rows
                      | _ => chat_day_open current_date chat_id data_rows
                      end) ;;
           ret (RVal (VBool b)))
    Exception
    (fun _ => ret (RVal (VBool false))).

(** [GoogleSheetsClient.is_day_open], decorated. *)
Definition is_day_open : list value -> kwargs -> M result :=
  cache_result [Lit "is_day_open:"; Field 0] "is_day_open" is_day_open_func.

(** [GoogleSheetsClient.set_day_status] *)
Definition set_day_status (is_open : bool) (chat_id : value) : M bool :=
  try_except
    (c <- self ;;
     if dummy_mode c then
       modify (set_day_open (Some is_open)) ;;;
       with_cache_manager (Cache.invalidate_pattern "is_day_open") ;;;
       ret true
     else
       try_except
         (open_by_key ;;; worksheet DayStatus)
         is_WorksheetNotFound
         (fun _ => create_aux DayStatus) ;;;
       let current_date := today (env c) in
       let current_time := clock (env c) in
       let status := if is_open then STATUS_OPEN else STATUS_CLOSED in
       let chat_id_str := chat_id_text chat_id in
       aux_append_row DayStatus
         [VStr current_date; VStr status; VStr current_time;
          VStr chat_id_str] ;;;
       match chat_id with
       | VNone => with_cache_manager (Cache.invalidate_pattern "is_day_open")
       | _ =>
           with_cache_manager
             (Cache.invalidate (Some ("is_day_open:" +:+ str chat_id)))
       end ;;;
       ret true)
    Exception
    (fun _ => ret false).

(** *** Daily statistics *)

(** The chat filter of [get_daily_statistics]: [Some t'] when the record is
    kept, with its ["chat_id"] rewritten where the code rewrites it. The
    code rewrites the dictionary in place, and that dictionary is also held
    by the cached list it was taken from (and, in dummy mode, by
    [daily_transactions]); here the rewritten copy is what the statistics
    see, and the cached list keeps the record as it was. What a call of
    [get_daily_statistics] returns is not affected; what a later cache hit
    on the list returns is. The statements about cache hits are therefore
    made about the entry that the cache holds when the call is made, not
    about a sequence of calls that would have to pass through this filter. *)
Definition match_chat (str_chat_id : string) (t : dict) : E (option dict) :=
  let rewritten := <["chat_id" := VStr str_chat_id]> t in
  if String.eqb (str (get t "chat_id" (VStr ""))) str_chat_id
  then inr (Some t)
  else if String.eqb (str (get t "group" (VStr ""))) str_chat_id
  then inr (Some rewritten)
  else
    let group_field := get t "group" (VStr "") in
    legacy <-?
      (if truthy group_field
       then g <-? str_receiver "startswith" group_field ;;
            inr (startswith g "E, "
                 && (contains "Илья Кузнецов" g || contains "XchangeBot" g)
                 && String.eqb str_chat_id "-4605781130")
       else inr false) ;;
    if legacy then inr (Some rewritten)
    else if value_eqb group_field (VStr "Тест123")
            && String.eqb str_chat_id "-4608567148"
    then inr (Some rewritten)
    else inr None.

Fixpoint filter_chat (str_chat_id : string) (ts : list dict)
    : E (list dict) :=
  match ts with
  | [] => inr []
  | t :: ts' =>
      m <-? match_chat str_chat_id t ;;
      rest <-? filter_chat str_chat_id ts' ;;
      inr (match m with Some t' => t' :: rest | None => rest end)
  end.

(** [sum(float(t['amount']) for t in ts if t['amount'])], from [acc]. *)
Fixpoint sum_amounts (acc : Q) (ts : list dict) : E Q :=
  match ts with
  | [] => inr acc
  | t :: ts' =>
      a <-? esubscript t "amount" ;;
      if truthy a
      then x <-? to_float a ;; sum_amounts (acc + x)%Q ts'
      else sum_amounts acc ts'
  end.

(** [t.get('status', '').lower() == 'выплачено'] *)
Definition is_paid (t : dict) : E bool :=
  s <-? str_receiver "lower" (get t "status" (VStr "")) ;;
  inr (String.eqb (lower s) "выплачено").

Definition is_unpaid (t : dict) : E bool :=
  b <-? is_paid t ;; inr (negb b).

(** The commission that applies to one unpaid transaction. *)
Definition tx_commission (current_commission : value) (tx : dict) : E value :=
  let commission_str := get tx "commission" (VStr "") in
  if truthy commission_str then
    match commission_str with
    | VStr s =>
        if contains "%" s
        then q <-? to_float (VStr (strip (replace "%" "" s))) ;;
             inr (VFloat q)
        else etry (q <-? to_float commission_str ;; inr (VFloat q))
                  ValueError_or_TypeError
                  (fun _ => inr current_commission)
    | VInt _ | VFloat _ | VBool _ =>
        q <-? to_float commission_str ;; inr (VFloat q)
    | VNone => inr current_commission
    end
  else inr current_commission.

(** [amount * (1 - tx_commission / 100)] for one unpaid transaction. *)
Definition to_pay_term (current_commission : value) (tx : dict) : E Q :=
  a <-? esubscript tx "amount" ;;
  amount <-? (if truthy a then to_float a else inr 0%Q) ;;
  v <-? tx_commission current_commission tx ;;
  c <-? number v ;;
  inr (amount * (1 - c / 100))%Q.

(** The loop that adds up the amount to pay; a transaction whose numbers do
    not parse is skipped. *)
Fixpoint to_pay_sum (current_commission : value) (acc : Q) (ts : list dict)
    : E Q :=
  match ts with
  | [] => inr acc
  | tx :: ts' =>
      match to_pay_term current_commission tx with
      | inr x => to_pay_sum current_commission (acc + x)%Q ts'
      | inl e =>
          if ValueError_or_TypeError e
          then to_pay_sum current_commission acc ts'
          else inl e
      end
  end.

Definition DQUOTE : string := String (ascii_of_nat 34) EmptyString.

(** The rate of one transaction, when it has one that parses. *)
Definition parsed_rate (t : dict) : E (option Q) :=
  let rate_value := get t "rate" (VStr "") in
  if truthy rate_value then
    etry (let v := match rate_value with
                   | VStr s =>
                       VStr (strip (replace "USDT" "" (replace DQUOTE "" s)))
                   | v => v
                   end in
          q <-? to_float v ;; inr (Some q))
         ValueError_or_TypeError
         (fun _ => inr None)
  else inr None.

(** The commission of one transaction, when it has one that parses. *)
Definition parsed_commission (t : dict) : E (option Q) :=
  let commission_value := get t "commission" (VStr "") in
  if truthy commission_value then
    etry (let v := match commission_value with
                   | VStr s => VStr (strip (replace "%" "" s))
                   | v => v
                   end in
          q <-? to_float v ;; inr (Some q))
         ValueError_or_TypeError
         (fun _ => inr None)
  else inr None.

Definition Qsum (l : list Q) : Q := fold_left Qplus l 0%Q.

(** [sum(xs) / len(xs) if xs else dflt] *)
Definition average (xs : list Q) (dflt : value) : E Q :=
  match xs with
  | [] => number dflt
  | _ => inr (Qsum xs / inject_Z (Z.of_nat (length xs)))%Q
  end.

(** [methods_count[method] = methods_count.get(method, 0) + 1] *)
Fixpoint count_method (method : value) (l : list (value * nat))
    : list (value * nat) :=
  match l with
  | [] => [(method, 1%nat)]
  | (k, n) :: l' =>
      if value_eqb k method then (k, S n) :: l'
      else (k, n) :: count_method method l'
  end.

(** [d.get(k, 0) if d else 0] on the result of [get_day_settings]. *)
Definition setting (day_settings : result) (k : string) : E value :=
  if result_truthy day_settings then
    match day_settings with
    | RDict d => inr (get d k (VInt 0))
    | _ => inl (AttributeError "get")
    end
  else inr (VInt 0).

(** The statistics of a non-empty list of transactions. *)
Definition compute_statistics (current_date : string) (day_settings : result)
    (transactions : list dict) : E stats :=
  current_rate <-? setting day_settings "rate" ;;
  current_commission <-? setting day_settings "commission_percent" ;;
  total <-? sum_amounts 0 transactions ;;
  paid_transactions <-? efilter is_paid transactions ;;
  unpaid_transactions <-? efilter is_unpaid transactions ;;
  paid <-? sum_amounts 0 paid_transactions ;;
  awaiting <-? sum_amounts 0 unpaid_transactions ;;
  to_pay <-? to_pay_sum current_commission 0 unpaid_transactions ;;
  rates <-? emap parsed_rate transactions ;;
  commissions <-? emap parsed_commission transactions ;;
  avg_r <-? average (omap id rates) current_rate ;;
  avg_c <-? average (omap id commissions) current_commission ;;
  cr <-? number current_rate ;;
  let usdt_rate :=
    if Qltb 0 cr then cr else if Qltb 0 avg_r then avg_r else 90%Q in
  inr {| st_date := Some current_date;
         transactions_count := length transactions;
         total_amount := round2 total;
         awaiting_amount := round2 awaiting;
         to_pay_amount := round2 to_pay;
         paid_amount := round2 paid;
         avg_rate := round2 avg_r;
         avg_commission := round2 avg_c;
         unpaid_usdt := to_usdt awaiting usdt_rate;
         to_pay_usdt := to_usdt to_pay usdt_rate;
         total_usdt := to_usdt total usdt_rate;
         paid_usdt := to_usdt paid usdt_rate;
         methods_count :=
           Some (fold_left
                   (fun acc tx =>
                      count_method (get tx "method" (VStr "Не указан")) acc)
                   transactions []) |}.

(** The body of [GoogleSheetsClient.get_daily_statistics]. *)
Definition get_daily_statistics_func (args : list value) (kw : kwargs)
    : M result :=
  let chat_id := param 0 "chat_id" VNone args kw in
  let force_refresh := param 1 "force_refresh" (VBool false) args kw in
  c <- self ;;
  let current_date := today (env c) in
  let cache_key := "daily_stats_" +:+ str chat_id +:+ "_" +:+ current_date in
  (if truthy force_refresh && bool_decide (is_Some (cache c !! cache_key))
   then modify (fun c => set_cache (delete cache_key (cache c)) c) ;;;
        with_cache_manager (Cache.invalidate_pattern "get_daily_statistics")
   else ret tt) ;;;
  c <- self ;;
  match (if truthy force_refresh then None else cache c !! cache_key) with
  | Some s => ret (RStats s)
  | None =>
      try_except
        (r <- get_all_transactions [] [("date", VStr current_date)] ;;
         transactions <- as_list r ;;
         transactions <-
           lift (match chat_id with
                 | VNone => inr transactions
                 | _ => filter_chat (str chat_id) transactions
                 end) ;;
         match transactions with
         | [] =>
             let empty_stats := zero_stats None (Some []) in
             modify (fun c =>
                       set_cache (<[cache_key := empty_stats]> (cache c)) c) ;;;
             ret (RStats empty_stats)
         | _ =>
             day_settings <- get_day_settings [] [("chat_id", chat_id)] ;;
             s <- lift (compute_statistics current_date day_settings
                                           transactions) ;;
             modify (fun c => set_cache (<[cache_key := s]> (cache c)) c) ;;;
             ret (RStats s)
         end)
        Exception
        (fun _ => ret (RStats (zero_stats (Some current_date) (Some []))))
  end.

(** [GoogleSheetsClient.get_daily_statistics], decorated. *)
Definition get_daily_statistics : list value -> kwargs -> M result :=
  cache_result [Lit "get_daily_statistics"] "get_daily_statistics"
               get_daily_statistics_func.

(** *** Start-up and the legacy migration *)

(** [GoogleSheetsClient._initialize_dummy_mode]: the attributes of a client
    that fell back to the in-memory mode. *)
Definition initialize_dummy_mode (e : Env) (r : Remote) : Client :=
  {| env := e; remote := r;
     dummy_mode := true;
     cache_manager := Cache.init;
     cache := ∅;
     daily_transactions :=
       [ <["id" := VInt 1]>
         (<["datetime" := VStr (today e +:+ " " +:+ String.substring 0 5 (clock e))]>
         (<["amount" := VInt 10000]>
         (<["method" := VStr "USDT TRC20"]>
         (<["commission" := VFloat 5]>
         (<["rate" := VFloat (185 # 2)]>
         (<["status" := VStr "Не оплачено"]>
         (<["group" := VStr "Test Group"]>
         (<["hash" := VStr ""]> ∅)))))))) ];
     day_settings :=
       Some (<["rate" := VFloat (185 # 2)]> (<["commission" := VFloat 5]> ∅));
     day_open := Some true |}.

(** The known historical group names and their chat identifiers. *)
Definition group_mapping : list (string * string) :=
  [ ("E, Илья Кузнецов и XchangeBot", "-4605781130");
    ("Тест123", "-4608567148") ].

(** The first mapping entry a group name matches. *)
Fixpoint mapped_chat_id (group : string) (mapping : list (string * string))
    : option string :=
  match mapping with
  | [] => None
  | (known_group, known_chat_id) :: rest =>
      if startswith group known_group || String.eqb group known_chat_id
      then Some known_chat_id
      else mapped_chat_id group rest
  end.

(** What the migration loop decides for one transaction: [Some new_chat_id]
    when it calls [update_transaction]. *)
Definition migration_target (tx : dict) : E (option string) :=
  let group := get tx "group" (VStr "") in
  let chat_id := get tx "chat_id" (VStr "") in
  skip <-? (if truthy chat_id
            then s <-? str_receiver "startswith" chat_id ;;
                 inr (startswith s "-")
            else inr false) ;;
  if skip then inr None
  else
    g <-? str_receiver "startswith" group ;;
    match mapped_chat_id g group_mapping with
    | Some new_chat_id =>
        if negb (String.eqb new_chat_id "") then inr (Some new_chat_id)
        else inr None
    | None => inr None
    end.

(** The loop of [migrate_transaction_data]. *)
Fixpoint migrate_loop (all_transactions : list dict) (updated_count : nat)
    : M nat :=
  match all_transactions with
  | [] => ret updated_count
  | tx :: rest =>
      let tx_id := get tx "id" VNone in
      target <- lift (migration_target tx) ;;
      match target with
      | Some new_chat_id =>
          update_transaction tx_id (<["chat_id" := VStr new_chat_id]> ∅) ;;;
          migrate_loop rest (S updated_count)
      | None => migrate_loop rest updated_count
      end
  end.

(** [migrate_transaction_data], run on the module's [sheets_client]. *)
Definition migrate_transaction_data : M nat :=
  try_except
    (r <- get_all_transactions [] [("force_refresh", VBool true)] ;;
     all_transactions <- as_list r ;;
     migrate_loop all_transactions O)
    Exception
    (fun _ => ret O).
End Sheets.

(** ** The relational store (database.py, models.py) *)

Module Database.

(** A row of the [Transaction] model. The columns are typed: [Integer],
    [Float] and [String] hold [Z], [Q] and [string]; only
    [transaction_hash] is nullable. *)
Record Transaction : Type := mkTransaction {
  id : Z;
  chat_id : Z;
  amount : Z;
  method : string;
  commission : Q;
  rate : Q;
  status : string;
  transaction_hash : option string;
  created_at : string;
  updated_at : string
}.

(** A row of the [ChatSettings] model. *)
Record ChatSettings : Type := mkChatSettings {
  cs_id : Z;
  cs_chat_id : Z;
  chat_name : option string;
  exchange_rate : Q;
  commission_percent : Q;
  is_day_open : bool
}.

(** The database behind [db.session] with its surroundings. [faults] lists
    the outcome of the database calls to come ([true]: the call raises). *)
Record DB : Type := mkDB {
  today : string;
  clock : string;
  faults : list bool;
  transactions : list Transaction;
  chat_settings : list ChatSettings
}.

Definition set_transactions (l : list Transaction) (d : DB) : DB :=
  {| today := today d; clock := clock d; faults := faults d;
     transactions := l; chat_settings := chat_settings d |}.

Definition called (d : DB) : DB :=
  {| today := today d; clock := clock d; faults := tail (faults d);
     transactions := transactions d; chat_settings := chat_settings d |}.

(** A database call: [inl] when it raises. *)
Definition db_call (d : DB) : E unit * DB :=
  match faults d with
  | true :: _ => (inl BackendError, called d)
  | _ => (inr tt, called d)
  end.

(** Values a column type accepts; anything else makes the flush fail. *)
Definition to_Integer (v : value) : E Z :=
  match v with
  | VInt z => inr z
  | VBool b => inr (if b then 1 else 0)
  | _ => inl TypeError
  end.

Definition to_Float (v : value) : E Q := number v.

Definition to_String (v : value) : E string :=
  match v with
  | VStr s => inr s
  | _ => inl TypeError
  end.

Definition to_nullable_String (v : value) : E (option string) :=
  match v with
  | VNone => inr None
  | VStr s => inr (Some s)
  | _ => inl TypeError
  end.

Definition float_ (s : string) : E Q := to_float (VStr s).

(** [amount = int(amount.replace(" ", "").replace("₽", ""))] for a string. *)
Definition convert_amount (v : value) : E Z :=
  match v with
  | VStr s => int_ (replace "₽" "" (replace " " "" s))
  | _ => to_Integer v
  end.

(** [commission = float(commission.replace("%", ""))] for a string. *)
Definition convert_commission (v : value) : E Q :=
  match v with
  | VStr s => float_ (replace "%" "" s)
  | _ => to_Float v
  end.

(** [rate = float(rate.replace("₽", ""))] for a string. *)
Definition convert_rate (v : value) : E Q :=
  match v with
  | VStr s => float_ (replace "₽" "" s)
  | _ => to_Float v
  end.

Definition STATUS_UNPAID : string := "Не выплачено".
Definition STATUS_PAID : string := "Выплачено".

(** The primary key the database assigns to a new row. *)
Definition next_id (l : list Transaction) : Z :=
  match max_list (map id l) with
  | Some m => m + 1
  | None => 1
  end.

(** The [Transaction(...)] object that [add_transaction] builds. *)
Definition new_transaction (d : DB) (chat : Z) (data : dict) : E Transaction :=
  amount <-? convert_amount (get data "amount" (VInt 0)) ;;
  commission <-? convert_commission (get data "commission" (VInt 0)) ;;
  rate <-? convert_rate (get data "rate" (VInt 0)) ;;
  method <-? to_String (get data "method" (VStr "")) ;;
  hash <-? to_nullable_String (get data "hash" (VStr "")) ;;
  inr {| id := next_id (transactions d);
         chat_id := chat;
         amount := amount;
         method := method;
         commission := commission;
         rate := rate;
         status := STATUS_UNPAID;   (* always, for a new transaction *)
         transaction_hash := hash;
         created_at := today d +:+ " " +:+ clock d;
         updated_at := today d +:+ " " +:+ clock d |}.

(** [DatabaseManager.add_transaction]: on any failure the session is rolled
    back and the exception is raised again. *)
Definition add_transaction (chat : Z) (data : dict) (d : DB) : E Z * DB :=
  match new_transaction d chat data with
  | inl e => (inl e, d)
  | inr t =>
      match db_call d with                        (* db.session.commit() *)
      | (inl e, d') => (inl e, d')
      | (inr _, d') =>
          (inr (id t), set_transactions (transactions d' ++ [t]) d')
      end
  end.

(** [Transaction.query.get(transaction_id)] *)
Definition query_get (transaction_id : Z) (l : list Transaction)
    : option Transaction :=
  List.find (fun t => id t =? transaction_id) l.

(** One optional field update of [update_transaction]. *)
Definition field {A : Type} (data : dict) (k : string)
    (convert : value -> E A) (old : A) : E A :=
  match data !! k with
  | Some v => convert v
  | None => inr old
  end.

(** The field updates of [update_transaction] on the row found. *)
Definition updated (d : DB) (t : Transaction) (data : dict) : E Transaction :=
  amount <-? field data "amount" convert_amount (amount t) ;;
  method <-? field data "method" to_String (method t) ;;
  commission <-? field data "commission" convert_commission (commission t) ;;
  rate <-? field data "rate" convert_rate (rate t) ;;
  status <-? field data "status" to_String (status t) ;;
  hash <-? field data "hash" to_nullable_String (transaction_hash t) ;;
  inr {| id := id t; chat_id := chat_id t; amount := amount;
         method := method; commission := commission; rate := rate;
         status := status; transaction_hash := hash;
         created_at := created_at t;
         updated_at := today d +:+ " " +:+ clock d |}.

Definition replace_row (t' : Transaction) (l : list Transaction)
    : list Transaction :=
  map (fun t => if id t =? id t' then t' else t) l.

(** [DatabaseManager.update_transaction]: any failure is rolled back and
    answered with [False]. *)
Definition update_transaction (transaction_id : Z) (data : dict) (d : DB)
    : bool * DB :=
  match db_call d with                            (* Transaction.query.get *)
  | (inl _, d1) => (false, d1)
  | (inr _, d1) =>
      match query_get transaction_id (transactions d1) with
      | None => (false, d1)
      | Some t =>
          match updated d1 t data with
          | inl _ => (false, d1)
          | inr t' =>
              match db_call d1 with               (* db.session.commit() *)
              | (inl _, d2) => (false, d2)
              | (inr _, d2) =>
                  (true, set_transactions (replace_row t' (transactions d2)) d2)
              end
          end
      end
  end.

(** [DatabaseManager.mark_transaction_paid] *)
Definition mark_transaction_paid (transaction_id : Z)
    (transaction_hash : value) (d : DB) : bool * DB :=
  update_transaction transaction_id
    (<["status" := VStr STATUS_PAID]> (<["hash" := transaction_hash]> ∅)) d.

(** [Transaction.to_dict] *)
Definition to_dict (t : Transaction) : dict :=
  <["id" := VInt (id t)]>
  (<["datetime" := VStr (created_at t)]>
  (<["amount" := VInt (amount t)]>
  (<["method" := VStr (method t)]>
  (<["commission" := VFloat (commission t)]>
  (<["rate" := VFloat (rate t)]>
  (<["status" := VStr (status t)]>
  (<["group" := VStr (pretty (chat_id t))]>
  (<["hash" := VStr (default "" (transaction_hash t))]> ∅)))))))).

(** [DatabaseManager.get_transaction] *)
Definition get_transaction (transaction_id : Z) (d : DB)
    : option dict * DB :=
  match db_call d with
  | (inl _, d1) => (None, d1)
  | (inr _, d1) => (to_dict <$> query_get transaction_id (transactions d1), d1)
  end.

(** The mapped attributes of the [Transaction] class (models.py):
    [Transaction.<name>] for any other name raises [AttributeError]. *)
Definition Transaction_attr (name : string) : E (Transaction -> value) :=
  if String.eqb name "id" then inr (fun t => VInt (id t))
  else if String.eqb name "chat_id" then inr (fun t => VInt (chat_id t))
  else if String.eqb name "amount" then inr (fun t => VInt (amount t))
  else if String.eqb name "method" then inr (fun t => VStr (method t))
  else if String.eqb name "commission" then inr (fun t => VFloat (commission t))
  else if String.eqb name "rate" then inr (fun t => VFloat (rate t))
  else if String.eqb name "status" then inr (fun t => VStr (status t))
  else if String.eqb name "transaction_hash"
  then inr (fun t => match transaction_hash t with
                     | Some h => VStr h
                     | None => VNone
                     end)
  else if String.eqb name "created_at" then inr (fun t => VStr (created_at t))
  else if String.eqb name "updated_at" then inr (fun t => VStr (updated_at t))
  else inl (AttributeError name).

(** The mapped attributes of the [ChatSettings] class (models.py). *)
Definition ChatSettings_attr (name : string) : E (ChatSettings -> value) :=
  if String.eqb name "id" then inr (fun s => VInt (cs_id s))
  else if String.eqb name "chat_id" then inr (fun s => VInt (cs_chat_id s))
  else if String.eqb name "chat_name"
  then inr (fun s => match chat_name s with
                     | Some n => VStr n
                     | None => VNone
                     end)
  else if String.eqb name "exchange_rate"
  then inr (fun s => VFloat (exchange_rate s))
  else if String.eqb name "commission_percent"
  then inr (fun s => VFloat (commission_percent s))
  else if String.eqb name "is_day_open" then inr (fun s => VBool (is_day_open s))
  else inl (AttributeError name).

(** The running totals of the statistics loop. *)
Record totals : Type := mkTotals {
  t_total : Q; t_awaiting : Q; t_to_pay : Q; t_paid : Q;
  rates_sum : Q; rates_count : nat;
  commission_sum : Q; commission_count : nat
}.

(** One iteration of the statistics loop. *)
Definition accumulate (current_rate : Q) (a : totals) (tx : Transaction)
    : totals :=
  let amount := inject_Z (amount tx) in
  let r := if Qeq_bool (rate tx) 0 then current_rate else rate tx in
  let commission := commission tx in
  let has_rate := negb (Qeq_bool r 0) in
  let status := lower (status tx) in
  let paid := String.eqb status "paid" || String.eqb status "оплачено"
              || String.eqb status "выплачено" in
  {| t_total := (t_total a + amount)%Q;
     t_awaiting := if paid then t_awaiting a else (t_awaiting a + amount)%Q;
     t_to_pay := if paid then t_to_pay a
                 else (t_to_pay a + amount * (1 - commission / 100))%Q;
     t_paid := if paid then (t_paid a + amount)%Q else t_paid a;
     rates_sum := if has_rate then (rates_sum a + r)%Q else rates_sum a;
     rates_count := if has_rate then S (rates_count a) else rates_count a;
     commission_sum := (commission_sum a + commission)%Q;
     commission_count := S (commission_count a) |}.

(** The statistics of a non-empty list of rows. *)
Definition summarize (current_rate current_commission : Q)
    (txs : list Transaction) : stats :=
  let a := fold_left (accumulate current_rate) txs
             {| t_total := 0; t_awaiting := 0; t_to_pay := 0; t_paid := 0;
                rates_sum := 0; rates_count := O;
                commission_sum := 0; commission_count := O |} in
  let avg_r := if (0 <? rates_count a)%nat
               then (rates_sum a / inject_Z (Z.of_nat (rates_count a)))%Q
               else current_rate in
  let avg_c := if (0 <? commission_count a)%nat
               then (commission_sum a
                     / inject_Z (Z.of_nat (commission_count a)))%Q
               else current_commission in
  let usdt_rate :=
    if Qltb 0 current_rate then current_rate
    else if Qltb 0 avg_r then avg_r else 90%Q in
  {| st_date := None;
     transactions_count := length txs;
     total_amount := t_total a;
     awaiting_amount := t_awaiting a;
     to_pay_amount := t_to_pay a;
     paid_amount := t_paid a;
     avg_rate := avg_r;
     avg_commission := avg_c;
     unpaid_usdt := to_usdt (t_awaiting a) usdt_rate;
     to_pay_usdt := to_usdt (t_to_pay a) usdt_rate;
     total_usdt := to_usdt (t_total a) usdt_rate;
     paid_usdt := to_usdt (t_paid a) usdt_rate;
     methods_count := None |}.

(** [DatabaseManager.get_daily_statistics]. The filter expressions are
    built from the class attributes [Transaction.date], [Transaction.chat_id],
    [ChatSettings.chat_id] and [ChatSettings.date] before the query is sent;
    an attribute that the model lacks raises [AttributeError]. (The source
    builds the query on the object bound by [with self.app.app_context()],
    the Flask application context, which is not part of the repository.)
    Every exception is answered with the all-zero dictionary. *)
Definition get_daily_statistics (chat : Z) (force_refresh : bool) (d : DB)
    : stats * DB :=
  let current_date := today d in
  let failed := zero_stats None None in
  match Transaction_attr "date", Transaction_attr "chat_id" with
  | inr t_date, inr t_chat =>
      match db_call d with                               (* query.all() *)
      | (inl _, d1) => (failed, d1)
      | (inr _, d1) =>
          let txs :=
            List.filter
              (fun t => value_eqb (t_date t) (VStr current_date)
                        && value_eqb (t_chat t) (VInt chat))
              (transactions d1) in
          match txs with
          | [] => (zero_stats None None, d1)
          | _ =>
              match ChatSettings_attr "chat_id", ChatSettings_attr "date" with
              | inr s_chat, inr s_date =>
                  match db_call d1 with                  (* .first() *)
                  | (inl _, d2) => (failed, d2)
                  | (inr _, d2) =>
                      let day_settings :=
                        List.find
                          (fun s =>
                             value_eqb (s_chat s) (VInt chat)
                             && value_eqb (s_date s) (VStr current_date))
                          (chat_settings d2) in
                      let current_rate :=
                        match day_settings with
                        | Some s => exchange_rate s
                        | None => 0%Q
                        end in
                      let current_commission :=
                        match day_settings with
                        | Some s => commission_percent s
                        | None => 0%Q
                        end in
                      (summarize current_rate current_commission txs, d2)
                  end
              | _, _ => (failed, d1)
              end
          end
      end
  | _, _ => (failed, d)
  end.

End Database.

(** ** The facade (data_manager.py) *)

Module DataManager.

(** [self.data_source] *)
Inductive source : Type := database | sheets.

(** A key of the [stats_cache] dictionary: an [int] ([inl]) or a [str]
    ([inr]). An int key and a str key are never equal. *)
Abbreviation key := (Z + string)%type.

(** A [DataManager] with the two module-level backends it forwards to. *)
Record State : Type := mkState {
  data_source : source;
  stats_cache : gmap key result;
  db_manager : Database.DB;
  sheets_client : Sheets.Client
}.

Definition set_stats_cache (m : gmap key result) (s : State) : State :=
  {| data_source := data_source s; stats_cache := m;
     db_manager := db_manager s; sheets_client := sheets_client s |}.

Definition set_db_manager (d : Database.DB) (s : State) : State :=
  {| data_source := data_source s; stats_cache := stats_cache s;
     db_manager := d; sheets_client := sheets_client s |}.

Definition set_sheets_client (c : Sheets.Client) (s : State) : State :=
  {| data_source := data_source s; stats_cache := stats_cache s;
     db_manager := db_manager s; sheets_client := c |}.

(** [DataManager.__init__] *)
Definition init (USE_DATABASE : bool) (d : Database.DB) (c : Sheets.Client)
    : State :=
  {| data_source := if USE_DATABASE then database else sheets;
     stats_cache := ∅; db_manager := d; sheets_client := c |}.

(** A call into the spreadsheet store. *)
Definition on_sheets {A : Type} (m : Sheets.M A) (s : State)
    : Sheets.outcome A * State :=
  let '(r, c) := m (sheets_client s) in (r, set_sheets_client c s).

(** A call into the relational store that may raise. *)
Definition on_db {A : Type} (f : Database.DB -> E A * Database.DB)
    (s : State) : Sheets.outcome A * State :=
  let '(r, d) := f (db_manager s) in
  (match r with inl e => Sheets.Raise e | inr a => Sheets.Ret a end,
   set_db_manager d s).

(** [f"day_stats_{chat_id}"] *)
Definition stats_key (chat_id : Z) : string := "day_stats_" +:+ pretty chat_id.

(** [DataManager.get_daily_statistics] *)
Definition get_daily_statistics (chat_id : Z) (force_refresh : bool)
    (s : State) : Sheets.outcome result * State :=
  let cache_key := stats_key chat_id in
  match (if force_refresh then None else stats_cache s !! inr cache_key) with
  | Some r => (Sheets.Ret r, s)
  | None =>
      let '(r, s1) :=
        match data_source s with
        | database =>
            on_db (fun d =>
                     let '(st, d') :=
                       Database.get_daily_statistics chat_id force_refresh d in
                     (inr (RStats st), d')) s
        | sheets =>
            on_sheets (Sheets.get_daily_statistics
                         [VInt chat_id]
                         [("force_refresh", VBool force_refresh)]) s
        end in
      match r with
      | Sheets.Ret result =>
          (Sheets.Ret result,
           set_stats_cache (<[inr cache_key := result]> (stats_cache s1)) s1)
      | Sheets.Raise e => (Sheets.Raise e, s1)
      end
  end.

(** [DataManager.clear_stats_cache] *)
Definition clear_stats_cache (chat_id : Z) (s : State) : State :=
  match stats_cache s !! inl chat_id with
  | Some _ => set_stats_cache (delete (inl chat_id) (stats_cache s)) s
  | None => s
  end.

(** [DataManager.add_transaction] *)
Definition add_transaction (chat_id : Z) (data : dict) (s : State)
    : Sheets.outcome Z * State :=
  match data_source s with
  | database => on_db (Database.add_transaction chat_id data) s
  | sheets =>
      let data1 := <["chat_id" := VStr (pretty chat_id)]> data in
      let data2 :=
        if negb (truthy (get data1 "group" VNone))
        then <["group" := VStr (pretty chat_id)]> data1
        else data1 in
      on_sheets (Sheets.add_transaction data2) s
  end.

(** [DataManager.update_transaction] *)
Definition update_transaction (transaction_id : Z) (data : dict) (s : State)
    : Sheets.outcome bool * State :=
  match data_source s with
  | database =>
      on_db (fun d => let '(b, d') :=
                        Database.update_transaction transaction_id data d in
                      (inr b, d')) s
  | sheets =>
      on_sheets (Sheets.update_transaction (VInt transaction_id) data) s
  end.

(** [DataManager.mark_transaction_paid] *)
Definition mark_transaction_paid (transaction_id : Z)
    (transaction_hash : string) (s : State) : Sheets.outcome bool * State :=
  match data_source s with
  | database =>
      on_db (fun d =>
               let '(b, d') :=
                 Database.mark_transaction_paid transaction_id
                                                (VStr transaction_hash) d in
               (inr b, d')) s
  | sheets =>
      on_sheets (Sheets.mark_transaction_paid (VInt transaction_id)
                                              (VStr transaction_hash)) s
  end.

End DataManager.

(** ** Concrete states used by the examples below *)

Module Fixtures.

Import Sheets.

Definition env0 : Env :=
  {| DEBUG := false; now := 1000%Q; today := "03.11.2026";
     clock := "12:00:00" |}.

(** The header row that [_initialize_headers] writes. *)
Definition headers : row :=
  [ "ID"; "Дата/время"; "Сумма (₽)"; "Метод"; "Комиссия"; "Курс";
    "Статус выплаты"; "Группа"; "Хэш транзакции"; "chat_id" ].

(** A healthy remote spreadsheet holding the given data rows. *)
Definition remote_with (rows : list row) (settings status : option (list row))
    : Remote :=
  {| faults := []; api_calls := O; sheet := headers :: rows;
     ws_DaySettings := settings; ws_DayStatus := status |}.

(** A client in regular mode, with empty caches. *)
Definition live (r : Remote) : Client :=
  {| env := env0; remote := r; dummy_mode := false;
     cache_manager := Cache.init; cache := ∅;
     daily_transactions := []; day_settings := None; day_open := None |}.

(** Three transactions of chat -5 on the current day: 1000 paid, 2000 and
    3000 not paid, commission 10 each. *)
Definition three_rows : list row :=
  [ ["1"; "03.11.2026 10:00:00"; "1000"; "USDT"; "10"; "100"; "Выплачено";
     "-5"; "abc"; "-5"];
    ["2"; "03.11.2026 10:01:00"; "2000"; "USDT"; "10"; "100"; "Не выплачено";
     "-5"; ""; "-5"];
    ["3"; "03.11.2026 10:02:00"; "3000"; "USDT"; "10"; "100"; "Не выплачено";
     "-5"; ""; "-5"] ].

(** Day settings of chat -5: rate 100, commission 10. *)
Definition settings_rows : list row :=
  [ ["Дата"; "Курс"; "Процент комиссии"; "chat_id"];
    ["03.11.2026"; "100"; "10"; "-5"] ].

Definition three_client : Client :=
  live (remote_with three_rows (Some settings_rows) None).

(** The same three transactions in the relational store. *)
Definition three_db : Database.DB :=
  {| Database.today := "03.11.2026"; Database.clock := "12:00:00";
     Database.faults := [];
     Database.transactions :=
       [ Database.mkTransaction 1 (-5) 1000 "USDT" 10 100 "Выплачено"
           (Some "abc") "03.11.2026 10:00:00" "03.11.2026 10:00:00";
         Database.mkTransaction 2 (-5) 2000 "USDT" 10 100 "Не выплачено"
           None "03.11.2026 10:01:00" "03.11.2026 10:01:00";
         Database.mkTransaction 3 (-5) 3000 "USDT" 10 100 "Не выплачено"
           None "03.11.2026 10:02:00" "03.11.2026 10:02:00" ];
     Database.chat_settings :=
       [ Database.mkChatSettings 1 1 (Some "Global Settings") 100 10 true ] |}.

(** A transaction row of seven cells: no group, hash or chat_id cell. *)
Definition short_row : row :=
  ["1"; "03.11.2026 10:00:00"; "1000"; "USDT"; "5"; "90"; "Не выплачено"].

Definition short_client : Client := live (remote_with [short_row] None None).

(** One historical transaction carrying a legacy group name and no chat
    identifier. *)
Definition legacy_row : row :=
  ["1"; "01.02.2025 10:00:00"; "1000"; "USDT"; "5"; "90"; "Не выплачено";
   "Тест123"; ""; ""].

Definition legacy_client : Client := live (remote_with [legacy_row] None None).

(** The client of the three transactions when the next API call fails. *)
Definition failing_client : Client :=
  set_remote
    {| faults := [true]; api_calls := O; sheet := headers :: three_rows;
       ws_DaySettings := Some settings_rows; ws_DayStatus := None |}
    three_client.

(** Two historical transactions whose ID cells read "07" and "7". *)
Definition odd_id_rows : list row :=
  [ ["07"; "01.02.2025 10:00:00"; "1000"; "USDT"; "5"; "90"; "Не выплачено";
     "Тест123"; ""; ""];
    ["7"; "01.02.2025 11:00:00"; "2000"; "USDT"; "5"; "90"; "Не выплачено";
     "E, Илья Кузнецов и XchangeBot"; ""; ""] ].

Definition odd_id_client : Client := live (remote_with odd_id_rows None None).

(** A client that fell back to dummy mode at start-up. *)
Definition dummy_client : Client :=
  initialize_dummy_mode env0 (remote_with [] None None).

(** The data of a new transaction that also names a status and a hash. *)
Definition data_with_hash : dict :=
  <["amount" := VInt 1000]>
  (<["method" := VStr "USDT"]>
  (<["commission" := VFloat 5]>
  (<["rate" := VFloat 90]>
  (<["status" := VStr "Выплачено"]>
  (<["hash" := VStr "abc"]> ∅))))).

(** A facade on the spreadsheet store whose statistics cache holds a record
    for chat 5. *)
Definition cached_facade : DataManager.State :=
  {| DataManager.data_source := DataManager.sheets;
     DataManager.stats_cache :=
       {[ inr "day_stats_5" := RStats (zero_stats None (Some [])) ]};
     DataManager.db_manager := three_db;
     DataManager.sheets_client := three_client |}.

(** The client of the three transactions when the API answers [k] calls and
    fails the next one. *)
Definition failing_after (k : nat) : Client :=
  set_remote
    {| faults := replicate k false ++ [true]; api_calls := O;
       sheet := headers :: three_rows;
       ws_DaySettings := Some settings_rows; ws_DayStatus := None |}
    three_client.

End Fixtures.

(** ** Vocabulary of the statements *)

Module Spec.

Import Sheets.

(** [wp m Q c]: running [m] from [c] ends in an outcome and a state that
    satisfy [Q]. Every method terminates, so this is total correctness. *)
Definition wp {A : Type} (m : M A) (Q : outcome A -> Client -> Prop)
    (c : Client) : Prop :=
  Q (m c).1 (m c).2.

(** The state after one API call. *)
Definition after_call (c : Client) : Client :=
  set_remote (called (remote c)) c.

(** The columns that [update_transaction] may rewrite: amount, method,
    commission, rate, status, hash and chat_id. *)
Definition rewritable (j : nat) : Prop := j ∈ [2; 3; 4; 5; 6; 8; 9]%nat.

(** The "DayStatus" worksheet holds no data row for the chat. *)
Definition no_status_row (chat_id : Z) (c : Client) : Prop :=
  forall rows : list row,
    ws_DayStatus (remote c) = Some rows ->
    forall r : row, r ∈ tail rows -> row_is_for (pretty chat_id) r = false.

(** The cache holds no answer other than [False] for [is_day_open(chat_id)]. *)
Definition cached_day_closed (chat_id : Z) (c : Client) : Prop :=
  forall (stamp : Q) (v : result),
    Cache.cache (cache_manager c) !! ("is_day_open:" +:+ pretty chat_id)
      = Some (stamp, v) ->
    v = RVal (VBool false).

(** Regular mode, and nothing on the worksheet or in the cache says that
    the day of the chat was ever opened. *)
Definition never_opened (chat_id : Z) (c : Client) : Prop :=
  dummy_mode c = false
  /\ no_status_row chat_id c
  /\ cached_day_closed chat_id c.

(** What every step inside a day operation keeps: the cache manager, the
    mode, and the absence of status rows for the chat. *)
Definition kept (chat_id : Z) (c0 c : Client) : Prop :=
  cache_manager c = cache_manager c0
  /\ dummy_mode c = dummy_mode c0
  /\ no_status_row chat_id c.

(** The states a client passes through while the day status of chats other
    than [chat_id] is set, any day status is queried, and time passes. *)
Inductive day_trace (chat_id : Z) (c : Client) : Client -> Prop :=
  | day_start : day_trace chat_id c c
  | day_query (c' : Client) (other : Z) :
      day_trace chat_id c c' ->
      day_trace chat_id c (is_day_open [VInt other] [] c').2
  | day_set (c' : Client) (is_open : bool) (other : Z) :
      other <> chat_id ->
      day_trace chat_id c c' ->
      day_trace chat_id c (set_day_status is_open (VInt other) c').2
  | day_tick (c' : Client) (t : Q) :
      day_trace chat_id c c' ->
      day_trace chat_id c (set_now t c').

(** The method returns a value from every state, whatever the API does. *)
Definition returns {A : Type} (m : M A) : Prop :=
  forall c : Client, exists a : A, (m c).1 = Ret a.

(** The method never lets an exception of the API reach its caller. *)
Definition never_backend_error {A : Type} (m : M A) : Prop :=
  forall c : Client, (m c).1 <> Raise BackendError.

(** The next API call is set to fail. *)
Definition next_call_fails (c : Client) : Prop :=
  exists fs : list bool, faults (remote c) = true :: fs.

(** The backend answers every call to come. *)
Definition healthy (c : Client) : Prop := faults (remote c) = [].

(** The data that [mark_transaction_paid] hands to [update_transaction]. *)
Definition paid_data (transaction_hash : value) : dict :=
  <["status" := VStr STATUS_PAID]> (<["hash" := transaction_hash]> ∅).

(** A row once it has been marked paid with the given hash. *)
Definition paid_row (transaction_hash : value) (old : row) : row :=
  overwrite
    [ nth 0 old ""; nth 1 old ""; nth 2 old ""; nth 3 old ""; nth 4 old "";
      nth 5 old ""; STATUS_PAID; nth 7 old ""; cell_text transaction_hash;
      cell old 9 ]
    old.

(** The transaction is the row [old] at index [i] of the worksheet: the
    first row whose ID cell is [str(transaction_id)], complete up to the
    group cell. *)
Definition transaction_at (transaction_id : value) (i : nat) (old : row)
    (c : Client) : Prop :=
  find_row (str transaction_id)
           (map (fun r : row => nth 0 r "") (sheet (remote c))) = Some i
  /\ sheet (remote c) !! i = Some old
  /\ (8 <= length old)%nat.

(** Whatever the cache holds for [get_transaction(transaction_id)] is a
    record, not an empty or null value. *)
Definition cached_transaction_truthy (transaction_id : value) (c : Client)
    : Prop :=
  forall (stamp : Q) (v : result),
    Cache.cache (cache_manager c) !! ("get_transaction:" +:+ str transaction_id)
      = Some (stamp, v) ->
    result_truthy v = true.

(** *** Calls on a cache manager *)

(** The calls that the store and the decorator make on [self.cache_manager]. *)
Inductive cache_call : Type :=
  | call_get (key : string) (t : Q)
  | call_set (key : string) (value : result) (t : Q)
  | call_invalidate (key : option string)
  | call_invalidate_pattern (pattern : string)
  | call_invalidate_transaction_cache (transaction_id : value).

(** The cache manager after one call. *)
Definition after_cache_call (cm : Cache.CacheManager result) (k : cache_call)
    : Cache.CacheManager result :=
  match k with
  | call_get key t => (Cache.get key t cm).2
  | call_set key value t => Cache.set key value t cm
  | call_invalidate key => Cache.invalidate key cm
  | call_invalidate_pattern pattern => Cache.invalidate_pattern pattern cm
  | call_invalidate_transaction_cache transaction_id =>
      Cache.invalidate_transaction_cache transaction_id cm
  end.

(** A cache manager fresh from [__init__] after a sequence of calls. *)
Definition after_cache_calls (calls : list cache_call)
    : Cache.CacheManager result :=
  fold_left after_cache_call calls Cache.init.

Definition is_get (k : cache_call) : bool :=
  match k with call_get _ _ => true | _ => false end.

Definition is_set (k : cache_call) : bool :=
  match k with call_set _ _ _ => true | _ => false end.

(** Some pattern of [invalidate_transaction_cache()] occurs in the key. *)
Definition transaction_key (key : string) : bool :=
  existsb (fun pattern => contains pattern key) Cache.transaction_patterns.

(** *** Texts *)

(** Every character of the text passes the test. *)
Fixpoint every_char (test : ascii -> bool) (s : string) : bool :=
  match s with
  | EmptyString => true
  | String c s' => test c && every_char test s'
  end.

(** A character of a decimal numeral: a digit or the minus sign. *)
Definition numeral_char (c : ascii) : bool :=
  is_ascii_digit c || Ascii.eqb c "-".

(** *** Stored transactions *)

(** Row 1 of the worksheet is a header row: its first cell is not a
    number. *)
Definition has_header (c : Client) : Prop :=
  exists (h : row) (rows : list row),
    sheet (remote c) = h :: rows /\ isdigit (nth 0 h "") = false.

(** Every record of the in-memory list carries an integer ["id"]. *)
Definition ids_are_ints (l : list dict) : Prop :=
  Forall (fun t : dict => exists z : Z, t !! "id" = Some (VInt z)) l.

(** The transactions worksheet is that of [c]. *)
Definition same_sheet (c c' : Client) : Prop :=
  sheet (remote c') = sheet (remote c).

(** The method leaves the transactions worksheet as it is, from any state
    and whatever the API does. *)
Definition keeps_sheet {A : Type} (m : M A) : Prop :=
  forall c : Client, same_sheet c (m c).2.

(** The record that the read operations make of the row that
    [add_transaction] appends for [data]: the identifier, the time of the
    call, the cell texts of the four mandatory entries, the not-paid status,
    an empty hash, and the cell texts of the optional group and chat. *)
Definition record_of_new_row (new_id : Z) (e : Env) (data : dict)
    (amount method commission rate : value) : dict :=
  <["id" := VInt new_id]>
  (<["datetime" := VStr (timestamp e)]>
  (<["amount" := VStr (cell_text amount)]>
  (<["method" := VStr (cell_text method)]>
  (<["commission" := VStr (cell_text commission)]>
  (<["rate" := VStr (cell_text rate)]>
  (<["status" := VStr STATUS_UNPAID]>
  (<["group" := VStr (cell_text (get data "group" (VStr "")))]>
  (<["hash" := VStr ""]>
  (<["chat_id" := VStr (cell_text (get data "chat_id" (VStr "")))]>
   ∅))))))))).

(** *** The day worksheets *)

(** The "DayStatus" worksheet, when it exists, has its header row, and no
    status row of the chat carries a time later than the clock. *)
Definition status_sheet_ready (chat_id : Z) (c : Client) : Prop :=
  forall rows : list row,
    ws_DayStatus (remote c) = Some rows ->
    rows <> []
    /\ forall r : row, r ∈ tail rows ->
         row_is_for (pretty chat_id) r = true ->
         String.ltb (clock (env c)) (cell r 2) = false.

(** The "DaySettings" worksheet, when it exists, has its header row and at
    most one row for the chat. *)
Definition settings_sheet_ready (chat_id : Z) (c : Client) : Prop :=
  forall rows : list row,
    ws_DaySettings (remote c) = Some rows ->
    rows <> []
    /\ (length (List.filter (row_is_for (pretty chat_id)) (tail rows)) <= 1)%nat.

(** The rows of an auxiliary worksheet once it has been opened, or created
    with its header row when it was missing. *)
Definition opened_rows (w : aux_sheet) (c : Client) : list row :=
  match aux_rows w (remote c) with
  | Some rows => rows
  | None => [map cell_text (aux_header w)]
  end.

(** The status row that [set_day_status] appends. *)
Definition status_row (is_open : bool) (chat_id : Z) (e : Env) : row :=
  [today e; if is_open then STATUS_OPEN else STATUS_CLOSED; clock e;
   pretty chat_id].

(** *** Calls and failing API calls *)

(** The call hands over every required parameter, names no parameter that
    the signature does not have, and gives no parameter twice. Python binds
    such a call; every other call is rejected with [TypeError] before the
    body of the method runs. *)
Definition binds (required optional : list string) (args : list value)
    (kw : kwargs) : Prop :=
  let names := required ++ optional in
  (length args <= length names)%nat
  /\ NoDup (map fst kw)
  /\ Forall (fun k : string => k ∈ drop (length args) names) (map fst kw)
  /\ Forall (fun k : string => k ∈ map fst kw) (drop (length args) required).

(** [n] API calls lead from [c] to [c']: each call consumes one entry of
    the fault schedule. *)
Definition ran (n : nat) (c c' : Client) : Prop :=
  api_calls (remote c') = (api_calls (remote c) + n)%nat
  /\ faults (remote c') = drop n (faults (remote c)).

(** The number of API calls made on the way from [c] to [c']. *)
Definition calls_made (c c' : Client) : nat :=
  (api_calls (remote c') - api_calls (remote c))%nat.

(** One of the API calls made on the way from [c] to [c'] raised. *)
Definition a_call_failed (c c' : Client) : Prop :=
  true ∈ take (calls_made c c') (faults (remote c)).

(** Whenever an API call fails while the method runs, whichever call it is,
    the outcome of the method is [o]. *)
Definition on_failure {A : Type} (m : M A) (o : outcome A) : Prop :=
  forall c : Client, a_call_failed c (m c).2 -> (m c).1 = o.

(** The method makes its API calls one after the other, and unless every
    one of them succeeds its outcome satisfies [P]. *)
Definition fails_with {A : Type} (P : outcome A -> Prop) (m : M A) : Prop :=
  forall c : Client,
    exists n : nat,
      ran n c (m c).2
      /\ (true ∉ take n (faults (remote c)) \/ P (m c).1).

(** The method raises the exception of the API exactly when one of its API
    calls fails. *)
Definition surfaces {A : Type} (m : M A) : Prop :=
  forall c : Client,
    (m c).1 = Raise BackendError <-> a_call_failed c (m c).2.

(** The method keeps every failure to itself: it returns a value from every
    state, and [d] whenever one of its API calls failed. *)
Definition swallows {A : Type} (m : M A) (d : A) : Prop :=
  returns m /\ on_failure m (Ret d).

(** The method makes its API calls one after the other and raises the
    exception of the API only when one of them failed. *)
Definition blames_api {A : Type} (m : M A) : Prop :=
  forall c : Client,
    exists n : nat,
      ran n c (m c).2
      /\ ((m c).1 = Raise BackendError -> true ∈ take n (faults (remote c))).

(** *** The facade *)

(** The states a facade passes through while transactions are added,
    updated and marked paid for any chat, statistics caches are cleared for
    any chat, and statistics are asked for, except with [force_refresh] for
    [chat_id] itself. *)
Inductive facade_trace (chat_id : Z) (s : DataManager.State)
    : DataManager.State -> Prop :=
  | facade_start : facade_trace chat_id s s
  | facade_add (s' : DataManager.State) (chat : Z) (data : dict) :
      facade_trace chat_id s s' ->
      facade_trace chat_id s (DataManager.add_transaction chat data s').2
  | facade_update (s' : DataManager.State) (transaction_id : Z) (data : dict) :
      facade_trace chat_id s s' ->
      facade_trace chat_id s
        (DataManager.update_transaction transaction_id data s').2
  | facade_paid (s' : DataManager.State) (transaction_id : Z)
      (transaction_hash : string) :
      facade_trace chat_id s s' ->
      facade_trace chat_id s
        (DataManager.mark_transaction_paid transaction_id transaction_hash s').2
  | facade_clear (s' : DataManager.State) (chat : Z) :
      facade_trace chat_id s s' ->
      facade_trace chat_id s (DataManager.clear_stats_cache chat s')
  | facade_statistics (s' : DataManager.State) (chat : Z)
      (force_refresh : bool) :
      chat <> chat_id \/ force_refresh = false ->
      facade_trace chat_id s s' ->
      facade_trace chat_id s
        (DataManager.get_daily_statistics chat force_refresh s').2.

(** No record of the in-memory list carries the identifier. *)
Definition unknown_in_memory (transaction_id : value) (l : list dict) : Prop :=
  Forall (fun t : dict =>
            forall i : value,
              t !! "id" = Some i -> value_eqb i transaction_id = false) l.

(** No cell of the ID column reads as the identifier. *)
Definition unknown_on_sheet (transaction_id : value) (c : Client) : Prop :=
  find_row (str transaction_id)
           (map (fun r : row => nth 0 r "") (sheet (remote c))) = None.

End Spec.

(** * Properties *)

(** ** The string and number helpers on the texts the store handles *)

Example lower_paid : Py.lower "Выплачено" = "выплачено".
Proof. reflexivity. Qed.

Example lower_not_paid : Py.lower "Не выплачено" = "не выплачено".
Proof. reflexivity. Qed.

Example float_of_string_1000 : Py.float_of_string "1000" = Some 1000%Q.
Proof. reflexivity. Qed.

Example float_of_string_rate : Py.float_of_string " 92.50" = Some (185 # 2)%Q.
Proof. reflexivity. Qed.

Example float_of_string_percent : Py.float_of_string "5%" = None.
Proof. reflexivity. Qed.

Example int_of_string_leading_zero : Py.int_of_string "07" = Some 7.
Proof. reflexivity. Qed.

Example replace_percent : Py.replace "%" "" "5%" = "5".
Proof. reflexivity. Qed.

Example replace_rouble : Py.replace "₽" "" "92.50₽" = "92.50".
Proof. reflexivity. Qed.

Example str_float : Py.str (Py.VFloat (185 # 2)) = "92.5".
Proof. reflexivity. Qed.

Example round2_half_even : Py.round2 (1 # 8) = (3 # 25)%Q.
Proof. reflexivity. Qed.

Example normalise_amount : Database.convert_amount (VStr "1 000₽") = inr 1000.
Proof. reflexivity. Qed.

Example normalise_commission :
  Database.convert_commission (VStr "5%") = inr 5%Q.
Proof. reflexivity. Qed.

(** ** Running a method on a concrete state *)

(** A pair is determined by its first component and its own second one. *)
Lemma pair_run {A B : Type} (p : A * B) (a : A) : p.1 = a -> p = (a, p.2).
Proof. destruct p. simpl. by intros ->. Qed.


(** ** The statistics cache of the facade *)

Section FacadeCache.

Import DataManager.

(** Clearing never touches an entry stored under a string key. *)
Lemma clear_stats_cache_str_keys (chat_id : Z) (s : State) (k : string) :
  stats_cache (clear_stats_cache chat_id s) !! inr k = stats_cache s !! inr k.
Proof.
  unfold clear_stats_cache.
  destruct (stats_cache s !! inl chat_id) eqn:Hint; [|reflexivity].
  simpl. by rewrite lookup_delete_ne.
Qed.

(** While every key of the cache is a string, as every key written by
    [get_daily_statistics] is, clearing changes nothing at all. *)
Lemma clear_stats_cache_noop (chat_id : Z) (s : State) :
  (forall z : Z, stats_cache s !! inl z = None) ->
  clear_stats_cache chat_id s = s.
Proof.
  intros Hnone. unfold clear_stats_cache. by rewrite Hnone.
Qed.

(** [get_daily_statistics] only ever adds string keys. *)
Lemma get_daily_statistics_str_keys (chat_id : Z) (force : bool) (s : State) :
  (forall z : Z, stats_cache s !! inl z = None) ->
  forall z : Z,
    stats_cache (get_daily_statistics chat_id force s).2 !! inl z = None.
Proof.
  intros Hnone z. unfold get_daily_statistics.
  destruct (if force then None else stats_cache s !! inr (stats_key chat_id));
    [exact (Hnone z)|].
  destruct (data_source s); unfold on_db, on_sheets.
  - destruct (Database.get_daily_statistics chat_id force (db_manager s))
      as [st d']. simpl.
    rewrite lookup_insert_ne; [exact (Hnone z)|discriminate].
  - destruct (Sheets.get_daily_statistics _ _ (sheets_client s)) as [[r|e] c'];
      simpl; [|exact (Hnone z)].
    rewrite lookup_insert_ne; [exact (Hnone z)|discriminate].
Qed.

(** C1 (as the code behaves): [clear_stats_cache] looks the integer
    [chat_id] up in a dictionary whose keys are the strings
    ["day_stats_<chat_id>"], so a cached statistics record for the chat
    survives the clearing, and the next [get_daily_statistics] without
    [force_refresh] returns that record and leaves both backends untouched. *)
Theorem clear_stats_cache_keeps_entry (chat_id : Z) (s : State) (r : result) :
  stats_cache s !! inr (stats_key chat_id) = Some r ->
  stats_cache (clear_stats_cache chat_id s) !! inr (stats_key chat_id) = Some r
  /\ get_daily_statistics chat_id false (clear_stats_cache chat_id s)
     = (Sheets.Ret r, clear_stats_cache chat_id s).
Proof.
  intros Hcached.
  assert (Hkept : stats_cache (clear_stats_cache chat_id s)
                    !! inr (stats_key chat_id) = Some r)
    by (by rewrite clear_stats_cache_str_keys).
  split; [exact Hkept|].
  unfold get_daily_statistics. by rewrite Hkept.
Qed.

Lemma clear_stats_cache_keeps_entry_witness :
  stats_cache (clear_stats_cache 5 Fixtures.cached_facade) !! inr (stats_key 5)
  = Some (RStats (zero_stats None (Some [])))
  /\ get_daily_statistics 5 false (clear_stats_cache 5 Fixtures.cached_facade)
     = (Sheets.Ret (RStats (zero_stats None (Some []))),
        clear_stats_cache 5 Fixtures.cached_facade).
Proof.
  apply (clear_stats_cache_keeps_entry 5 Fixtures.cached_facade).
  vm_compute. reflexivity.
Defined.

End FacadeCache.

(** ** The read-through decorator *)

Section Decorator.

Import Sheets.

Variables (key_pattern : list piece) (function_name : string).
Variables (args : list value) (kw : kwargs).

Let key : string := cache_key key_pattern function_name args kw.

(** In regular mode with [DEBUG] off the decorator consults the cache. *)
Lemma cache_result_unfold (func : list value -> kwargs -> M result)
    (c : Client) :
  dummy_mode c = false -> DEBUG (env c) = false ->
  cache_result key_pattern function_name func args kw c =
  match Cache.get key (now (env c)) (cache_manager c) with
  | (Some v, cm) => (Ret v, set_cache_manager cm c)
  | (None, cm) =>
      match func args kw (set_cache_manager cm c) with
      | (Ret r, c') =>
          if is_None r then (Ret r, c')
          else (Ret r,
                set_cache_manager
                  (Cache.set key r (now (env c')) (cache_manager c')) c')
      | (Raise e, c') => (Raise e, c')
      end
  end.
Proof.
  intros Hlive Hdebug.
  unfold cache_result, bind, self. simpl. rewrite Hlive, Hdebug. simpl.
  fold key.
  destruct (Cache.get key (now (env c)) (cache_manager c)) as [[v|] cm];
    simpl; [reflexivity|].
  destruct (func args kw (set_cache_manager cm c)) as [[r|e] c'];
    [|reflexivity].
  destruct (is_None r); reflexivity.
Qed.

(** A live entry is answered from the cache and counted as a hit. *)
Lemma cache_get_live {V : Type} (k : string) (t stamp : Q) (v : V)
    (cm : Cache.CacheManager V) :
  Cache.cache cm !! k = Some (stamp, v) ->
  (t - stamp < Cache.CACHE_DURATION)%Q ->
  Cache.get k t cm
  = (Some v,
     {| Cache.cache := Cache.cache cm;
        Cache.hits := S (Cache.hits cm);
        Cache.misses := Cache.misses cm;
        Cache.last_access_time := <[k := t]> (Cache.last_access_time cm);
        Cache.invalidations := Cache.invalidations cm |}).
Proof.
  intros Hentry Hfresh. unfold Cache.get. rewrite Hentry.
  destruct (Qlt_le_dec (t - stamp) Cache.CACHE_DURATION) as [_|Hexpired];
    [reflexivity|].
  exfalso. exact (Qlt_not_le _ _ Hfresh Hexpired).
Qed.


(** C3 (amended): on a cache miss the decorator stores the result of the
    underlying operation if and only if that result is not [None]; an empty
    list, an empty dictionary or [False] is stored like any other value. *)
Theorem cache_result_stores_unless_None
    (func : list value -> kwargs -> M result) (c c' : Client)
    (cm : Cache.CacheManager result) (r : result) :
  dummy_mode c = false -> DEBUG (env c) = false ->
  Cache.get key (now (env c)) (cache_manager c) = (None, cm) ->
  func args kw (set_cache_manager cm c) = (Ret r, c') ->
  cache_result key_pattern function_name func args kw c
  = (Ret r,
     if is_None r then c'
     else set_cache_manager
            (Cache.set key r (now (env c')) (cache_manager c')) c').
Proof.
  intros Hlive Hdebug Hmiss Hfunc.
  rewrite cache_result_unfold by assumption.
  rewrite Hmiss, Hfunc. by destruct (is_None r).
Qed.


End Decorator.

Section DecoratorExamples.

Import Sheets Fixtures.

Lemma cache_result_stores_unless_None_witness :
  (get_all_transactions [] [("date", VStr "03.11.2026")] three_client).1
  = Ret (RList (map transaction_of_row three_rows)).
Proof.
  unfold get_all_transactions.
  refine (f_equal fst
    (cache_result_stores_unless_None
       [Lit "get_all_transactions:"; Field 0] "get_all_transactions"
       [] [("date", VStr "03.11.2026")]
       get_all_transactions_func three_client _ _ _ eq_refl eq_refl
       (pair_run _ None _) (pair_run _ _ _)));
    vm_compute; reflexivity.
Defined.

(** C3 (as stated) fails: a call that yields the empty transaction list
    stores that empty list in the cache. *)
Lemma empty_list_is_cached :
  let out := get_all_transactions [] [("date", VStr "01.01.2000")]
                                  three_client in
  out.1 = Ret (RList [])
  /\ Cache.cache (cache_manager out.2)
       !! "get_all_transactions:date=01.01.2000"
     = Some (1000%Q, RList []).
Proof. vm_compute. split; reflexivity. Qed.


(** Why the entry must still be held: a read that refreshes lies between
    the two calls. [get_all_transactions(force_refresh=True)] invalidates
    every key that contains "get_transaction", so the repeated
    [get_transaction(2)] is a third miss and calls the API again. *)
Example force_refresh_read_evicts :
  let out1 := get_transaction [VInt 2] [] three_client in
  let out2 :=
    get_all_transactions [] [("force_refresh", VBool true)] out1.2 in
  let out3 := get_transaction [VInt 2] [] out2.2 in
  Cache.cache (cache_manager out1.2) !! "get_transaction:2" <> None
  /\ Cache.cache (cache_manager out2.2) !! "get_transaction:2" = None
  /\ api_calls (remote out3.2) = (api_calls (remote out2.2) + 2)%nat
  /\ Cache.hits (cache_manager out3.2) = O
  /\ Cache.misses (cache_manager out3.2) = 3%nat.
Proof. vm_compute. repeat split; try reflexivity. discriminate. Qed.


End DecoratorExamples.

(** ** Reasoning about the store's methods: weakest preconditions *)

Section WeakestPreconditions.

Import Sheets Spec.

Lemma wp_ret {A : Type} (a : A) (Q : outcome A -> Client -> Prop) c :
  Q (Ret a) c -> wp (ret a) Q c.
Proof. exact id. Qed.

Lemma wp_raise {A : Type} (e : exn) (Q : outcome A -> Client -> Prop) c :
  Q (Raise e) c -> wp (raise e) Q c.
Proof. exact id. Qed.

Lemma wp_self (Q : outcome Client -> Client -> Prop) c :
  Q (Ret c) c -> wp self Q c.
Proof. exact id. Qed.

Lemma wp_modify (f : Client -> Client) (Q : outcome unit -> Client -> Prop) c :
  Q (Ret tt) (f c) -> wp (modify f) Q c.
Proof. exact id. Qed.

Lemma wp_with_cache_manager f (Q : outcome unit -> Client -> Prop) c :
  Q (Ret tt) (set_cache_manager (f (cache_manager c)) c) ->
  wp (with_cache_manager f) Q c.
Proof. exact id. Qed.

Lemma wp_lift {A : Type} (x : E A) (Q : outcome A -> Client -> Prop) c :
  match x with inl e => Q (Raise e) c | inr a => Q (Ret a) c end ->
  wp (lift x) Q c.
Proof. by destruct x. Qed.

Lemma wp_bind {A B : Type} (m : M A) (k : A -> M B)
    (Q : outcome B -> Client -> Prop) c :
  wp m (fun o c' => match o with
                    | Ret a => wp (k a) Q c'
                    | Raise e => Q (Raise e) c'
                    end) c ->
  wp (bind m k) Q c.
Proof.
  unfold wp, bind. by destruct (m c) as [[a|e] c'].
Qed.

Lemma wp_try_except {A : Type} (body : M A) (handles : exn -> bool)
    (handler : exn -> M A) (Q : outcome A -> Client -> Prop) c :
  wp body (fun o c' => match o with
                       | Ret a => Q (Ret a) c'
                       | Raise e => if handles e then wp (handler e) Q c'
                                    else Q (Raise e) c'
                       end) c ->
  wp (try_except body handles handler) Q c.
Proof.
  unfold wp, try_except. destruct (body c) as [[a|e] c']; simpl; [done|].
  by destruct (handles e).
Qed.

(** [except Exception as e: raise] *)
Lemma wp_try_reraise {A : Type} (body : M A)
    (Q : outcome A -> Client -> Prop) c :
  wp body Q c -> wp (try_except body Exception (fun e => raise e)) Q c.
Proof.
  unfold wp, try_except. by destruct (body c) as [[a|e] c'].
Qed.

(** [except Exception: return d] *)
Lemma wp_try_default {A : Type} (body : M A) (d : A)
    (Q : outcome A -> Client -> Prop) c :
  wp body (fun o c' => match o with
                       | Ret a => Q (Ret a) c'
                       | Raise _ => Q (Ret d) c'
                       end) c ->
  wp (try_except body Exception (fun _ => ret d)) Q c.
Proof.
  unfold wp, try_except. by destruct (body c) as [[a|e] c'].
Qed.

Lemma wp_mono {A : Type} (m : M A) (Q Q' : outcome A -> Client -> Prop) c :
  (forall o c', Q o c' -> Q' o c') -> wp m Q c -> wp m Q' c.
Proof. unfold wp. auto. Qed.

(** Sequencing through an intermediate assertion. *)
Lemma wp_bind_post {A B : Type} (m : M A) (k : A -> M B)
    (R : outcome A -> Client -> Prop) (Q : outcome B -> Client -> Prop) c :
  wp m R c ->
  (forall o c', R o c' -> match o with
                          | Ret a => wp (k a) Q c'
                          | Raise e => Q (Raise e) c'
                          end) ->
  wp (bind m k) Q c.
Proof.
  intros Hm Hk. apply wp_bind. revert Hm. apply wp_mono. exact Hk.
Qed.

(** An API call either returns or raises [BackendError]. *)
Lemma wp_api (Q : outcome unit -> Client -> Prop) c :
  Q (Ret tt) (after_call c) -> Q (Raise BackendError) (after_call c) ->
  wp api Q c.
Proof.
  intros Hret Hraise. unfold wp, api.
  by destruct (faults (remote c)) as [|[|] fs].
Qed.

(** On a healthy backend an API call returns. *)
Lemma wp_api_healthy (Q : outcome unit -> Client -> Prop) c :
  faults (remote c) = [] -> Q (Ret tt) (after_call c) -> wp api Q c.
Proof.
  intros Hf Hret. unfold wp, api. by rewrite Hf.
Qed.

(** When the next API call is set to fail, it raises. *)
Lemma wp_api_fault (Q : outcome unit -> Client -> Prop) c fs :
  faults (remote c) = true :: fs -> Q (Raise BackendError) (after_call c) ->
  wp api Q c.
Proof.
  intros Hf Hraise. unfold wp, api. by rewrite Hf.
Qed.

Lemma after_call_healthy c :
  faults (remote c) = [] -> faults (remote (after_call c)) = [].
Proof. intros H. simpl. by rewrite H. Qed.

End WeakestPreconditions.

(** One step of symbolic execution. *)
Ltac wp_step :=
  lazymatch goal with
  | |- Spec.wp (Sheets.bind _ _) _ _ => apply wp_bind
  | |- Spec.wp (Sheets.try_except _ _ _) _ _ => apply wp_try_except
  | |- Spec.wp (Sheets.ret _) _ _ => apply wp_ret
  | |- Spec.wp (Sheets.raise _) _ _ => apply wp_raise
  | |- Spec.wp Sheets.self _ _ => apply wp_self
  | |- Spec.wp (Sheets.modify _) _ _ => apply wp_modify
  | |- Spec.wp (Sheets.with_cache_manager _) _ _ => apply wp_with_cache_manager
  | |- Spec.wp (Sheets.lift _) _ _ => apply wp_lift
  end.

Ltac wp_steps := repeat (wp_step; cbv beta).

Section UpdateTransaction.

Import Sheets Spec.

Lemma find_row_Some (id_text : string) (s : list row) (i : nat) :
  find_row id_text (map (fun r : row => nth 0 r "") s) = Some i ->
  exists old : row, s !! i = Some old /\ nth i s [] = old.
Proof.
  unfold find_row. intros H.
  destruct (list_find _ _) as [[j x]|] eqn:Hfind; [|discriminate].
  simpl in H. injection H as ->.
  apply list_find_Some in Hfind as (Hlookup & _ & _).
  rewrite list_lookup_fmap in Hlookup.
  destruct (s !! i) as [old|] eqn:Hold; [|discriminate].
  exists old. split; [reflexivity|].
  by apply nth_lookup_Some with (d := []) in Hold.
Qed.

(** What [update_transaction] does to the worksheet in regular mode: nothing,
    or it overwrites the row found with the list built by [updated_row]. *)
Lemma update_transaction_effect (transaction_id : value) (data : dict)
    (c : Client) :
  dummy_mode c = false ->
  wp (update_transaction transaction_id data)
     (fun o c' =>
        (exists b, o = Ret b) /\
        (sheet (remote c') = sheet (remote c)
         \/ exists (i : nat) (old : row) (r : list value),
              sheet (remote c) !! i = Some old
              /\ updated_row old data = inr r
              /\ o = Ret true
              /\ sheet (remote c')
                 = <[i := overwrite (map cell_text r) old]> (sheet (remote c))))
     c.
Proof.
  intros Hlive. unfold update_transaction.
  wp_steps. rewrite Hlive.
  unfold col_values_1. wp_steps.
  apply wp_api; [|simpl; wp_steps; eauto].
  wp_steps. simpl sheet.
  destruct (find_row _ _) as [i|] eqn:Hfind; [|wp_steps; simpl; eauto].
  apply find_row_Some in Hfind as (old & Hold & Hnth).
  unfold row_values. wp_steps.
  apply wp_api; [|simpl; wp_steps; eauto].
  wp_steps. simpl sheet. rewrite Nat.sub_succ, Nat.sub_0_r, Hnth.
  destruct (updated_row old data) as [e|r] eqn:Hrow;
    [simpl; wp_steps; simpl; eauto|].
  unfold update_row. wp_steps.
  apply wp_api; [|simpl; wp_steps; eauto].
  wp_steps. simpl.
  rewrite Nat.sub_0_r, Hnth.
  split; [eauto|]. right. exists i, old, r. auto.
Qed.



(** Writing ten cells over a row leaves every cell from the eleventh on. *)
Lemma overwrite_lookup_ge (cells old : row) (j : nat) :
  (length cells <= j)%nat -> overwrite cells old !! j = old !! j.
Proof.
  intros Hj. unfold overwrite.
  rewrite lookup_app_r by exact Hj.
  rewrite lookup_drop. f_equal. lia.
Qed.

(** The cells of [updated_row] that repeat the row read. *)
Lemma updated_row_kept (old : row) (data : dict) (r : list value) :
  updated_row old data = inr r ->
  length r = 10%nat
  /\ cell_text <$> r !! 0%nat = old !! 0%nat
  /\ cell_text <$> r !! 1%nat = old !! 1%nat
  /\ cell_text <$> r !! 7%nat = old !! 7%nat.
Proof.
  unfold updated_row, ebind, eitem. intros H.
  destruct (old !! 0%nat) as [r0|] eqn:H0; [|discriminate].
  destruct (old !! 1%nat) as [r1|] eqn:H1; [|discriminate].
  destruct (old !! 2%nat) as [r2|]; [|discriminate].
  destruct (old !! 3%nat) as [r3|]; [|discriminate].
  destruct (old !! 4%nat) as [r4|]; [|discriminate].
  destruct (old !! 5%nat) as [r5|]; [|discriminate].
  destruct (old !! 6%nat) as [r6|]; [|discriminate].
  destruct (old !! 7%nat) as [r7|] eqn:H7; [|discriminate].
  destruct (9 <? length old)%nat.
  - destruct (old !! 9%nat) as [r9|]; [|discriminate].
    injection H as <-. auto.
  - injection H as <-. auto.
Qed.

(** C10: in regular mode [update_transaction] leaves the number of rows and,
    in every row, every cell outside the amount, method, commission, rate,
    status, hash and chat_id columns as it was; in particular the ID, the
    date/time and the group cells are unchanged whatever [data] holds. *)
Theorem update_transaction_frame (transaction_id : value) (data : dict)
    (c : Client) :
  dummy_mode c = false ->
  let c' := (update_transaction transaction_id data c).2 in
  length (sheet (remote c')) = length (sheet (remote c))
  /\ forall (i : nat) (old : row),
       sheet (remote c) !! i = Some old ->
       exists new : row,
         sheet (remote c') !! i = Some new
         /\ new !! 0%nat = old !! 0%nat      (* ID *)
         /\ new !! 1%nat = old !! 1%nat      (* date/time *)
         /\ new !! 7%nat = old !! 7%nat      (* group *)
         /\ forall j : nat, ~ rewritable j -> new !! j = old !! j.
Proof.
  intros Hlive c'. subst c'.
  destruct (update_transaction_effect transaction_id data c Hlive)
    as [_ [Hsame|(i0 & old0 & r & Hold0 & Hrow & _ & Hnew)]].
  - rewrite Hsame. split; [reflexivity|]. intros i old Hold. eauto 10.
  - rewrite Hnew. split; [apply length_insert|].
    intros i old Hold.
    destruct (decide (i = i0)) as [->|Hne].
    + assert (old = old0) as -> by congruence.
      apply updated_row_kept in Hrow as (Hlen & H0 & H1 & H7).
      exists (overwrite (map cell_text r) old0).
      split; [apply list_lookup_insert_eq; by eapply lookup_lt_Some|].
      assert (Hcells : forall j, (j < 10)%nat ->
                overwrite (map cell_text r) old0 !! j = cell_text <$> r !! j).
      { intros j Hj. unfold overwrite.
        rewrite lookup_app_l by (rewrite length_map; lia).
        apply list_lookup_fmap. }
      repeat split.
      * rewrite Hcells by lia. exact H0.
      * rewrite Hcells by lia. exact H1.
      * rewrite Hcells by lia. exact H7.
      * intros j Hj.
        destruct (decide (j < 10)%nat) as [Hlt|Hge].
        -- rewrite Hcells by exact Hlt.
           unfold rewritable in Hj.
           do 10 (destruct j as [|j]; [first [assumption | exfalso; apply Hj; set_solver]|]).
           lia.
        -- apply overwrite_lookup_ge. rewrite length_map. lia.
    + exists old. split; [by rewrite list_lookup_insert_ne|]. auto.
Qed.

Lemma update_transaction_frame_witness :
  let c' := (update_transaction (VInt 2)
               (<["id" := VInt 77]> (<["group" := VStr "other"]>
                 (<["datetime" := VStr "x"]> (<["amount" := VInt 5]> ∅))))
               Fixtures.three_client).2 in
  sheet (remote c') !! 2%nat
  = Some ["2"; "03.11.2026 10:01:00"; "5"; "USDT"; "10"; "100";
          "Не выплачено"; "-5"; ""; "-5"]
  /\ length (sheet (remote c')) = 4%nat.
Proof.
  split; [vm_compute; reflexivity|].
  exact (proj1 (update_transaction_frame (VInt 2) _ Fixtures.three_client
                  eq_refl)).
Defined.

End UpdateTransaction.

(** ** New transactions *)

Section AddTransaction.

Import Sheets Spec.

Lemma new_row_cells (new_id : Z) (e : Env) (data : dict) (r : list value) :
  new_row new_id e data = inr r ->
  map cell_text r !! 0%nat = Some (pretty new_id)
  /\ map cell_text r !! 6%nat = Some STATUS_UNPAID
  /\ map cell_text r !! 8%nat = Some "".
Proof.
  unfold new_row, ebind, esubscript. intros H.
  destruct (data !! "amount"); [|discriminate].
  destruct (data !! "method"); [|discriminate].
  destruct (data !! "commission"); [|discriminate].
  destruct (data !! "rate"); [|discriminate].
  injection H as <-. auto.
Qed.

Lemma new_dummy_transaction_fields (new_id : Z) (e : Env) (data t : dict) :
  new_dummy_transaction new_id e data = inr t ->
  t !! "id" = Some (VInt new_id)
  /\ t !! "status" = Some (VStr STATUS_UNPAID)
  /\ t !! "hash" = Some (VStr "").
Proof.
  unfold new_dummy_transaction, ebind, esubscript. intros H.
  destruct (data !! "amount"); [|discriminate].
  destruct (data !! "method"); [|discriminate].
  destruct (data !! "commission"); [|discriminate].
  destruct (data !! "rate"); [|discriminate].
  injection H as <-. auto.
Qed.

(** In regular mode a successful [add_transaction] appends one row whose
    status cell is the not-paid text and whose hash cell is empty. *)
Lemma add_transaction_live (data : dict) (c : Client) :
  dummy_mode c = false ->
  wp (add_transaction data)
     (fun o c' =>
        forall new_id : Z, o = Ret new_id ->
          exists r : row,
            sheet (remote c') = sheet (remote c) ++ [r]
            /\ r !! 0%nat = Some (pretty new_id)
            /\ r !! 6%nat = Some STATUS_UNPAID
            /\ r !! 8%nat = Some "") c.
Proof.
  intros Hlive.
  set (Q := fun (o : outcome Z) (c' : Client) => forall new_id : Z, _).
  assert (Hraise : forall e c', Q (Raise e) c') by (intros e c' z [=]).
  unfold add_transaction. apply wp_try_reraise.
  wp_steps. rewrite Hlive.
  unfold col_values_1. wp_steps.
  apply wp_api; [|apply Hraise].
  wp_steps. simpl sheet.
  set (ids := tail (map _ _)).
  assert (Hafter : forall new_id : Z,
    wp (r <- lift (new_row new_id (env c) data) ;;
        append_row r ;;;
        with_cache_manager (Cache.invalidate_transaction_cache VNone) ;;;
        ret new_id) Q (after_call c)).
  { intros new_id. wp_steps.
    destruct (new_row new_id (env c) data) as [e|r] eqn:Hrow;
      [apply Hraise|].
    unfold append_row. wp_steps.
    apply wp_api; [|apply Hraise].
    wp_steps. intros new_id0 [= <-]. simpl.
    apply new_row_cells in Hrow as (H0 & H6 & H8).
    eexists. split; [reflexivity|]. auto. }
  destruct ids as [|i0 ids'].
  - wp_step. apply Hafter.
  - destruct (max_list _) as [m|]; wp_step; [apply Hafter|apply Hraise].
Qed.

(** In dummy mode a successful [add_transaction] appends one record whose
    status is the not-paid text and whose hash is empty. *)
Lemma add_transaction_dummy (data : dict) (c : Client) :
  dummy_mode c = true ->
  wp (add_transaction data)
     (fun o c' =>
        forall new_id : Z, o = Ret new_id ->
          exists t : dict,
            daily_transactions c' = daily_transactions c ++ [t]
            /\ t !! "id" = Some (VInt new_id)
            /\ t !! "status" = Some (VStr STATUS_UNPAID)
            /\ t !! "hash" = Some (VStr "")) c.
Proof.
  intros Hdummy.
  set (Q := fun (o : outcome Z) (c' : Client) => forall new_id : Z, _).
  assert (Hraise : forall e c', Q (Raise e) c') by (intros e c' z [=]).
  unfold add_transaction. apply wp_try_reraise.
  wp_steps. rewrite Hdummy.
  assert (Hafter : forall new_id : Z,
    wp (transaction <- lift (new_dummy_transaction new_id (env c) data) ;;
        modify (fun c0 => set_daily_transactions
                            (daily_transactions c0 ++ [transaction]) c0) ;;;
        with_cache_manager (Cache.invalidate_transaction_cache VNone) ;;;
        ret new_id) Q c).
  { intros new_id. wp_steps.
    destruct (new_dummy_transaction new_id (env c) data) as [e|t] eqn:Ht;
      [apply Hraise|].
    wp_steps. intros new_id0 [= <-]. simpl.
    apply new_dummy_transaction_fields in Ht as (Hid & Hst & Hh).
    exists t. auto. }
  wp_step.
  destruct (daily_transactions c) as [|t0 ts] eqn:Hts.
  - wp_step. apply Hafter.
  - do 2 wp_step.
    destruct (emap _ _) as [e|ids]; [apply Hraise|].
    destruct (max_list ids) as [m|]; wp_step; [apply Hafter|apply Hraise].
Qed.

(** The relational store takes the hash of a new row from [data]. *)
Lemma database_add_transaction_row (chat : Z) (data : dict) (d d' : Database.DB)
    (new_id : Z) :
  Database.add_transaction chat data d = (inr new_id, d') ->
  exists t : Database.Transaction,
    Database.transactions d' = Database.transactions d ++ [t]
    /\ Database.id t = new_id
    /\ Database.status t = Database.STATUS_UNPAID
    /\ Database.to_nullable_String (get data "hash" (VStr ""))
       = inr (Database.transaction_hash t).
Proof.
  unfold Database.add_transaction, Database.new_transaction, ebind.
  destruct (Database.convert_amount _) as [?|amount]; [discriminate|].
  destruct (Database.convert_commission _) as [?|commission]; [discriminate|].
  destruct (Database.convert_rate _) as [?|rate]; [discriminate|].
  destruct (Database.to_String _) as [?|method]; [discriminate|].
  destruct (Database.to_nullable_String _) as [?|hash]; [discriminate|].
  unfold Database.db_call.
  destruct (Database.faults d) as [|[|] fs]; [|discriminate|];
    intros [= <- <-]; eexists; simpl; eauto.
Qed.

(** C8 (amended): a newly added transaction always has the not-paid status,
    in both stores and whatever [data] holds. Its hash is empty in the
    spreadsheet store (regular and dummy mode); the relational store stores
    the value that [data] gives under ["hash"], and an empty hash only when
    [data] has none. *)
Theorem add_transaction_status_and_hash :
  (forall (data : dict) (c c' : Client) (new_id : Z),
     dummy_mode c = false ->
     add_transaction data c = (Ret new_id, c') ->
     exists r : row,
       sheet (remote c') = sheet (remote c) ++ [r]
       /\ r !! 0%nat = Some (pretty new_id)
       /\ r !! 6%nat = Some STATUS_UNPAID
       /\ r !! 8%nat = Some "")
  /\ (forall (data : dict) (c c' : Client) (new_id : Z),
        dummy_mode c = true ->
        add_transaction data c = (Ret new_id, c') ->
        exists t : dict,
          daily_transactions c' = daily_transactions c ++ [t]
          /\ t !! "id" = Some (VInt new_id)
          /\ t !! "status" = Some (VStr STATUS_UNPAID)
          /\ t !! "hash" = Some (VStr ""))
  /\ (forall (chat : Z) (data : dict) (d d' : Database.DB) (new_id : Z),
        Database.add_transaction chat data d = (inr new_id, d') ->
        exists t : Database.Transaction,
          Database.transactions d' = Database.transactions d ++ [t]
          /\ Database.id t = new_id
          /\ Database.status t = Database.STATUS_UNPAID
          /\ Database.to_nullable_String (get data "hash" (VStr ""))
             = inr (Database.transaction_hash t)).
Proof.
  split; [|split].
  - intros data c c' new_id Hlive Hrun.
    pose proof (add_transaction_live data c Hlive) as H.
    unfold wp in H. rewrite Hrun in H. by apply H.
  - intros data c c' new_id Hdummy Hrun.
    pose proof (add_transaction_dummy data c Hdummy) as H.
    unfold wp in H. rewrite Hrun in H. by apply H.
  - exact database_add_transaction_row.
Qed.

Lemma add_transaction_status_and_hash_witness :
  (exists r : row,
     sheet (remote (add_transaction Fixtures.data_with_hash
                      Fixtures.three_client).2)
     = sheet (remote Fixtures.three_client) ++ [r]
     /\ r !! 0%nat = Some (pretty 4)
     /\ r !! 6%nat = Some STATUS_UNPAID
     /\ r !! 8%nat = Some "")
  /\ (exists t : dict,
        daily_transactions (add_transaction Fixtures.data_with_hash
                              Fixtures.dummy_client).2
        = daily_transactions Fixtures.dummy_client ++ [t]
        /\ t !! "id" = Some (VInt 2)
        /\ t !! "status" = Some (VStr STATUS_UNPAID)
        /\ t !! "hash" = Some (VStr ""))
  /\ (exists t : Database.Transaction,
        Database.transactions
          (Database.add_transaction (-5) Fixtures.data_with_hash
                                    Fixtures.three_db).2
        = Database.transactions Fixtures.three_db ++ [t]
        /\ Database.id t = 4
        /\ Database.status t = Database.STATUS_UNPAID
        /\ Database.to_nullable_String
             (get Fixtures.data_with_hash "hash" (VStr ""))
           = inr (Database.transaction_hash t)).
Proof.
  destruct add_transaction_status_and_hash as (Hlive & Hdummy & Hdb).
  split; [|split].
  - apply (Hlive Fixtures.data_with_hash Fixtures.three_client _ 4 eq_refl).
    apply pair_run. vm_compute. reflexivity.
  - apply (Hdummy Fixtures.data_with_hash Fixtures.dummy_client _ 2 eq_refl).
    apply pair_run. vm_compute. reflexivity.
  - apply (Hdb (-5) Fixtures.data_with_hash Fixtures.three_db _ 4).
    apply pair_run. vm_compute. reflexivity.
Defined.

(** C8 (as stated) fails in the relational store: a hash supplied in [data]
    is stored with the new transaction. *)
Lemma database_add_transaction_keeps_hash :
  let out := Database.add_transaction (-5) Fixtures.data_with_hash
                                      Fixtures.three_db in
  out.1 = inr 4
  /\ (Database.transaction_hash <$> last (Database.transactions out.2))
     = Some (Some "abc")
  /\ (Database.status <$> last (Database.transactions out.2))
     = Some "Не выплачено".
Proof. vm_compute. repeat split; reflexivity. Qed.

End AddTransaction.

(** ** Day status *)

Section DayOpen.

Import Sheets Spec.

Lemma filter_none {A : Type} (f : A -> bool) (l : list A) :
  (forall x, x ∈ l -> f x = false) -> List.filter f l = [].
Proof.
  induction l as [|x l IH]; intros H; [reflexivity|].
  simpl. rewrite (H x) by set_solver. apply IH. intros y Hy. apply H. set_solver.
Qed.

(** The chat-specific branch answers [False] when no row is for the chat. *)
Lemma chat_day_open_no_rows (current_date : string) (chat_id : Z)
    (data_rows : list row) :
  (forall r, r ∈ data_rows -> row_is_for (pretty chat_id) r = false) ->
  chat_day_open current_date (VInt chat_id) data_rows = inr false.
Proof.
  intros H. unfold chat_day_open. simpl str. by rewrite filter_none.
Qed.

(** Opening an auxiliary worksheet, creating it when it is missing: the
    answer [true] means that the worksheet existed and is unchanged. *)
Lemma open_or_create (w : aux_sheet) (on_created : bool) (c : Client) :
  wp (try_except (open_by_key ;;; worksheet w ;;; ret true)
                 is_WorksheetNotFound
                 (fun _ => create_aux w ;;; ret on_created))
     (fun o c' =>
        cache_manager c' = cache_manager c
        /\ env c' = env c
        /\ (o = Ret true -> on_created = false ->
            aux_rows w (remote c') = aux_rows w (remote c))) c.
Proof.
  apply wp_try_except. unfold open_by_key, worksheet, create_aux.
  wp_steps. apply wp_api; [|simpl; intuition discriminate].
  wp_steps. apply wp_api; [|simpl; intuition discriminate].
  wp_steps.
  destruct (aux_rows w (remote (after_call (after_call c)))) eqn:Hrows.
  - wp_steps. simpl. split; [reflexivity|split; [reflexivity|]].
    intros _ _. by destruct w.
  - wp_steps. simpl.
    unfold open_by_key, add_worksheet, aux_update_row.
    wp_steps. apply wp_api; [|simpl; intuition discriminate].
    wp_steps. apply wp_api; [|simpl; intuition discriminate].
    wp_steps. apply wp_api; [|simpl; intuition discriminate].
    wp_steps. simpl. split; [reflexivity|split; [reflexivity|]].
    intros [= ->]. discriminate.
Qed.

(** The body of [is_day_open] in regular mode, for a chat without rows. *)
Lemma is_day_open_func_no_rows (chat_id : Z) (kw : kwargs) (c : Client) :
  dummy_mode c = false ->
  no_status_row chat_id c ->
  wp (is_day_open_func [VInt chat_id] kw)
     (fun o c' => o = Ret (RVal (VBool false))
                  /\ cache_manager c' = cache_manager c) c.
Proof.
  intros Hlive Hrows. unfold is_day_open_func.
  change (param 0 "chat_id" VNone [VInt chat_id] kw) with (VInt chat_id).
  apply wp_try_default.
  set (Q := fun (o : outcome result) (c' : Client) => match o with
                                                      | Ret a => _
                                                      | Raise _ => _
                                                      end).
  assert (Hraise : forall e c', cache_manager c' = cache_manager c ->
                                Q (Raise e) c') by (intros; by split).
  assert (Hfalse : forall c', cache_manager c' = cache_manager c ->
                              Q (Ret (RVal (VBool false))) c')
    by (intros; by split).
  wp_steps. rewrite Hlive.
  eapply wp_bind_post; [apply (open_or_create DayStatus false)|].
  intros [[|]|e] c1 (Hcm & Henv & Hsame); simpl.
  - unfold aux_get_all_values. wp_steps.
    apply wp_api; [|by apply Hraise].
    wp_steps.
    destruct (length _ <=? 1)%nat; wp_steps; [by apply Hfalse|].
    rewrite chat_day_open_no_rows; [wp_steps; by apply Hfalse|].
    intros r Hr. unfold aux_current in Hr. simpl in Hr.
    specialize (Hsame eq_refl eq_refl). simpl in Hsame. rewrite Hsame in Hr.
    destruct (ws_DayStatus (remote c)) as [rows|] eqn:Hws;
      [|simpl in Hr; set_solver].
    by apply (Hrows rows).
  - wp_steps. by apply Hfalse.
  - by apply Hraise.
Qed.

Lemma append_empty_r (s : string) : s +:+ "" = s.
Proof.
  induction s as [|a s IH]; [reflexivity|].
  change (String a (s +:+ "") = String a s). by rewrite IH.
Qed.

(** The cache key of [is_day_open(chat_id)]. *)
Lemma is_day_open_key (chat_id : Z) :
  cache_key [Lit "is_day_open:"; Field 0] "is_day_open" [VInt chat_id] []
  = "is_day_open:" +:+ pretty chat_id.
Proof.
  unfold cache_key. simpl.
  change (format _ _) with (inr (B := string) (A := exn)
                              ("is_day_open:" +:+ pretty chat_id +:+ "")).
  by rewrite append_empty_r.
Qed.

(** What the cache answers is what it holds. *)
Lemma cache_get_Some {V : Type} (k : string) (t : Q) (v : V)
    (cm : Cache.CacheManager V) :
  (Cache.get k t cm).1 = Some v ->
  exists stamp : Q, Cache.cache cm !! k = Some (stamp, v).
Proof.
  unfold Cache.get.
  destruct (Cache.cache cm !! k) as [[stamp v']|]; [|discriminate].
  destruct (Qlt_le_dec _ _); [|discriminate].
  intros [= ->]. eauto.
Qed.

(** With no row for the chat on the worksheet and no answer but [False] in
    the cache, [is_day_open] returns [False]. *)
Lemma is_day_open_closed (chat_id : Z) (c : Client) :
  dummy_mode c = false ->
  no_status_row chat_id c ->
  cached_day_closed chat_id c ->
  (is_day_open [VInt chat_id] [] c).1 = Ret (RVal (VBool false)).
Proof.
  intros Hlive Hrows Hcache.
  destruct (DEBUG (env c)) eqn:Hdebug.
  - unfold is_day_open, cache_result, bind, self. simpl.
    rewrite Hlive, Hdebug. simpl.
    exact (proj1 (is_day_open_func_no_rows chat_id [] c Hlive Hrows)).
  - unfold is_day_open. rewrite cache_result_unfold by assumption.
    rewrite is_day_open_key.
    destruct (Cache.get _ _ _) as [[v|] cm] eqn:Hget.
    + simpl. f_equal.
      destruct (cache_get_Some _ _ v _ (f_equal fst Hget)) as [stamp Hentry].
      by eapply Hcache.
    + pose proof (is_day_open_func_no_rows chat_id []
                    (set_cache_manager cm c) Hlive Hrows) as [H _].
      destruct (is_day_open_func _ _ _) as [o c']. simpl in H. subst o.
      reflexivity.
Qed.

(** C5 (amended): in regular mode, when the "DayStatus" worksheet holds no
    row for the chat and the cache holds no answer but [False] for it,
    [is_day_open] returns [False], whether or not API calls fail. In dummy
    mode [is_day_open] returns the stored [day_open] flag, [True] when none
    is stored, whatever the chat. *)
Theorem is_day_open_without_rows :
  (forall (chat_id : Z) (c : Client),
     dummy_mode c = false ->
     no_status_row chat_id c ->
     cached_day_closed chat_id c ->
     (is_day_open [VInt chat_id] [] c).1 = Ret (RVal (VBool false)))
  /\ (forall (args : list value) (kw : kwargs) (c : Client),
        dummy_mode c = true ->
        is_day_open args kw c
        = (Ret (RVal (VBool (default true (day_open c)))), c)).
Proof.
  split.
  - exact is_day_open_closed.
  - intros args kw c Hdummy.
    unfold is_day_open, cache_result, bind, self. simpl. rewrite Hdummy.
    unfold is_day_open_func, try_except, bind, self. simpl. by rewrite Hdummy.
Qed.

Lemma is_day_open_without_rows_witness :
  (is_day_open [VInt 5] [] Fixtures.three_client).1 = Ret (RVal (VBool false))
  /\ is_day_open [VInt 5] [] Fixtures.dummy_client
     = (Ret (RVal (VBool true)), Fixtures.dummy_client).
Proof.
  split.
  - apply (proj1 is_day_open_without_rows 5 Fixtures.three_client);
      [reflexivity|intros rows [=]|intros stamp v [=]].
  - apply (proj2 is_day_open_without_rows [VInt 5] [] Fixtures.dummy_client).
    reflexivity.
Defined.

(** C5 (as stated) fails in dummy mode: a client that has just fallen back
    to the in-memory mode reports the day as open for any chat, although no
    status was ever recorded. *)
Lemma dummy_day_is_open :
  (is_day_open [VInt 5] [] Fixtures.dummy_client).1 = Ret (RVal (VBool true)).
Proof. reflexivity. Qed.

End DayOpen.

(** ** Daily statistics *)

Section Statistics.

Import Sheets.

(** The spreadsheet store on the three transactions of the example: the
    amounts are read from the cell texts, the day's rate converts them. *)
Lemma sheets_statistics_three :
  exists s : stats,
    (get_daily_statistics [VInt (-5)] [] Fixtures.three_client).1
    = Ret (RStats s)
    /\ transactions_count s = 3%nat
    /\ (total_amount s == 6000)%Q
    /\ (paid_amount s == 1000)%Q
    /\ (awaiting_amount s == 5000)%Q
    /\ (to_pay_amount s == 4500)%Q
    /\ (total_usdt s == 60)%Q.
Proof.
  eexists. split; [vm_compute; reflexivity|].
  vm_compute. repeat split; reflexivity.
Qed.

(** The [Transaction] model has no [date] attribute. *)
Lemma Transaction_has_no_date :
  Database.Transaction_attr "date" = inl (AttributeError "date").
Proof. reflexivity. Qed.

(** The relational store answers every statistics request with the all-zero
    record: the query names [Transaction.date], which the model lacks, and
    the resulting exception is caught. *)
Lemma database_statistics_always_zero (chat : Z) (force : bool)
    (d : Database.DB) :
  Database.get_daily_statistics chat force d = (zero_stats None None, d).
Proof. reflexivity. Qed.

(** C4 (as the code behaves): on the three transactions of the example
    (1000 paid, 2000 and 3000 not paid, commission 10, rate 100) the
    relational store reports no transaction and a total of 0, not 6000; the
    facade on that store hands the same record on. *)
Theorem database_statistics_three :
  let s := (Database.get_daily_statistics (-5) false Fixtures.three_db).1 in
  transactions_count s = O
  /\ (total_amount s == 0)%Q
  /\ (paid_amount s == 0)%Q
  /\ (awaiting_amount s == 0)%Q
  /\ (to_pay_amount s == 0)%Q
  /\ (total_usdt s == 0)%Q
  /\ ~ (total_amount s == 6000)%Q
  /\ (DataManager.get_daily_statistics (-5) false
        (DataManager.init true Fixtures.three_db Fixtures.three_client)).1
     = Ret (RStats (zero_stats None None)).
Proof.
  vm_compute. repeat split; try reflexivity; discriminate.
Qed.

(** Had the query found the three rows, the loop of the relational store
    would have produced the figures of the example. *)
Lemma database_summarize_three :
  let s := Database.summarize 100 10
             (Database.transactions Fixtures.three_db) in
  (total_amount s == 6000)%Q /\ (paid_amount s == 1000)%Q
  /\ (awaiting_amount s == 5000)%Q /\ (to_pay_amount s == 4500)%Q
  /\ (total_usdt s == 60)%Q.
Proof. vm_compute. repeat split; reflexivity. Qed.

End Statistics.

(** ** Error handling of the spreadsheet store *)

Section ErrorHandling.

Import Sheets Spec.

Lemma returns_never_backend_error {A : Type} (m : M A) :
  returns m -> never_backend_error m.
Proof. intros H c. destruct (H c) as [a ->]. discriminate. Qed.

(** A body wrapped in [try: ... except Exception: return d] returns. *)
Lemma try_default_returns {A : Type} (body : M A) (d : exn -> A) :
  returns (try_except body Exception (fun e => ret (d e))).
Proof.
  intros c. unfold try_except. destruct (body c) as [[a|e] c']; simpl; eauto.
Qed.

Lemma bind_returns {A B : Type} (m : M A) (k : A -> M B) :
  returns m -> (forall a, returns (k a)) -> returns (bind m k).
Proof.
  intros Hm Hk c. unfold bind.
  destruct (Hm c) as [a Ha]. destruct (m c) as [o c']. simpl in Ha. subst o.
  apply Hk.
Qed.

Lemma bind_never_backend_error {A B : Type} (m : M A) (k : A -> M B) :
  never_backend_error m -> (forall a, never_backend_error (k a)) ->
  never_backend_error (bind m k).
Proof.
  intros Hm Hk c. unfold bind. specialize (Hm c).
  destruct (m c) as [[a|e] c']; simpl in *; [apply Hk|].
  intros [= ->]. by apply Hm.
Qed.

Lemma ret_returns {A : Type} (a : A) : returns (ret a).
Proof. intros c. by exists a. Qed.

Lemma self_returns : returns self.
Proof. intros c. by exists c. Qed.

Lemma modify_returns (f : Client -> Client) : returns (modify f).
Proof. intros c. by exists tt. Qed.

(** The decorator adds no failure of its own. *)
Lemma cache_result_returns (key_pattern : list piece) (function_name : string)
    (func : list value -> kwargs -> M result) (args : list value)
    (kw : kwargs) :
  (forall a k, returns (func a k)) ->
  returns (cache_result key_pattern function_name func args kw).
Proof.
  intros Hfunc c. unfold cache_result, bind, self. simpl.
  destruct (dummy_mode c); [apply Hfunc|].
  destruct (DEBUG (env c) && _); [apply Hfunc|].
  destruct (Cache.get _ _ _) as [[v|] cm]; simpl; [eauto|].
  destruct (Hfunc args kw (set_cache_manager cm c)) as [r Hr].
  destruct (func args kw _) as [o c']. simpl in Hr. subst o.
  destruct (is_None r); simpl; eauto.
Qed.

Lemma cache_result_never_backend_error (key_pattern : list piece)
    (function_name : string) (func : list value -> kwargs -> M result)
    (args : list value) (kw : kwargs) :
  (forall a k, never_backend_error (func a k)) ->
  never_backend_error (cache_result key_pattern function_name func args kw).
Proof.
  intros Hfunc c. unfold cache_result, bind, self. simpl.
  destruct (dummy_mode c); [apply Hfunc|].
  destruct (DEBUG (env c) && _); [apply Hfunc|].
  destruct (Cache.get _ _ _) as [[v|] cm]; simpl; [discriminate|].
  pose proof (Hfunc args kw (set_cache_manager cm c)) as Hr.
  destruct (func args kw _) as [[r|e] c']; simpl in *; [|exact Hr].
  destruct (is_None r); simpl; discriminate.
Qed.

Lemma get_transaction_returns args kw : returns (get_transaction args kw).
Proof.
  apply cache_result_returns. intros a k.
  apply (try_default_returns _ (fun _ => RVal VNone)).
Qed.

Lemma get_all_transactions_returns args kw :
  returns (get_all_transactions args kw).
Proof.
  apply cache_result_returns. intros a k. unfold get_all_transactions_func.
  apply bind_returns.
  - destruct (truthy _); [|apply ret_returns].
    apply bind_returns; intros; apply modify_returns.
  - intros _. apply (try_default_returns _ (fun _ => RList [])).
Qed.

Lemma get_daily_transactions_returns args kw :
  returns (get_daily_transactions args kw).
Proof.
  apply cache_result_returns. intros a k. unfold get_daily_transactions_func.
  apply bind_returns; [apply self_returns|].
  intros c. apply get_all_transactions_returns.
Qed.

Lemma get_day_settings_returns args kw : returns (get_day_settings args kw).
Proof.
  apply cache_result_returns. intros a k.
  apply (try_default_returns _ (fun _ => RVal VNone)).
Qed.

Lemma is_day_open_returns args kw : returns (is_day_open args kw).
Proof.
  apply cache_result_returns. intros a k.
  apply (try_default_returns _ (fun _ => RVal (VBool false))).
Qed.

Lemma get_daily_statistics_returns args kw :
  returns (get_daily_statistics args kw).
Proof.
  apply cache_result_returns. intros a k. unfold get_daily_statistics_func.
  apply bind_returns; [apply self_returns|]. intros c0.
  apply bind_returns.
  - destruct (_ && _); [|apply ret_returns].
    apply bind_returns; intros; apply modify_returns.
  - intros _. apply bind_returns; [apply self_returns|]. intros c1.
    destruct (if truthy _ then None else _) as [s|]; [apply ret_returns|].
    apply (try_default_returns _
             (fun _ => RStats (zero_stats (Some (today (env c0))) (Some [])))).
Qed.

(** [looks_unpaid] can only fail on a record without an ["id"]. *)
Lemma efilter_looks_unpaid_error (l : list dict) (e : exn) :
  efilter looks_unpaid l = inl e -> e <> BackendError.
Proof.
  induction l as [|t l IH]; [discriminate|].
  simpl. unfold ebind at 1.
  destruct (looks_unpaid t) as [e0|b] eqn:Ht.
  - intros [= <-]. unfold looks_unpaid, ebind, esubscript in Ht.
    destruct (t !! "id"); [discriminate|]. by injection Ht as <-.
  - unfold ebind. destruct (efilter looks_unpaid l) as [e1|ys]; [|discriminate].
    intros [= <-]. by apply IH.
Qed.

Lemma get_unpaid_transactions_never_backend_error args kw :
  never_backend_error (get_unpaid_transactions args kw).
Proof.
  apply cache_result_never_backend_error. intros a k.
  unfold get_unpaid_transactions_func.
  apply bind_never_backend_error.
  - apply returns_never_backend_error, get_all_transactions_returns.
  - intros r. apply bind_never_backend_error.
    + intros c. destruct r; simpl; discriminate.
    + intros l. apply bind_never_backend_error.
      * intros c. unfold lift.
        destruct (efilter looks_unpaid l) as [e|ys] eqn:He; simpl;
          [|discriminate].
        intros [= ->]. by apply efilter_looks_unpaid_error in He.
      * intros ys c. discriminate.
Qed.

Lemma get_current_rate_never_backend_error args kw :
  never_backend_error (get_current_rate args kw).
Proof.
  apply cache_result_never_backend_error. intros a k.
  unfold get_current_rate_func.
  apply bind_never_backend_error.
  - apply returns_never_backend_error, get_day_settings_returns.
  - intros r c. destruct (negb (result_truthy r)); [discriminate|].
    destruct r as [v|d|l|s]; simpl; try discriminate.
    destruct (negb (truthy _)); [discriminate|].
    unfold bind, lift.
    destruct (number (get d "rate" VNone)) as [e|q] eqn:Hn; simpl.
    + intros [= ->]. unfold number in Hn.
      destruct (get d "rate" VNone); discriminate.
    + destruct (Qleb q 0); discriminate.
Qed.

End ErrorHandling.
(** ** Failing API calls *)

Section Failures.

Import Sheets Spec.

Lemma take_add {A : Type} (l : list A) (n1 n2 : nat) :
  take (n1 + n2) l = take n1 l ++ take n2 (drop n1 l).
Proof.
  revert l. induction n1 as [|n1 IH]; intros [|x l]; simpl; try reflexivity.
  - by destruct n2.
  - by rewrite IH.
Qed.

Lemma ran_refl (c : Client) : ran 0 c c.
Proof. split; [lia|by rewrite drop_0]. Qed.

Lemma ran_trans (n1 n2 : nat) (c1 c2 c3 : Client) :
  ran n1 c1 c2 -> ran n2 c2 c3 -> ran (n1 + n2) c1 c3.
Proof.
  intros [Ha1 Hf1] [Ha2 Hf2]. split; [lia|].
  by rewrite Hf2, Hf1, drop_drop.
Qed.

Lemma ran_calls_made (n : nat) (c c' : Client) :
  ran n c c' -> calls_made c c' = n.
Proof. intros [Ha _]. unfold calls_made. lia. Qed.

(** A step that makes no API call. *)
Lemma fails_still {A : Type} (P : outcome A -> Prop) (m : M A) :
  (forall c, api_calls (remote (m c).2) = api_calls (remote c)
             /\ faults (remote (m c).2) = faults (remote c)) ->
  fails_with P m.
Proof.
  intros H c. exists O. destruct (H c) as [Ha Hf]. split.
  - split; [lia|by rewrite drop_0].
  - left. simpl. apply not_elem_of_nil.
Qed.

Lemma fails_ret {A : Type} (P : outcome A -> Prop) (a : A) :
  fails_with P (ret a).
Proof. by apply fails_still. Qed.

Lemma fails_raise {A : Type} (P : outcome A -> Prop) (e : exn) :
  fails_with P (raise e).
Proof. by apply fails_still. Qed.

Lemma fails_self (P : outcome Client -> Prop) : fails_with P self.
Proof. by apply fails_still. Qed.

Lemma fails_lift {A : Type} (P : outcome A -> Prop) (x : E A) :
  fails_with P (lift x).
Proof. apply fails_still. intros c. by destruct x. Qed.

Lemma fails_item {A : Type} (P : outcome A -> Prop) (l : list A) (i : nat) :
  fails_with P (item l i).
Proof. apply fails_still. intros c. unfold item. by destruct (l !! i). Qed.

Lemma fails_as_list (P : outcome (list dict) -> Prop) (r : result) :
  fails_with P (as_list r).
Proof. apply fails_still. intros c. by destruct r. Qed.

Lemma fails_with_cache_manager (P : outcome unit -> Prop) f :
  fails_with P (with_cache_manager f).
Proof. by apply fails_still. Qed.

(** A change of the client that leaves the fault schedule alone. *)
Lemma fails_modify (P : outcome unit -> Prop) (f : Client -> Client) :
  (forall c, api_calls (remote (f c)) = api_calls (remote c)
             /\ faults (remote (f c)) = faults (remote c)) ->
  fails_with P (modify f).
Proof. intros H. by apply fails_still. Qed.

Lemma fails_modify_aux (P : outcome unit -> Prop) (w : aux_sheet)
    (f : Client -> option (list row)) :
  fails_with P
    (modify (fun c => set_remote (set_aux_rows w (f c) (remote c)) c)).
Proof. apply fails_modify. intros c. by destruct w. Qed.

(** An API call that fails raises the exception of the API. *)
Lemma fails_api (P : outcome unit -> Prop) :
  P (Raise BackendError) -> fails_with P api.
Proof.
  intros HP c. exists 1%nat. unfold ran, api.
  destruct (faults (remote c)) as [|[|] fs] eqn:Hf; simpl; rewrite Hf; simpl.
  - split; [split; [lia|done]|]. left. apply not_elem_of_nil.
  - split; [split; [lia|by rewrite drop_0]|]. by right.
  - split; [split; [lia|by rewrite drop_0]|]. left. rewrite take_0.
    by intros ?%list_elem_of_singleton.
Qed.

Lemma fails_weaken {A : Type} (P Q : outcome A -> Prop) (m : M A) :
  (forall o, P o -> Q o) -> fails_with P m -> fails_with Q m.
Proof.
  intros HPQ Hm c. destruct (Hm c) as (n & Hran & [Hclean|HP]);
    exists n; split; auto.
Qed.

(** Sequencing: what the rest of the method makes of the outcome that the
    first part has when a call of it failed. *)
Lemma fails_bind {A B : Type} (P : outcome A -> Prop) (Q : outcome B -> Prop)
    (m : M A) (k : A -> M B) :
  fails_with P m ->
  (forall a, fails_with Q (k a)) ->
  (forall a c, P (Ret a) -> Q (k a c).1) ->
  (forall e, P (Raise e) -> Q (Raise e)) ->
  fails_with Q (bind m k).
Proof.
  intros Hm Hk Hret Hraise c. unfold bind.
  destruct (Hm c) as (n1 & Hran1 & H1).
  destruct (m c) as [[a|e] c1]; simpl in *.
  - destruct (Hk a c1) as (n2 & Hran2 & H2).
    exists (n1 + n2)%nat. split; [exact (ran_trans _ _ _ _ _ Hran1 Hran2)|].
    destruct H1 as [Hclean1|HP]; [|right; by apply Hret].
    destruct H2 as [Hclean2|HQ]; [|by right].
    left. rewrite take_add. destruct Hran1 as [_ <-].
    intros [?|?]%elem_of_app; auto.
  - exists n1. split; [done|]. destruct H1 as [?|HP]; auto.
Qed.

(** Sequencing inside a body that lets the exception of the API pass. *)
Lemma fails_bind_raising {A B : Type} (m : M A) (k : A -> M B) :
  fails_with (fun o => o = Raise BackendError) m ->
  (forall a, fails_with (fun o => o = Raise BackendError) (k a)) ->
  fails_with (fun o => o = Raise BackendError) (bind m k).
Proof.
  intros Hm Hk. eapply fails_bind; [exact Hm|exact Hk|discriminate|by intros e [= ->]].
Qed.

(** [try: ... except <types>: handler] *)
Lemma fails_try_except {A : Type} (P Q : outcome A -> Prop) (body : M A)
    (handles : exn -> bool) (handler : exn -> M A) :
  fails_with P body ->
  (forall e, fails_with Q (handler e)) ->
  (forall a, P (Ret a) -> Q (Ret a)) ->
  (forall e c, P (Raise e) ->
               if handles e then Q (handler e c).1 else Q (Raise e)) ->
  fails_with Q (try_except body handles handler).
Proof.
  intros Hbody Hhandler Hret Hraise c. unfold try_except.
  destruct (Hbody c) as (n1 & Hran1 & H1).
  destruct (body c) as [[a|e] c1]; simpl in *.
  - exists n1. split; [done|]. destruct H1; auto.
  - specialize (Hraise e c1). destruct (handles e).
    + destruct (Hhandler e c1) as (n2 & Hran2 & H2).
      exists (n1 + n2)%nat. split; [exact (ran_trans _ _ _ _ _ Hran1 Hran2)|].
      destruct H1 as [Hclean1|HP]; [|right; by apply Hraise].
      destruct H2 as [Hclean2|HQ]; [|by right].
      left. rewrite take_add. destruct Hran1 as [_ <-].
      intros [?|?]%elem_of_app; auto.
    + exists n1. split; [done|]. destruct H1; auto.
Qed.

(** [except Exception: return d] around a body that lets the exception of
    the API pass or has answered [d] already. *)
Lemma fails_try_default {A : Type} (body : M A) (d : A) :
  fails_with (fun o => o = Raise BackendError \/ o = Ret d) body ->
  fails_with (fun o => o = Ret d) (try_except body Exception (fun _ => ret d)).
Proof.
  intros Hbody. eapply fails_try_except; [exact Hbody|..].
  - intros e. apply fails_ret.
  - by intros a [?|?].
  - by intros e c _.
Qed.

Lemma fails_try_default_raising {A : Type} (body : M A) (d : A) :
  fails_with (fun o => o = Raise BackendError) body ->
  fails_with (fun o => o = Ret d) (try_except body Exception (fun _ => ret d)).
Proof.
  intros Hbody. apply fails_try_default.
  revert Hbody. apply fails_weaken. auto.
Qed.

(** [except Exception as e: raise] *)
Lemma fails_try_reraise {A : Type} (P : outcome A -> Prop) (body : M A) :
  fails_with P body ->
  fails_with P (try_except body Exception (fun e => raise e)).
Proof.
  intros Hbody. eapply fails_try_except; [exact Hbody|..].
  - intros e. apply fails_raise.
  - auto.
  - by intros e c HP.
Qed.

(** [except WorksheetNotFound] does not catch the exception of the API. *)
Lemma fails_try_not_found {A : Type} (body : M A) (handler : exn -> M A) :
  fails_with (fun o => o = Raise BackendError) body ->
  (forall e, fails_with (fun o => o = Raise BackendError) (handler e)) ->
  fails_with (fun o => o = Raise BackendError)
             (try_except body is_WorksheetNotFound handler).
Proof.
  intros Hbody Hhandler. eapply fails_try_except; [exact Hbody|exact Hhandler|..].
  - discriminate.
  - by intros e c [= ->].
Qed.

(** The decorator hands the outcome of the method on. *)
Lemma fails_cache_result (P : outcome result -> Prop)
    (key_pattern : list piece) (function_name : string)
    (func : list value -> kwargs -> M result) (args : list value)
    (kw : kwargs) :
  (forall a k, fails_with P (func a k)) ->
  fails_with P (cache_result key_pattern function_name func args kw).
Proof.
  intros Hfunc. unfold cache_result.
  eapply (fails_bind (fun _ => False)); [apply fails_self| |done|done].
  intros c0.
  destruct (dummy_mode c0); [apply Hfunc|].
  destruct (_ && _); [apply Hfunc|].
  destruct (Cache.get _ _ _) as [[v|] cm].
  - eapply (fails_bind (fun _ => False)); [by apply fails_modify| |done|done].
    intros _. apply fails_ret.
  - eapply (fails_bind (fun _ => False)); [by apply fails_modify| |done|done].
    intros _.
    eapply (fails_bind P); [apply Hfunc| | |done].
    + intros r. destruct (is_None r); [apply fails_ret|].
      eapply (fails_bind (fun _ => False)); [apply fails_self| |done|done].
      intros c'.
      eapply (fails_bind (fun _ => False));
        [apply fails_with_cache_manager| |done|done].
      intros _. apply fails_ret.
    + intros r c HP. by destruct (is_None r).
Qed.

(** From the walk through a method to the statement about its failures. *)
Lemma fails_on_failure {A : Type} (m : M A) (o : outcome A) :
  fails_with (fun o' => o' = o) m -> on_failure m o.
Proof.
  intros Hm c Hfailed. destruct (Hm c) as (n & Hran & [Hclean|Ho]); [|done].
  unfold a_call_failed in Hfailed.
  rewrite (ran_calls_made _ _ _ Hran) in Hfailed. done.
Qed.

End Failures.
(** One step of the walk through a body that lets the exception of the API
    pass. *)
Ltac fails_step :=
  lazymatch goal with
  | |- Spec.fails_with _ (Sheets.bind _ _) =>
      apply fails_bind_raising; [|intros ?]
  | |- Spec.fails_with _ (Sheets.try_except _ Sheets.is_WorksheetNotFound _) =>
      apply fails_try_not_found; [|intros ?]
  | |- Spec.fails_with _ (Sheets.ret _) => apply fails_ret
  | |- Spec.fails_with _ (Sheets.raise _) => apply fails_raise
  | |- Spec.fails_with _ Sheets.self => apply fails_self
  | |- Spec.fails_with _ (Sheets.lift _) => apply fails_lift
  | |- Spec.fails_with _ (Sheets.item _ _) => apply fails_item
  | |- Spec.fails_with _ (Sheets.as_list _) => apply fails_as_list
  | |- Spec.fails_with _ (Sheets.with_cache_manager _) =>
      apply fails_with_cache_manager
  | |- Spec.fails_with _ Sheets.api => apply fails_api; reflexivity
  | |- Spec.fails_with _ Sheets.open_by_key => apply fails_api; reflexivity
  | |- Spec.fails_with _ (Sheets.modify _) =>
      apply fails_modify; intros ?; split; reflexivity
  | |- Spec.fails_with _ (if ?b then _ else _) => destruct b
  | |- Spec.fails_with _ (match ?x with _ => _ end) => destruct x
  | |- Spec.fails_with _ (let '(_, _) := ?x in _) => destruct x
  end.

Ltac fails_walk :=
  repeat first
    [ fails_step
    | progress unfold Sheets.col_values_1, Sheets.row_values,
        Sheets.get_all_values, Sheets.append_row, Sheets.update_row,
        Sheets.worksheet, Sheets.add_worksheet, Sheets.create_aux,
        Sheets.aux_get_all_values, Sheets.aux_append_row,
        Sheets.aux_update_row ].

Section FailingCalls.

Import Sheets Spec.

Local Abbreviation raising := (fun o => o = Raise BackendError).

Lemma fails_bind_still {A B : Type} (Q : outcome B -> Prop) (m : M A)
    (k : A -> M B) :
  (forall c, api_calls (remote (m c).2) = api_calls (remote c)
             /\ faults (remote (m c).2) = faults (remote c)) ->
  (forall a, fails_with Q (k a)) ->
  fails_with Q (bind m k).
Proof.
  intros Hm Hk.
  eapply (fails_bind (fun _ => False)); [by apply fails_still|exact Hk|done|done].
Qed.

Lemma fails_add_transaction (data : dict) :
  fails_with raising (add_transaction data).
Proof. unfold add_transaction. apply fails_try_reraise. fails_walk. Qed.

Lemma fails_update_transaction (transaction_id : value) (data : dict) :
  fails_with (fun o => o = Ret false) (update_transaction transaction_id data).
Proof.
  unfold update_transaction. apply fails_try_default_raising. fails_walk.
Qed.

Lemma fails_get_transaction args kw :
  fails_with (fun o => o = Ret (RVal VNone)) (get_transaction args kw).
Proof.
  apply fails_cache_result. intros a k. unfold get_transaction_func.
  apply fails_try_default_raising. fails_walk.
Qed.

Lemma fails_get_all_transactions args kw :
  fails_with (fun o => o = Ret (RList [])) (get_all_transactions args kw).
Proof.
  apply fails_cache_result. intros a k. unfold get_all_transactions_func.
  apply fails_bind_still.
  { intros c. by destruct (truthy _). }
  intros _. apply fails_try_default_raising. fails_walk.
Qed.

Lemma fails_get_daily_transactions args kw :
  fails_with (fun o => o = Ret (RList [])) (get_daily_transactions args kw).
Proof.
  apply fails_cache_result. intros a k. unfold get_daily_transactions_func.
  apply fails_bind_still; [done|].
  intros c. apply fails_get_all_transactions.
Qed.

Lemma fails_get_unpaid_transactions args kw :
  fails_with (fun o => o = Ret (RList [])) (get_unpaid_transactions args kw).
Proof.
  apply fails_cache_result. intros a k. unfold get_unpaid_transactions_func.
  eapply fails_bind; [apply fails_get_all_transactions| | |discriminate].
  - intros r. apply fails_still. intros c.
    destruct r; try done. unfold bind, as_list, ret, lift. simpl.
    by destruct (efilter looks_unpaid l).
  - by intros r c [= ->].
Qed.

Lemma fails_mark_transaction_paid (transaction_id transaction_hash : value) :
  fails_with (fun o => o = Ret false)
             (mark_transaction_paid transaction_id transaction_hash).
Proof.
  unfold mark_transaction_paid. apply fails_try_default.
  apply (fails_weaken (fun o => o = Ret false)); [auto|].
  eapply fails_bind; [apply fails_get_transaction| | |discriminate].
  - intros r. destruct (negb (result_truthy r)); [apply fails_ret|].
    eapply fails_bind; [apply fails_update_transaction| | |discriminate].
    + intros b. apply fails_still. intros c. by destruct b.
    + by intros b c [= ->].
  - by intros r c [= ->].
Qed.

Lemma fails_save_day_settings (rate commission_percent chat_id : value) :
  fails_with (fun o => o = Ret false)
             (save_day_settings rate commission_percent chat_id).
Proof.
  unfold save_day_settings. apply fails_try_default_raising. fails_walk.
Qed.

Lemma fails_set_day_status (is_open : bool) (chat_id : value) :
  fails_with (fun o => o = Ret false) (set_day_status is_open chat_id).
Proof.
  unfold set_day_status. apply fails_try_default_raising. fails_walk.
Qed.

Lemma fails_is_day_open args kw :
  fails_with (fun o => o = Ret (RVal (VBool false))) (is_day_open args kw).
Proof.
  apply fails_cache_result. intros a k. unfold is_day_open_func.
  apply fails_try_default_raising. fails_walk.
Qed.

Lemma fails_get_day_settings args kw :
  fails_with (fun o => o = Ret (RVal VNone)) (get_day_settings args kw).
Proof.
  apply fails_cache_result. intros a k. unfold get_day_settings_func.
  apply fails_try_default.
  apply fails_bind_still; [done|]. intros c.
  destruct (dummy_mode c).
  { apply (fails_weaken raising); [auto|]. fails_walk. }
  eapply (fails_bind (fun o => o = Raise BackendError \/ o = Ret false)).
  - eapply fails_try_except.
    + assert (H : fails_with raising (open_by_key ;;; worksheet DaySettings ;;; ret true))
        by fails_walk.
      exact H.
    + intros e. apply (fails_weaken (fun o => o = Ret false)); [auto|].
      apply fails_try_default_raising. fails_walk.
    + discriminate.
    + intros e c1 [= ->]. simpl. by left.
  - intros opened. apply (fails_weaken raising); [auto|].
    destruct (negb opened); fails_walk.
  - intros opened c1 [[=]|[= ->]]. simpl. by right.
  - intros e [[= ->]|[=]]. by left.
Qed.

Lemma fails_get_current_rate args kw :
  fails_with (fun o => o = Ret (RVal VNone)) (get_current_rate args kw).
Proof.
  apply fails_cache_result. intros a k. unfold get_current_rate_func.
  eapply fails_bind; [apply fails_get_day_settings| | |discriminate].
  - intros r. apply fails_still. intros c.
    destruct (negb (result_truthy r)); [done|].
    destruct r; try done.
    destruct (negb (truthy _)); [done|].
    unfold bind, lift. destruct (number _); [done|]. simpl.
    by destruct (Qleb _ _).
  - by intros r c [= ->].
Qed.

End FailingCalls.
Section AddTransactionFailures.

Import Sheets Spec.

Lemma blames_still {A : Type} (m : M A) :
  (forall c, (m c).1 <> Raise BackendError
             /\ api_calls (remote (m c).2) = api_calls (remote c)
             /\ faults (remote (m c).2) = faults (remote c)) ->
  blames_api m.
Proof.
  intros H c. exists O. destruct (H c) as (Ho & Ha & Hf). split.
  - split; [lia|by rewrite drop_0].
  - done.
Qed.

Lemma blames_call : blames_api api.
Proof.
  intros c. exists 1%nat. unfold ran, api.
  destruct (faults (remote c)) as [|[|] fs] eqn:Hf; simpl; rewrite Hf; simpl.
  - split; [split; [lia|done]|discriminate].
  - split; [split; [lia|by rewrite drop_0]|]. intros _. rewrite take_0.
    by apply list_elem_of_singleton.
  - split; [split; [lia|by rewrite drop_0]|discriminate].
Qed.

Lemma blames_bind {A B : Type} (m : M A) (k : A -> M B) :
  blames_api m -> (forall a, blames_api (k a)) -> blames_api (bind m k).
Proof.
  intros Hm Hk c. unfold bind.
  destruct (Hm c) as (n1 & Hran1 & H1).
  destruct (m c) as [[a|e] c1]; simpl in *.
  - destruct (Hk a c1) as (n2 & Hran2 & H2).
    exists (n1 + n2)%nat. split; [exact (ran_trans _ _ _ _ _ Hran1 Hran2)|].
    intros Ho. rewrite take_add. apply elem_of_app. right.
    destruct Hran1 as [_ <-]. auto.
  - exists n1. split; [exact Hran1|]. intros [= ->]. by apply H1.
Qed.

Lemma blames_try_reraise {A : Type} (body : M A) :
  blames_api body -> blames_api (try_except body Exception (fun e => raise e)).
Proof.
  intros Hbody c. unfold try_except.
  destruct (Hbody c) as (n & Hran & H).
  destruct (body c) as [[a|e] c1]; simpl in *; exists n; split; assumption.
Qed.

(** The local steps of [add_transaction] fail with errors of their own. *)
Lemma new_row_error (new_id : Z) (e : Env) (data : dict) :
  new_row new_id e data <> inl BackendError.
Proof.
  unfold new_row, ebind, esubscript.
  by repeat (lazymatch goal with
             | |- context [data !! ?k] => destruct (data !! k)
             end).
Qed.

Lemma new_dummy_transaction_error (new_id : Z) (e : Env) (data : dict) :
  new_dummy_transaction new_id e data <> inl BackendError.
Proof.
  unfold new_dummy_transaction, ebind, esubscript.
  by repeat (lazymatch goal with
             | |- context [data !! ?k] => destruct (data !! k)
             end).
Qed.

Lemma emap_id_number_error (ts : list dict) :
  emap (fun t => id_number (get t "id" (VInt 0))) ts <> inl BackendError.
Proof.
  induction ts as [|t ts IH]; [done|]. simpl. unfold ebind at 1.
  destruct (id_number _) as [e|z] eqn:Hid.
  - unfold id_number in Hid. destruct (get t "id" (VInt 0)); congruence.
  - unfold ebind. destruct (emap _ ts) as [e|zs]; congruence.
Qed.

Lemma blames_lift {A : Type} (x : E A) :
  x <> inl BackendError -> blames_api (lift x).
Proof.
  intros Hx. apply blames_still. intros c. destruct x as [e|a]; simpl; [|done].
  split; [congruence|done].
Qed.

Lemma blames_add_transaction (data : dict) : blames_api (add_transaction data).
Proof.
  unfold add_transaction. apply blames_try_reraise.
  apply blames_bind; [by apply blames_still|]. intros c.
  destruct (dummy_mode c).
  - apply blames_bind.
    { destruct (daily_transactions c) as [|t ts]; [by apply blames_still|].
      apply blames_bind; [apply blames_lift, emap_id_number_error|].
      intros ids. destruct (max_list ids); by apply blames_still. }
    intros new_id.
    apply blames_bind; [apply blames_lift, new_dummy_transaction_error|].
    intros transaction.
    apply blames_bind; [by apply blames_still|]. intros _.
    apply blames_bind; [by apply blames_still|]. intros _.
    by apply blames_still.
  - apply blames_bind.
    { unfold col_values_1. apply blames_bind; [apply blames_call|]. intros _.
      apply blames_bind; by intros; apply blames_still. }
    intros id_col.
    apply blames_bind.
    { destruct (tail id_col); [by apply blames_still|].
      destruct (max_list _); by apply blames_still. }
    intros new_id.
    apply blames_bind; [apply blames_lift, new_row_error|]. intros r.
    apply blames_bind.
    { unfold append_row. apply blames_bind; [apply blames_call|]. intros _.
      by apply blames_still. }
    intros _.
    apply blames_bind; [by apply blames_still|]. intros _.
    by apply blames_still.
Qed.

(** [add_transaction] raises the exception of the API exactly when one of
    its API calls fails. *)
Lemma add_transaction_surfaces (data : dict) : surfaces (add_transaction data).
Proof.
  intros c. split.
  - intros Ho. destruct (blames_add_transaction data c) as (n & Hran & H).
    unfold a_call_failed. rewrite (ran_calls_made _ _ _ Hran). auto.
  - apply (fails_on_failure _ _ (fails_add_transaction data)).
Qed.

(** A call of [add_transaction] that raises has written nothing. *)
Lemma add_transaction_raise_keeps_sheet (data : dict) (c : Client) (e : exn) :
  (add_transaction data c).1 = Raise e ->
  same_sheet c (add_transaction data c).2.
Proof.
  change (wp (add_transaction data)
             (fun o c' => o = Raise e -> same_sheet c c') c).
  unfold add_transaction. apply wp_try_reraise. wp_steps.
  destruct (dummy_mode c).
  - wp_steps. destruct (daily_transactions c) as [|t ts].
    + wp_steps. destruct (new_dummy_transaction _ _ _); simpl; [done|].
      wp_steps. discriminate.
    + wp_steps. destruct (emap _ _); simpl; [done|].
      destruct (max_list _); wp_steps; [|done].
      destruct (new_dummy_transaction _ _ _); simpl; [done|].
      wp_steps. discriminate.
  - unfold col_values_1. wp_steps. apply wp_api; [|done].
    wp_steps.
    lazymatch goal with
    | |- wp (match ?x with _ => _ end) _ _ => destruct x
    end.
    + wp_steps. destruct (new_row _ _ _); simpl; [done|].
      unfold append_row. wp_steps. apply wp_api; [|done].
      wp_steps. discriminate.
    + destruct (max_list _); wp_steps; [|done].
      destruct (new_row _ _ _); simpl; [done|].
      unfold append_row. wp_steps. apply wp_api; [|done].
      wp_steps. discriminate.
Qed.

End AddTransactionFailures.
Section OnlyAddTransactionRaises.

Import Sheets Spec.

Lemma a_call_failed_at (c c' : Client) (k : nat) :
  faults (remote c) !! k = Some true ->
  (k < calls_made c c')%nat ->
  a_call_failed c c'.
Proof.
  intros Hk Hlt. unfold a_call_failed.
  apply (list_elem_of_lookup_2 _ k). by rewrite lookup_take_lt.
Qed.

(** C7: of the operations of the spreadsheet store only [add_transaction]
    lets an exception of the API reach the caller, whichever of the API
    calls of an operation it is that fails. [add_transaction] raises the
    exception of the API exactly when one of its calls fails, and has then
    appended nothing. Every other operation returns a value from every
    state, and when one of its API calls failed it returns its fallback:
    [False] for [update_transaction], [mark_transaction_paid],
    [save_day_settings] and [set_day_status], [None] for [get_transaction],
    [get_day_settings] and [get_current_rate], the empty list for
    [get_all_transactions], [get_daily_transactions] and
    [get_unpaid_transactions], [False] for [is_day_open];
    [get_daily_statistics] and the migration return a value in any case.
    ([get_unpaid_transactions] and [get_current_rate] have no [try] of
    their own: they never raise the exception of the API, but can fail on
    malformed records.) The decorated reads are taken at the calls that
    Python binds to their signature. *)
Theorem only_add_transaction_raises_backend_errors :
  (forall data : dict, surfaces (add_transaction data))
  /\ (forall (data : dict) (c : Client),
        a_call_failed c (add_transaction data c).2 ->
        same_sheet c (add_transaction data c).2)
  /\ (forall transaction_id data,
        swallows (update_transaction transaction_id data) false)
  /\ (forall transaction_id transaction_hash,
        swallows (mark_transaction_paid transaction_id transaction_hash) false)
  /\ (forall rate commission_percent chat_id,
        swallows (save_day_settings rate commission_percent chat_id) false)
  /\ (forall is_open chat_id, swallows (set_day_status is_open chat_id) false)
  /\ (forall args kw,
        binds ["transaction_id"] [] args kw ->
        swallows (get_transaction args kw) (RVal VNone))
  /\ (forall args kw,
        binds [] ["date"; "force_refresh"] args kw ->
        swallows (get_all_transactions args kw) (RList []))
  /\ (forall args kw,
        binds [] ["force_refresh"] args kw ->
        swallows (get_daily_transactions args kw) (RList []))
  /\ (forall args kw,
        binds [] ["force_refresh"] args kw ->
        never_backend_error (get_unpaid_transactions args kw)
        /\ on_failure (get_unpaid_transactions args kw) (Ret (RList [])))
  /\ (forall args kw,
        binds [] ["chat_id"] args kw ->
        swallows (get_day_settings args kw) (RVal VNone))
  /\ (forall args kw,
        binds [] ["chat_id"] args kw ->
        never_backend_error (get_current_rate args kw)
        /\ on_failure (get_current_rate args kw) (Ret (RVal VNone)))
  /\ (forall args kw,
        binds [] ["chat_id"] args kw ->
        swallows (is_day_open args kw) (RVal (VBool false)))
  /\ (forall args kw,
        binds [] ["chat_id"; "force_refresh"] args kw ->
        returns (get_daily_statistics args kw))
  /\ returns migrate_transaction_data.
Proof.
  split; [exact add_transaction_surfaces|].
  split.
  { intros data c Hfailed.
    apply (add_transaction_raise_keeps_sheet data c BackendError).
    by apply add_transaction_surfaces. }
  split.
  { intros transaction_id data. split.
    - apply (try_default_returns _ (fun _ => false)).
    - apply fails_on_failure, fails_update_transaction. }
  split.
  { intros transaction_id transaction_hash. split.
    - apply (try_default_returns _ (fun _ => false)).
    - apply fails_on_failure, fails_mark_transaction_paid. }
  split.
  { intros rate commission_percent chat_id. split.
    - apply (try_default_returns _ (fun _ => false)).
    - apply fails_on_failure, fails_save_day_settings. }
  split.
  { intros is_open chat_id. split.
    - apply (try_default_returns _ (fun _ => false)).
    - apply fails_on_failure, fails_set_day_status. }
  split.
  { intros args kw _. split.
    - apply get_transaction_returns.
    - apply fails_on_failure, fails_get_transaction. }
  split.
  { intros args kw _. split.
    - apply get_all_transactions_returns.
    - apply fails_on_failure, fails_get_all_transactions. }
  split.
  { intros args kw _. split.
    - apply get_daily_transactions_returns.
    - apply fails_on_failure, fails_get_daily_transactions. }
  split.
  { intros args kw _. split.
    - apply get_unpaid_transactions_never_backend_error.
    - apply fails_on_failure, fails_get_unpaid_transactions. }
  split.
  { intros args kw _. split.
    - apply get_day_settings_returns.
    - apply fails_on_failure, fails_get_day_settings. }
  split.
  { intros args kw _. split.
    - apply get_current_rate_never_backend_error.
    - apply fails_on_failure, fails_get_current_rate. }
  split.
  { intros args kw _. split.
    - apply is_day_open_returns.
    - apply fails_on_failure, fails_is_day_open. }
  split.
  { intros args kw _. apply get_daily_statistics_returns. }
  apply (try_default_returns _ (fun _ => O)).
Qed.

End OnlyAddTransactionRaises.
Section OnlyAddTransactionRaisesWitness.

Import Sheets Spec Fixtures.

Lemma only_add_transaction_raises_backend_errors_witness :
  ((add_transaction data_with_hash (failing_after 1)).1 = Raise BackendError
   /\ sheet (remote (add_transaction data_with_hash (failing_after 1)).2)
      = headers :: three_rows)
  /\ (update_transaction (VInt 2) data_with_hash (failing_after 2)).1
     = Ret false
  /\ (get_transaction [VInt 2] [] (failing_after 1)).1 = Ret (RVal VNone)
  /\ (get_all_transactions [] [("force_refresh", VBool true)]
        (failing_after 0)).1 = Ret (RList []).
Proof.
  destruct only_add_transaction_raises_backend_errors
    as (Hadd & Hsheet & Hupdate & _ & _ & _ & Hget & Hall & _).
  assert (Hfailed_add :
    a_call_failed (failing_after 1)
                  (add_transaction data_with_hash (failing_after 1)).2).
  { apply (a_call_failed_at _ _ 1); [reflexivity|vm_compute; lia]. }
  assert (Hfailed_update :
    a_call_failed (failing_after 2)
                  (update_transaction (VInt 2) data_with_hash
                                      (failing_after 2)).2).
  { apply (a_call_failed_at _ _ 2); [reflexivity|vm_compute; lia]. }
  assert (Hfailed_get :
    a_call_failed (failing_after 1)
                  (get_transaction [VInt 2] [] (failing_after 1)).2).
  { apply (a_call_failed_at _ _ 1); [reflexivity|vm_compute; lia]. }
  assert (Hfailed_all :
    a_call_failed (failing_after 0)
                  (get_all_transactions [] [("force_refresh", VBool true)]
                                        (failing_after 0)).2).
  { apply (a_call_failed_at _ _ 0); [reflexivity|vm_compute; lia]. }
  assert (Hbinds_get : binds ["transaction_id"] [] [VInt 2] []).
  { unfold binds. simpl. repeat split; try lia; constructor. }
  assert (Hbinds_all :
    binds [] ["date"; "force_refresh"] [] [("force_refresh", VBool true)]).
  { unfold binds. simpl. split; [lia|].
    split; [apply NoDup_singleton|].
    split; [|constructor].
    constructor; [|constructor].
    apply list_elem_of_further, list_elem_of_here. }
  split; [split|split; [|split]].
  - exact (proj2 (Hadd data_with_hash (failing_after 1)) Hfailed_add).
  - exact (Hsheet data_with_hash (failing_after 1) Hfailed_add).
  - exact (proj2 (Hupdate (VInt 2) data_with_hash) _ Hfailed_update).
  - exact (proj2 (Hget _ _ Hbinds_get) _ Hfailed_get).
  - exact (proj2 (Hall _ _ Hbinds_all) _ Hfailed_all).
Defined.

End OnlyAddTransactionRaisesWitness.

(** ** Marking a transaction paid *)

Section MarkPaid.

Import Sheets Fixtures.

(** C6 (as the code behaves): a transaction whose row ends with the status
    cell is found by [get_transaction], which reads the missing group cell
    as empty, but [update_transaction] reads [row_data[7]] unguarded, so
    [mark_transaction_paid] answers [False] on the first call and on the
    second, and the row keeps its not-paid status. *)
Theorem mark_transaction_paid_short_row :
  let found := (get_transaction [VInt 1] [] short_client).1 in
  let out1 := mark_transaction_paid (VInt 1) (VStr "H") short_client in
  let out2 := mark_transaction_paid (VInt 1) (VStr "H") out1.2 in
  match found with
  | Ret (RDict t) => t !! "id" = Some (VInt 1) /\ t !! "group" = Some (VStr "")
  | _ => False
  end
  /\ updated_row short_row
       (<["status" := VStr STATUS_PAID]> (<["hash" := VStr "H"]> ∅))
     = inl IndexError
  /\ out1.1 = Ret false
  /\ out2.1 = Ret false
  /\ sheet (remote out2.2) = sheet (remote short_client)
  /\ sheet (remote short_client) !! 1%nat = Some short_row
  /\ short_row !! 6%nat = Some STATUS_UNPAID.
Proof. vm_compute. repeat split; reflexivity. Qed.

(** On a complete row the two calls succeed and the second changes nothing:
    the three transactions of the example, transaction 2 paid twice. *)
Example mark_transaction_paid_twice :
  let out1 := mark_transaction_paid (VInt 2) (VStr "H") three_client in
  let out2 := mark_transaction_paid (VInt 2) (VStr "H") out1.2 in
  out1.1 = Ret true /\ out2.1 = Ret true
  /\ sheet (remote out2.2) = sheet (remote out1.2)
  /\ sheet (remote out1.2) !! 2%nat
     = Some ["2"; "03.11.2026 10:01:00"; "2000"; "USDT"; "10"; "100";
             "Выплачено"; "-5"; "H"; "-5"].
Proof. vm_compute. repeat split; reflexivity. Qed.

(** The relational store and the dummy mode mark twice without complaint. *)
Example database_mark_transaction_paid_twice :
  let out1 := Database.mark_transaction_paid 2 (VStr "H") three_db in
  let out2 := Database.mark_transaction_paid 2 (VStr "H") out1.2 in
  out1.1 = true /\ out2.1 = true
  /\ Database.transactions out2.2 = Database.transactions out1.2
  /\ (Database.status <$> Database.query_get 2 (Database.transactions out2.2))
     = Some "Выплачено"
  /\ (Database.transaction_hash
        <$> Database.query_get 2 (Database.transactions out2.2))
     = Some (Some "H").
Proof. vm_compute. repeat split; reflexivity. Qed.

Example dummy_mark_transaction_paid_twice :
  let out1 := mark_transaction_paid (VInt 1) (VStr "H") dummy_client in
  let out2 := mark_transaction_paid (VInt 1) (VStr "H") out1.2 in
  out1.1 = Ret true /\ out2.1 = Ret true
  /\ (fun t : dict => (t !! "id", t !! "status", t !! "hash"))
       <$> daily_transactions out1.2
     = [(Some (VInt 1), Some (VStr "Выплачено"), Some (VStr "H"))]
  /\ (fun t : dict => (t !! "id", t !! "status", t !! "hash"))
       <$> daily_transactions out2.2
     = [(Some (VInt 1), Some (VStr "Выплачено"), Some (VStr "H"))].
Proof. vm_compute. repeat split; reflexivity. Qed.

End MarkPaid.

(** ** The legacy migration *)

Section Migration.

Import Sheets Fixtures.

(** A transaction that already bears a structured chat identifier is
    skipped by the loop. *)
Lemma migration_skips_structured (tx : dict) (chat : string) :
  tx !! "chat_id" = Some (VStr chat) ->
  startswith chat "-" = true ->
  migration_target tx = inr None.
Proof.
  intros Hchat Hminus. unfold migration_target, get. rewrite Hchat.
  destruct chat as [|a chat]; [discriminate|].
  unfold str_receiver, ebind, default. cbv beta iota delta [id].
  change (truthy (VStr (String a chat))) with true. cbv beta iota.
  by rewrite Hminus.
Qed.

(** [update_transaction] only drops the cache entry of the single
    transaction; the cached list of all transactions stays. *)
Lemma update_keeps_cached_list :
  let out1 := migrate_transaction_data legacy_client in
  match Cache.cache (cache_manager out1.2)
          !! "get_all_transactions:force_refresh=True" with
  | Some (stamp, RList l) =>
      stamp = 1000%Q
      /\ (fun t : dict => t !! "chat_id") <$> l = [Some (VStr "")]
  | _ => False
  end
  /\ (fun r : row => r !! 9%nat) <$> tail (sheet (remote out1.2))
     = [Some "-4608567148"].
Proof. vm_compute. repeat split; reflexivity. Qed.

(** C9 (as the code behaves): run a second time at once, the migration
    reads the list of transactions that the first run left in the cache,
    finds the transaction still without a chat identifier there and updates
    it again: the second run reports one update and makes three API calls,
    where the specification has it perform none. *)
Theorem migration_second_run_repeats :
  let out1 := migrate_transaction_data legacy_client in
  let out2 := migrate_transaction_data out1.2 in
  out1.1 = Ret 1%nat
  /\ out2.1 = Ret 1%nat
  /\ api_calls (remote out2.2) = (api_calls (remote out1.2) + 3)%nat
  /\ Cache.hits (cache_manager out2.2) = 1%nat.
Proof. vm_compute. repeat split; reflexivity. Qed.

(** Once the cached list has expired the second run does find the
    transaction migrated and performs no update. *)
Example migration_after_expiry :
  let out1 := migrate_transaction_data legacy_client in
  let out2 := migrate_transaction_data (set_now 1011%Q out1.2) in
  out1.1 = Ret 1%nat /\ out2.1 = Ret O
  /\ sheet (remote out2.2) = sheet (remote out1.2).
Proof. vm_compute. repeat split; reflexivity. Qed.

(** With ID cells that are not the decimal text of their number, a second
    run changes a field even after the cache has expired: the update for
    the row "07" lands on the row "7", which the first run had migrated to
    another chat. *)
Example migration_odd_ids :
  let out1 := migrate_transaction_data odd_id_client in
  let out2 := migrate_transaction_data (set_now 1011%Q out1.2) in
  out1.1 = Ret 2%nat /\ out2.1 = Ret 1%nat
  /\ (fun r : row => r !! 9%nat) <$> tail (sheet (remote out1.2))
     = [Some ""; Some "-4605781130"]
  /\ (fun r : row => r !! 9%nat) <$> tail (sheet (remote out2.2))
     = [Some ""; Some "-4608567148"].
Proof. vm_compute. repeat split; reflexivity. Qed.

End Migration.

(** ** Marking paid twice, in general *)

Section MarkPaidAgain.

Import Sheets Spec.

(** The cache key of [get_transaction(transaction_id)]. *)
Lemma get_transaction_key (transaction_id : value) :
  cache_key [Lit "get_transaction:"; Field 0] "get_transaction"
            [transaction_id] []
  = "get_transaction:" +:+ str transaction_id.
Proof.
  unfold cache_key. simpl.
  change (format _ _) with (inr (B := string) (A := exn)
            ("get_transaction:" +:+ str transaction_id +:+ "")).
  by rewrite append_empty_r.
Qed.

Lemma nth_lookup_default (r : row) (j : nat) :
  (j < length r)%nat -> r !! j = Some (nth j r "").
Proof.
  intros Hj. destruct (lookup_lt_is_Some_2 r j Hj) as [x Hx].
  rewrite Hx. f_equal. symmetry. by apply nth_lookup_Some.
Qed.

(** The body of [get_transaction] finds a complete row on a healthy
    backend and leaves the remote data alone. *)
Lemma get_transaction_func_found (transaction_id : value) (i : nat)
    (old : row) (c : Client) :
  dummy_mode c = false -> healthy c ->
  transaction_at transaction_id i old c ->
  is_Some (int_of_string (str transaction_id)) ->
  wp (get_transaction_func [transaction_id] [])
     (fun o c' =>
        (exists t : dict, o = Ret (RDict t) /\ result_truthy (RDict t) = true)
        /\ c' = after_call (after_call c)) c.
Proof.
  intros Hlive Hhealthy (Hfind & Hold & Hlen) [z Hz].
  unfold get_transaction_func.
  change (param 0 "transaction_id" VNone [transaction_id] [])
    with transaction_id.
  wp_steps. rewrite Hlive. unfold col_values_1. wp_steps.
  apply wp_api_healthy; [exact Hhealthy|].
  wp_steps. simpl sheet. rewrite Hfind.
  unfold row_values. wp_steps.
  apply wp_api_healthy; [by apply after_call_healthy|].
  wp_steps. simpl sheet. rewrite Nat.sub_succ, Nat.sub_0_r.
  rewrite (nth_lookup_Some _ _ [] _ Hold).
  assert (H0 : old !! 0%nat = Some (str transaction_id)).
  { unfold find_row in Hfind.
    destruct (list_find _ _) as [[j x]|] eqn:Hlf; [|discriminate].
    simpl in Hfind. injection Hfind as ->.
    apply list_find_Some in Hlf as (Hlookup & -> & _).
    rewrite list_lookup_fmap, Hold in Hlookup. simpl in Hlookup.
    injection Hlookup as Hnth.
    rewrite nth_lookup_default by lia. by rewrite Hnth. }
  unfold transaction_of_row_data, ebind, eitem. rewrite H0.
  unfold int_. rewrite Hz.
  rewrite !nth_lookup_default by lia.
  wp_steps. split; [|reflexivity].
  eexists. split; [reflexivity|].
  simpl. apply negb_true_iff, bool_decide_eq_false. apply insert_non_empty.
Qed.



(** The decorated [get_transaction] answers with a record, from the cache or
    from the worksheet, and leaves the remote data alone. *)
Lemma get_transaction_found (transaction_id : value) (i : nat) (old : row)
    (c : Client) :
  dummy_mode c = false -> healthy c ->
  transaction_at transaction_id i old c ->
  is_Some (int_of_string (str transaction_id)) ->
  cached_transaction_truthy transaction_id c ->
  wp (get_transaction [transaction_id] [])
     (fun o c' =>
        (exists r : result, o = Ret r /\ result_truthy r = true)
        /\ dummy_mode c' = false /\ healthy c'
        /\ sheet (remote c') = sheet (remote c)) c.
Proof.
  intros Hlive Hhealthy Hat Hint Hcache.
  assert (Hfunc : forall cm : Cache.CacheManager result,
    wp (get_transaction_func [transaction_id] [])
       (fun o c' =>
          (exists t : dict,
             o = Ret (RDict t) /\ result_truthy (RDict t) = true)
          /\ c' = after_call (after_call (set_cache_manager cm c)))
       (set_cache_manager cm c)).
  { intros cm. by apply (get_transaction_func_found transaction_id i old). }
  unfold wp. destruct (DEBUG (env c)) eqn:Hdebug.
  - unfold get_transaction, cache_result, bind, self. simpl.
    rewrite Hlive, Hdebug. simpl.
    pose proof (get_transaction_func_found transaction_id i old c
                  Hlive Hhealthy Hat Hint) as H.
    unfold wp in H. destruct H as [(t & Ho & Ht) Hc].
    rewrite Hc. simpl. repeat split; eauto. unfold healthy. simpl.
    by rewrite Hhealthy.
  - unfold get_transaction. rewrite cache_result_unfold by assumption.
    rewrite get_transaction_key.
    destruct (Cache.get _ _ _) as [[v|] cm] eqn:Hget.
    + destruct (cache_get_Some _ _ v _ (f_equal fst Hget)) as [stamp Hentry].
      simpl. repeat split; eauto.
    + specialize (Hfunc cm). unfold wp in Hfunc.
      destruct Hfunc as [(t & Ho & Ht) Hc].
      destruct (get_transaction_func _ _ _) as [o c']. simpl in Ho, Hc.
      subst o c'. simpl. repeat split; eauto. unfold healthy. simpl.
      by rewrite Hhealthy.
Qed.

(** On a healthy backend [update_transaction] rewrites the row found and
    drops the cached record of the transaction. *)
Lemma update_transaction_healthy (transaction_id : value) (data : dict)
    (i : nat) (old : row) (r : list value) (c : Client) :
  dummy_mode c = false -> healthy c ->
  transaction_at transaction_id i old c ->
  updated_row old data = inr r ->
  wp (update_transaction transaction_id data)
     (fun o c' =>
        o = Ret true
        /\ dummy_mode c' = false /\ healthy c'
        /\ sheet (remote c')
           = <[i := overwrite (map cell_text r) old]> (sheet (remote c))
        /\ cache_manager c'
           = Cache.invalidate_transaction_cache transaction_id
               (cache_manager c)) c.
Proof.
  intros Hlive Hhealthy (Hfind & Hold & Hlen) Hrow.
  unfold update_transaction. apply wp_try_default.
  wp_steps. rewrite Hlive. unfold col_values_1. wp_steps.
  apply wp_api_healthy; [exact Hhealthy|].
  wp_steps. simpl sheet. rewrite Hfind.
  unfold row_values. wp_steps.
  apply wp_api_healthy; [by apply after_call_healthy|].
  wp_steps. simpl sheet. rewrite Nat.sub_succ, Nat.sub_0_r.
  rewrite (nth_lookup_Some _ _ [] _ Hold), Hrow.
  unfold update_row. wp_steps.
  apply wp_api_healthy; [by do 2 apply after_call_healthy|].
  wp_steps. simpl. rewrite Nat.sub_0_r, (nth_lookup_Some _ _ [] _ Hold).
  repeat split; try done. unfold healthy. simpl. by rewrite Hhealthy.
Qed.

(** The list that [update_transaction] writes when a complete row is marked
    paid. *)
Lemma updated_row_paid (transaction_hash : value) (old : row) :
  (8 <= length old)%nat ->
  exists r : list value,
    updated_row old (paid_data transaction_hash) = inr r
    /\ overwrite (map cell_text r) old = paid_row transaction_hash old.
Proof.
  intros Hlen. unfold updated_row, ebind, eitem.
  rewrite !nth_lookup_default by lia.
  unfold paid_row, cell.
  destruct (9 <? length old)%nat eqn:H9.
  - apply Nat.ltb_lt in H9. rewrite nth_lookup_default by lia.
    eexists. split; [reflexivity|]. reflexivity.
  - eexists. split; [reflexivity|]. reflexivity.
Qed.



(** An identifier whose text reads as an int is not [None]. *)
Lemma int_text_not_None (transaction_id : value) (cm : Cache.CacheManager result) :
  is_Some (int_of_string (str transaction_id)) ->
  Cache.invalidate_transaction_cache transaction_id cm
  = Cache.invalidate (Some ("get_transaction:" +:+ str transaction_id)) cm.
Proof.
  intros [z Hz]. destruct transaction_id; try reflexivity.
  vm_compute in Hz. discriminate.
Qed.

Lemma invalidate_lookup {V : Type} (k : string) (cm : Cache.CacheManager V) :
  Cache.cache (Cache.invalidate (Some k) cm) !! k = None.
Proof.
  unfold Cache.invalidate.
  destruct (Cache.cache cm !! k) eqn:Hk; simpl; [apply lookup_delete_eq|done].
Qed.

Lemma invalidate_pattern_lookup_None {V : Type} (pattern k : string)
    (cm : Cache.CacheManager V) :
  Cache.cache cm !! k = None ->
  Cache.cache (Cache.invalidate_pattern pattern cm) !! k = None.
Proof.
  intros Hk. unfold Cache.invalidate_pattern. simpl.
  apply map_lookup_filter_None. by left.
Qed.

(** One call of [mark_transaction_paid] on a complete row and a healthy
    backend. *)
Lemma mark_transaction_paid_live (transaction_id transaction_hash : value)
    (i : nat) (old : row) (c : Client) :
  dummy_mode c = false -> healthy c ->
  transaction_at transaction_id i old c ->
  is_Some (int_of_string (str transaction_id)) ->
  cached_transaction_truthy transaction_id c ->
  wp (mark_transaction_paid transaction_id transaction_hash)
     (fun o c' =>
        o = Ret true
        /\ dummy_mode c' = false /\ healthy c'
        /\ sheet (remote c')
           = <[i := paid_row transaction_hash old]> (sheet (remote c))
        /\ Cache.cache (cache_manager c')
             !! ("get_transaction:" +:+ str transaction_id) = None) c.
Proof.
  intros Hlive Hhealthy Hat Hint Hcache.
  unfold mark_transaction_paid. apply wp_try_default.
  eapply wp_bind_post;
    [by apply (get_transaction_found transaction_id i old)|].
  intros o c1 ((r & -> & Htruthy) & Hlive1 & Hhealthy1 & Hsheet1).
  rewrite Htruthy. simpl negb. cbv iota.
  destruct (updated_row_paid transaction_hash old) as (cells & Hcells & Hpaid);
    [apply Hat|].
  eapply wp_bind_post.
  { apply (update_transaction_healthy transaction_id _ i old cells c1);
      try assumption.
    destruct Hat as (Hfind & Hold & Hlen). unfold transaction_at.
    by rewrite Hsheet1. }
  intros o c2 (-> & Hlive2 & Hhealthy2 & Hsheet2 & Hcm2).
  wp_steps. simpl.
  repeat split; try done.
  - by rewrite Hsheet2, Hpaid, Hsheet1.
  - apply invalidate_pattern_lookup_None. rewrite Hcm2.
    rewrite int_text_not_None by exact Hint. apply invalidate_lookup.
Qed.

(** Marking again finds the same row, already paid. *)
Lemma paid_row_again (transaction_hash : value) (old : row) :
  paid_row transaction_hash (paid_row transaction_hash old)
  = paid_row transaction_hash old.
Proof. reflexivity. Qed.

Lemma transaction_at_paid (transaction_id transaction_hash : value) (i : nat)
    (old : row) (c c' : Client) :
  transaction_at transaction_id i old c ->
  sheet (remote c') = <[i := paid_row transaction_hash old]> (sheet (remote c)) ->
  transaction_at transaction_id i (paid_row transaction_hash old) c'.
Proof.
  intros (Hfind & Hold & Hlen) Hsheet. unfold transaction_at.
  rewrite Hsheet. repeat split.
  - rewrite list_fmap_insert.
    change (nth 0 (paid_row transaction_hash old) "") with (nth 0 old "").
    rewrite list_insert_id; [exact Hfind|].
    by rewrite list_lookup_fmap, Hold.
  - apply list_lookup_insert_eq. by eapply lookup_lt_Some.
  - unfold paid_row, overwrite. rewrite length_app. simpl. lia.
Qed.

(** On every complete row of a healthy spreadsheet, marking a transaction
    paid twice succeeds twice, and the second call leaves the worksheet as
    the first one left it: status paid, hash as given. *)
Theorem mark_transaction_paid_twice_live
    (transaction_id transaction_hash : value) (i : nat) (old : row)
    (c : Client) :
  dummy_mode c = false -> healthy c ->
  transaction_at transaction_id i old c ->
  is_Some (int_of_string (str transaction_id)) ->
  cached_transaction_truthy transaction_id c ->
  let out1 := mark_transaction_paid transaction_id transaction_hash c in
  let out2 := mark_transaction_paid transaction_id transaction_hash out1.2 in
  out1.1 = Ret true /\ out2.1 = Ret true
  /\ sheet (remote out2.2) = sheet (remote out1.2)
  /\ sheet (remote out1.2) !! i = Some (paid_row transaction_hash old)
  /\ paid_row transaction_hash old !! 6%nat = Some STATUS_PAID
  /\ paid_row transaction_hash old !! 8%nat = Some (cell_text transaction_hash).
Proof.
  intros Hlive Hhealthy Hat Hint Hcache out1 out2.
  pose proof (mark_transaction_paid_live transaction_id transaction_hash
                i old c Hlive Hhealthy Hat Hint Hcache) as H1.
  unfold wp in H1. fold out1 in H1.
  destruct H1 as (Hr1 & Hlive1 & Hhealthy1 & Hsheet1 & Hkey1).
  pose proof (transaction_at_paid _ transaction_hash _ _ _ _ Hat Hsheet1)
    as Hat1.
  assert (Hcache1 : cached_transaction_truthy transaction_id out1.2).
  { intros stamp v Hentry. rewrite Hkey1 in Hentry. discriminate. }
  pose proof (mark_transaction_paid_live transaction_id transaction_hash
                i _ out1.2 Hlive1 Hhealthy1 Hat1 Hint Hcache1) as H2.
  unfold wp in H2. fold out2 in H2.
  destruct H2 as (Hr2 & _ & _ & Hsheet2 & _).
  repeat split; try done.
  - rewrite Hsheet2, paid_row_again.
    apply list_insert_id. apply Hat1.
  - apply Hat1.
Qed.

Lemma mark_transaction_paid_twice_live_witness :
  let out1 := mark_transaction_paid (VInt 2) (VStr "H") Fixtures.three_client in
  let out2 := mark_transaction_paid (VInt 2) (VStr "H") out1.2 in
  out1.1 = Ret true /\ out2.1 = Ret true
  /\ sheet (remote out2.2) = sheet (remote out1.2).
Proof.
  intros out1 out2.
  destruct (mark_transaction_paid_twice_live (VInt 2) (VStr "H") 2
              ["2"; "03.11.2026 10:01:00"; "2000"; "USDT"; "10"; "100";
               "Не выплачено"; "-5"; ""; "-5"]
              Fixtures.three_client eq_refl eq_refl)
    as (H1 & H2 & H3 & _).
  - split; [vm_compute; reflexivity|split; [reflexivity|simpl; lia]].
  - exists 2. vm_compute. reflexivity.
  - intros stamp v [=].
  - auto.
Defined.

End MarkPaidAgain.

(** ** The day of a chat stays closed until it is opened *)

Section DayTrace.

Import Sheets Spec.

Variable chat_id : Z.

Local Abbreviation kept := (Spec.kept chat_id).

Lemma kept_refl (c : Client) : no_status_row chat_id c -> kept c c.
Proof. by intros H. Qed.

Lemma kept_after_call (c0 c : Client) : kept c0 c -> kept c0 (after_call c).
Proof. intros (Hcm & Hmode & Hrows). by repeat split. Qed.

Lemma kept_created (c0 c : Client) :
  kept c0 c ->
  kept c0 (set_remote
             (set_aux_rows DayStatus
                (Some [map cell_text (aux_header DayStatus)]) (remote c)) c).
Proof.
  intros (Hcm & Hmode & Hrows). repeat split; try done.
  intros rows [= <-] r Hr. simpl in Hr. set_solver.
Qed.

(** Creating the missing "DayStatus" worksheet. *)
Lemma create_aux_kept (c0 c : Client) (Q : outcome unit -> Client -> Prop) :
  kept c0 c ->
  aux_rows DayStatus (remote c) = None ->
  (forall o c', kept c0 c' -> Q o c') ->
  wp (create_aux DayStatus) Q c.
Proof.
  intros Hkept Hnone HQ.
  unfold create_aux, open_by_key, add_worksheet, aux_update_row.
  wp_steps. apply wp_api; [|by apply HQ, kept_after_call].
  wp_steps. apply wp_api; [|by apply HQ; do 2 apply kept_after_call].
  wp_steps. apply wp_api.
  - wp_steps. apply HQ. simpl.
    destruct Hkept as (Hcm & Hmode & Hrows). repeat split; try done.
    intros rows [= <-] r Hr. simpl in Hr. set_solver.
  - apply HQ. destruct Hkept as (Hcm & Hmode & Hrows).
    repeat split; try done.
    intros rows [= <-] r Hr. simpl in Hr. set_solver.
Qed.

(** Opening the "DayStatus" worksheet, creating it when it is missing, as
    [is_day_open] does it. *)
Lemma open_status_kept (on_found on_created : bool) (c0 c : Client)
    (Q : outcome bool -> Client -> Prop) :
  kept c0 c ->
  (forall o c', kept c0 c' -> Q o c') ->
  wp (try_except (open_by_key ;;; worksheet DayStatus ;;; ret on_found)
                 is_WorksheetNotFound
                 (fun _ => create_aux DayStatus ;;; ret on_created)) Q c.
Proof.
  intros Hkept HQ.
  apply wp_try_except. unfold open_by_key, worksheet.
  wp_steps. apply wp_api; [|by apply HQ, kept_after_call].
  wp_steps. apply wp_api; [|by apply HQ; do 2 apply kept_after_call].
  wp_steps.
  destruct (aux_rows DayStatus (remote (after_call (after_call c))))
    eqn:Hrows.
  - wp_steps. apply HQ. by do 2 apply kept_after_call.
  - wp_steps. simpl. wp_step.
    apply (create_aux_kept c0); [by do 2 apply kept_after_call|exact Hrows|].
    intros [[]|e] c' Hc'; [wp_steps|]; by apply HQ.
Qed.

(** The same, as [set_day_status] does it. *)
Lemma open_status_kept_unit (c0 c : Client)
    (Q : outcome unit -> Client -> Prop) :
  kept c0 c ->
  (forall o c', kept c0 c' -> Q o c') ->
  wp (try_except (open_by_key ;;; worksheet DayStatus)
                 is_WorksheetNotFound
                 (fun _ => create_aux DayStatus)) Q c.
Proof.
  intros Hkept HQ.
  apply wp_try_except. unfold open_by_key, worksheet.
  wp_steps. apply wp_api; [|by apply HQ, kept_after_call].
  wp_steps. apply wp_api; [|by apply HQ; do 2 apply kept_after_call].
  wp_steps.
  destruct (aux_rows DayStatus (remote (after_call (after_call c))))
    eqn:Hrows.
  - wp_steps. apply HQ. by do 2 apply kept_after_call.
  - wp_steps. simpl.
    apply (create_aux_kept c0); [by do 2 apply kept_after_call|exact Hrows|].
    exact HQ.
Qed.

(** The body of [is_day_open] for any chat: it keeps the cache manager and
    the absence of rows, returns a boolean, and returns [False] for the chat
    without rows. *)
Lemma is_day_open_func_kept (other : Z) (kw : kwargs) (c0 c : Client) :
  dummy_mode c = false ->
  kept c0 c ->
  wp (is_day_open_func [VInt other] kw)
     (fun o c' =>
        kept c0 c'
        /\ exists b : bool,
             o = Ret (RVal (VBool b)) /\ (other = chat_id -> b = false)) c.
Proof.
  intros Hlive Hkept. unfold is_day_open_func.
  change (param 0 "chat_id" VNone [VInt other] kw) with (VInt other).
  apply wp_try_default.
  set (Q := fun (o : outcome result) (c' : Client) => match o with
                                                      | Ret a => _
                                                      | Raise _ => _
                                                      end).
  assert (Hraise : forall e c', kept c0 c' -> Q (Raise e) c').
  { intros e c' Hc'. split; [exact Hc'|]. by exists false. }
  assert (Hret : forall (b : bool) c',
            kept c0 c' -> (other = chat_id -> b = false) ->
            Q (Ret (RVal (VBool b))) c').
  { intros b c' Hc' Hb. split; [exact Hc'|]. by exists b. }
  wp_steps. rewrite Hlive.
  wp_step. apply (open_status_kept true false c0); [exact Hkept|].
  intros [[|]|e] c1 Hc1; simpl.
  - unfold aux_get_all_values. wp_steps.
    apply wp_api; [|by apply Hraise, kept_after_call].
    wp_steps.
    destruct (length _ <=? 1)%nat;
      [wp_steps; by apply Hret; [apply kept_after_call|]|].
    destruct (chat_day_open _ _ _) as [e|b] eqn:Hopen;
      [wp_steps; by apply Hraise, kept_after_call|].
    wp_steps. apply Hret; [by apply kept_after_call|].
    intros ->. rewrite chat_day_open_no_rows in Hopen; [congruence|].
    intros r Hr. unfold aux_current in Hr. simpl in Hr.
    destruct Hc1 as (_ & _ & Hrows).
    destruct (ws_DayStatus (remote c1)) as [rows|] eqn:Hws;
      [|simpl in Hr; set_solver].
    by apply (Hrows rows).
  - wp_steps. by apply Hret.
  - by apply Hraise.
Qed.

(** Different chats have different cache keys. *)
Lemma is_day_open_key_inj (a b : Z) :
  "is_day_open:" +:+ pretty a = "is_day_open:" +:+ pretty b -> a = b.
Proof.
  intros H. apply (inj (String.append "is_day_open:")) in H.
  by apply (inj pretty) in H.
Qed.

(** A lookup in the cache never adds an entry. *)
Lemma cache_get_subset {V : Type} (k k' : string) (t : Q)
    (cm : Cache.CacheManager V) (e : Q * V) :
  Cache.cache (Cache.get k t cm).2 !! k' = Some e ->
  Cache.cache cm !! k' = Some e.
Proof.
  unfold Cache.get.
  destruct (Cache.cache cm !! k) as [[stamp v]|] eqn:Hk; [|done].
  destruct (Qlt_le_dec _ _); [done|]. simpl.
  intros H. apply lookup_delete_Some in H. apply H.
Qed.

Lemma cache_invalidate_subset {V : Type} (k : option string) (k' : string)
    (cm : Cache.CacheManager V) (e : Q * V) :
  Cache.cache (Cache.invalidate k cm) !! k' = Some e ->
  Cache.cache cm !! k' = Some e.
Proof.
  unfold Cache.invalidate. destruct k as [k|]; [|simpl; by rewrite lookup_empty].
  destruct (Cache.cache cm !! k) eqn:Hk; [|done]. simpl.
  intros H. apply lookup_delete_Some in H. apply H.
Qed.

(** Querying the day status of any chat keeps the chat's day closed. *)
Lemma is_day_open_never_opened (other : Z) (c : Client) :
  never_opened chat_id c ->
  never_opened chat_id (is_day_open [VInt other] [] c).2.
Proof.
  intros (Hlive & Hrows & Hcache).
  assert (Hfunc : forall cm : Cache.CacheManager result,
    wp (is_day_open_func [VInt other] [])
       (fun o c' =>
          kept (set_cache_manager cm c) c'
          /\ exists b : bool,
               o = Ret (RVal (VBool b)) /\ (other = chat_id -> b = false))
       (set_cache_manager cm c)).
  { intros cm. by apply is_day_open_func_kept. }
  destruct (DEBUG (env c)) eqn:Hdebug.
  - unfold is_day_open, cache_result, bind, self. simpl.
    rewrite Hlive, Hdebug. simpl.
    pose proof (is_day_open_func_kept other [] c c Hlive (kept_refl c Hrows))
      as ((Hcm & Hmode & Hrows') & _).
    repeat split; [congruence|exact Hrows'|].
    intros stamp v. rewrite Hcm. apply Hcache.
  - unfold is_day_open. rewrite cache_result_unfold by assumption.
    rewrite is_day_open_key.
    destruct (Cache.get _ _ _) as [[v|] cm] eqn:Hget.
    + simpl. repeat split; try done.
      intros stamp v0 Hentry. apply (Hcache stamp).
      apply (cache_get_subset ("is_day_open:" +:+ pretty other) _
               (now (env c))).
      by rewrite Hget.
    + specialize (Hfunc cm). unfold wp in Hfunc.
      destruct Hfunc as ((Hcm & Hmode & Hrows') & b & Ho & Hb).
      destruct (is_day_open_func _ _ _) as [o c']. simpl in *. subst o.
      simpl. split; [simpl; congruence|split; [exact Hrows'|]].
      intros stamp v. simpl. rewrite Hcm.
      destruct (decide (other = chat_id)) as [->|Hne].
      * rewrite lookup_insert_eq. intros [= _ <-]. by rewrite Hb.
      * rewrite lookup_insert_ne
          by (intros Heq; by apply is_day_open_key_inj in Heq).
        intros Hentry. apply (Hcache stamp).
        apply (cache_get_subset ("is_day_open:" +:+ pretty other) _
                 (now (env c))).
        by rewrite Hget.
Qed.

Lemma kept_never_opened (c0 c : Client) :
  never_opened chat_id c0 -> kept c0 c -> never_opened chat_id c.
Proof.
  intros (Hlive & _ & Hcache) (Hcm & Hmode & Hrows).
  split; [congruence|split; [exact Hrows|]].
  intros stamp v. rewrite Hcm. apply Hcache.
Qed.

(** A status row appended for another chat is not a row of the chat. *)
Lemma kept_appended (other : Z) (date status time : string) (c0 c : Client) :
  other <> chat_id ->
  kept c0 c ->
  kept c0 (set_remote
             (set_aux_rows DayStatus
                (Some (aux_current DayStatus c
                       ++ [map cell_text [VStr date; VStr status; VStr time;
                                          VStr (pretty other)]]))
                (remote c)) c).
Proof.
  intros Hne (Hcm & Hmode & Hrows). split; [done|split; [done|]].
  intros rows [= <-] r Hr. unfold aux_current in Hr. simpl in Hr.
  assert (Hnew : row_is_for (pretty chat_id)
                   [date; status; time; pretty other] = false).
  { unfold row_is_for. simpl. apply String.eqb_neq.
    intros Heq. by apply (inj pretty) in Heq. }
  destruct (ws_DayStatus (remote c)) as [[|header rows]|] eqn:Hws;
    simpl in Hr.
  - set_solver.
  - apply elem_of_app in Hr as [Hr|Hr].
    + by apply (Hrows (header :: rows)).
    + apply list_elem_of_singleton in Hr. by subst r.
  - set_solver.
Qed.

(** Recording the day status of another chat keeps the chat's day closed. *)
Lemma set_day_status_never_opened (is_open : bool) (other : Z) (c : Client) :
  other <> chat_id ->
  never_opened chat_id c ->
  never_opened chat_id (set_day_status is_open (VInt other) c).2.
Proof.
  intros Hne Hnever.
  assert (Hlive : dummy_mode c = false) by apply Hnever.
  assert (Hkept : kept c c) by apply kept_refl, Hnever.
  change (wp (set_day_status is_open (VInt other))
             (fun _ c' => never_opened chat_id c') c).
  unfold set_day_status. apply wp_try_default.
  assert (Hdone : forall c', kept c c' -> never_opened chat_id c')
    by (intros c'; by apply kept_never_opened).
  wp_steps. rewrite Hlive.
  wp_step. apply (open_status_kept_unit c); [exact Hkept|].
  intros [[]|e] c1 Hc1; [|by apply Hdone].
  unfold aux_append_row. wp_steps.
  apply wp_api; [|by apply Hdone, kept_after_call].
  wp_steps.
  change (chat_id_text (VInt other)) with (pretty other).
  match goal with
  | |- never_opened _ (set_cache_manager _ ?c2) =>
      assert (Hc2 : kept c c2)
        by (apply (kept_appended other); [exact Hne|by apply kept_after_call])
  end.
  apply Hdone in Hc2. destruct Hc2 as (Hlive2 & Hrows2 & Hcache2).
  split; [exact Hlive2|split; [exact Hrows2|]].
  intros stamp v Hentry. apply (Hcache2 stamp).
  eapply cache_invalidate_subset. exact Hentry.
Qed.

(** Time passing changes neither the worksheet nor the cached answers. *)
Lemma set_now_never_opened (t : Q) (c : Client) :
  never_opened chat_id c -> never_opened chat_id (set_now t c).
Proof. by intros (Hlive & Hrows & Hcache). Qed.

Lemma day_trace_never_opened (c c' : Client) :
  never_opened chat_id c -> day_trace chat_id c c' -> never_opened chat_id c'.
Proof.
  intros Hnever Htrace.
  induction Htrace as [|c' other _ IH|c' is_open other Hne _ IH|c' t _ IH].
  - exact Hnever.
  - by apply is_day_open_never_opened.
  - by apply set_day_status_never_opened.
  - by apply set_now_never_opened.
Qed.

(** While only other chats have their day status set, the chat's day is
    reported as closed, from any state the client reaches and whichever API
    calls fail on the way. *)
Theorem is_day_open_stays_closed (c c' : Client) :
  never_opened chat_id c ->
  day_trace chat_id c c' ->
  (is_day_open [VInt chat_id] [] c').1 = Ret (RVal (VBool false)).
Proof.
  intros Hnever Htrace.
  destruct (day_trace_never_opened c c' Hnever Htrace)
    as (Hlive & Hrows & Hcache).
  by apply is_day_open_closed.
Qed.

End DayTrace.

(** A client that has just connected to a spreadsheet without any status row
    for chat 5: after chat 7 opens its day and both chats are queried, the
    day of chat 5 is still closed. *)
Example is_day_open_stays_closed_three :
  let c1 := (Sheets.set_day_status true (VInt 7) Fixtures.three_client).2 in
  let c2 := (Sheets.is_day_open [VInt 7] [] c1).2 in
  let c3 := (Sheets.is_day_open [VInt 5] [] c2).2 in
  (Sheets.is_day_open [VInt 7] [] c1).1 = Sheets.Ret (RVal (VBool true))
  /\ (Sheets.is_day_open [VInt 5] [] c3).1 = Sheets.Ret (RVal (VBool false)).
Proof.
  intros c1 c2 c3. split; [by vm_compute|].
  apply (is_day_open_stays_closed 5 Fixtures.three_client).
  - split; [reflexivity|split; [intros rows [=]|intros stamp v [=]]].
  - apply Spec.day_query, Spec.day_query, Spec.day_set; [done|].
    apply Spec.day_start.
Qed.

(** ** Numbers and their decimal texts *)

Section Numerals.

Import Sheets Spec.

Lemma pretty_N_char_digit (m : N) :
  (m < 10)%N ->
  is_ascii_digit (pretty_N_char m) = true
  /\ Z.of_nat (nat_of_ascii (pretty_N_char m) - 48) = Z.of_N m.
Proof.
  intros Hm.
  assert (m = 0 \/ m = 1 \/ m = 2 \/ m = 3 \/ m = 4 \/ m = 5 \/ m = 6
          \/ m = 7 \/ m = 8 \/ m = 9)%N as Hcases by lia.
  repeat (destruct Hcases as [->|Hcases]; [by vm_compute|]).
  subst m. by vm_compute.
Qed.

(** [pretty_N_go x s] writes the digits of [x] in front of [s]. *)
Lemma pretty_N_go_digits (x : N) (s : string) :
  all_digits s = true -> all_digits (pretty_N_go x s) = true.
Proof.
  revert s. induction (N.lt_wf_0 x) as [x _ IH]. intros s Hs.
  destruct (decide (x = 0%N)) as [->|Hx]; [by rewrite pretty_N_go_0|].
  rewrite pretty_N_go_step by lia.
  apply IH; [apply N.div_lt; lia|]. simpl.
  destruct (pretty_N_char_digit (x mod 10)) as [-> _];
    [by apply N.mod_lt|done].
Qed.

Lemma pretty_N_go_parse (x : N) (s : string) :
  parse_digits 0 (pretty_N_go x s) = parse_digits (Z.of_N x) s.
Proof.
  revert s. induction (N.lt_wf_0 x) as [x _ IH]. intros s.
  destruct (decide (x = 0%N)) as [->|Hx]; [by rewrite pretty_N_go_0|].
  rewrite pretty_N_go_step by lia.
  rewrite IH by (apply N.div_lt; lia). simpl.
  destruct (pretty_N_char_digit (x mod 10)) as [_ ->];
    [by apply N.mod_lt|].
  f_equal. rewrite N2Z.inj_div, N2Z.inj_mod. simpl Z.of_N.
  pose proof (Z.div_mod (Z.of_N x) 10). lia.
Qed.

Lemma pretty_N_go_nonempty (x : N) (s : string) :
  s <> "" -> pretty_N_go x s <> "".
Proof.
  revert s. induction (N.lt_wf_0 x) as [x _ IH]. intros s Hs.
  destruct (decide (x = 0%N)) as [->|Hx]; [by rewrite pretty_N_go_0|].
  rewrite pretty_N_go_step by lia.
  apply IH; [apply N.div_lt; lia|done].
Qed.

(** The decimal text of a natural number is a non-empty run of digits that
    reads back as the number. *)
Lemma pretty_N_reads_back (n : N) :
  isdigit (pretty n) = true /\ parse_digits 0 (pretty n) = Z.of_N n.
Proof.
  unfold pretty, pretty_N. destruct (decide (n = 0%N)) as [->|Hn]; [done|].
  split; [|by rewrite pretty_N_go_parse].
  assert (Hne : pretty_N_go n "" <> "").
  { rewrite pretty_N_go_step by lia. by apply pretty_N_go_nonempty. }
  unfold isdigit. destruct (pretty_N_go n "") eqn:Hgo; [done|].
  rewrite <- Hgo. by apply pretty_N_go_digits.
Qed.

Lemma pretty_Z_reads_back (z : Z) :
  0 <= z -> isdigit (pretty z) = true /\ parse_digits 0 (pretty z) = z.
Proof.
  intros Hz. destruct z as [|p|p]; [done| |lia].
  change (pretty (Z.pos p)) with (pretty (N.pos p)).
  apply pretty_N_reads_back.
Qed.

Lemma all_digits_every_char (s : string) :
  all_digits s = every_char is_ascii_digit s.
Proof. induction s as [|c s IH]; [done|]. simpl. by rewrite IH. Qed.

Lemma every_char_weaken (test test' : ascii -> bool) (s : string) :
  (forall c, test c = true -> test' c = true) ->
  every_char test s = true -> every_char test' s = true.
Proof.
  intros Himp. induction s as [|c s IH]; [done|]. simpl.
  intros [Hc Hs]%andb_prop. by rewrite (Himp c Hc), IH.
Qed.

Lemma isdigit_all_digits (s : string) : isdigit s = true -> all_digits s = true.
Proof. by destruct s. Qed.

(** The text of an integer consists of digits and at most a minus sign. *)
Lemma pretty_Z_numeral (z : Z) : every_char numeral_char (pretty z) = true.
Proof.
  assert (Hdigits : forall n : N, every_char numeral_char (pretty n) = true).
  { intros n. apply (every_char_weaken is_ascii_digit).
    - intros c Hc. unfold numeral_char. by rewrite Hc.
    - rewrite <- all_digits_every_char.
      apply isdigit_all_digits, pretty_N_reads_back. }
  destruct z as [|p|p]; [done|apply (Hdigits (N.pos p))|].
  change (pretty (Z.neg p)) with (String "-" (pretty (N.pos p))).
  simpl. apply (Hdigits (N.pos p)).
Qed.

(** *** White space *)

Lemma rev_app_twice (s1 s2 : string) :
  String.rev_app (String.rev_app s1 s2) "" = String.rev_app s2 s1.
Proof.
  revert s2. induction s1 as [|a s1 IH]; intros s2; [done|].
  simpl. by rewrite IH.
Qed.

Lemma rev_app_every_char (test : ascii -> bool) (s1 s2 : string) :
  every_char test s1 = true -> every_char test s2 = true ->
  every_char test (String.rev_app s1 s2) = true.
Proof.
  revert s2. induction s1 as [|a s1 IH]; intros s2; [done|].
  simpl. intros [Ha Hs1]%andb_prop Hs2. apply IH; [done|].
  simpl. by rewrite Ha, Hs2.
Qed.

Lemma lstrip_no_space (s : string) :
  every_char (fun c => negb (is_space c)) s = true -> lstrip s = s.
Proof.
  destruct s as [|c s]; [done|]. simpl.
  intros [Hc _]%andb_prop. by destruct (is_space c).
Qed.

(** [strip] leaves a text without white space as it is. *)
Lemma strip_no_space (s : string) :
  every_char (fun c => negb (is_space c)) s = true -> strip s = s.
Proof.
  intros Hs. unfold strip. rewrite (lstrip_no_space s Hs).
  rewrite lstrip_no_space.
  - unfold String.rev. by rewrite rev_app_twice.
  - by apply rev_app_every_char.
Qed.

Lemma numeral_no_space (s : string) :
  every_char numeral_char s = true ->
  every_char (fun c => negb (is_space c)) s = true.
Proof.
  apply every_char_weaken. intros c. unfold numeral_char, is_ascii_digit, is_space.
  intros [Hd| ->%Ascii.eqb_eq]%orb_prop; [|done].
  apply andb_prop in Hd as [H1%Nat.leb_le H2%Nat.leb_le].
  apply negb_true_iff, orb_false_intro.
  - apply Nat.eqb_neq. lia.
  - apply andb_false_intro2, Nat.leb_gt. lia.
Qed.

Lemma strip_pretty (z : Z) : strip (pretty z) = pretty z.
Proof. apply strip_no_space, numeral_no_space, pretty_Z_numeral. Qed.

(** *** Reading a number back *)

(** [int(str(z))] is [z]. *)
Lemma int_of_string_pretty (z : Z) : int_of_string (pretty z) = Some z.
Proof.
  unfold int_of_string. rewrite strip_pretty.
  destruct z as [|p|p].
  - done.
  - destruct (pretty_Z_reads_back (Z.pos p)) as [Hd Hp]; [lia|].
    change (pretty (Z.pos p)) with (pretty (N.pos p)) in *.
    assert (Hsign : split_sign (pretty (N.pos p)) = (false, pretty (N.pos p))).
    { unfold split_sign. destruct (pretty (N.pos p)) as [|c s] eqn:Htext;
        [done|].
      unfold isdigit in Hd. simpl in Hd.
      apply andb_prop in Hd as [Hc _].
      destruct c as [[] [] [] [] [] [] [] []]; try done. }
    by rewrite Hsign, Hd, Hp.
  - destruct (pretty_Z_reads_back (Z.pos p)) as [Hd Hp]; [lia|].
    change (pretty (Z.pos p)) with (pretty (N.pos p)) in *.
    change (pretty (Z.neg p)) with (String "-" (pretty (N.pos p))).
    simpl. by rewrite Hd, Hp.
Qed.

Lemma Qred_integer (z : Z) : Qred (z # 1) = z # 1.
Proof.
  unfold Qred.
  pose proof (Z.ggcd_gcd z 1) as Hg.
  pose proof (Z.ggcd_correct_divisors z 1) as Hd.
  destruct (Z.ggcd z 1) as [g [a b]]. simpl in Hg, Hd.
  rewrite Z.gcd_1_r in Hg. subst g. destruct Hd as [Ha Hb].
  assert (a = z) as -> by lia. assert (b = 1) as -> by lia. done.
Qed.

Lemma split_dot_digits (s : string) :
  all_digits s = true -> split_dot s = (s, None).
Proof.
  induction s as [|c s IH]; [done|]. simpl.
  intros [Hc Hs]%andb_prop. rewrite (IH Hs).
  destruct c as [[] [] [] [] [] [] [] []]; try done.
Qed.

(** [float(str(z))] is [z]. *)
Lemma float_of_string_pretty (z : Z) :
  float_of_string (pretty z) = Some (inject_Z z).
Proof.
  assert (Hpos : forall p : positive,
            split_sign (pretty (N.pos p)) = (false, pretty (N.pos p))
            /\ all_digits (pretty (N.pos p)) = true
            /\ negb (String.eqb (pretty (N.pos p)) "") = true
            /\ parse_digits 0 (pretty (N.pos p)) = Z.pos p).
  { intros p. destruct (pretty_N_reads_back (N.pos p)) as [Hd Hp].
    repeat split; [|by apply isdigit_all_digits| |done].
    - unfold split_sign. destruct (pretty (N.pos p)) as [|c s]; [done|].
      unfold isdigit in Hd. simpl in Hd. apply andb_prop in Hd as [Hc _].
      destruct c as [[] [] [] [] [] [] [] []]; try done.
    - by destruct (pretty (N.pos p)). }
  unfold float_of_string. rewrite strip_pretty.
  destruct z as [|p|p].
  - done.
  - change (pretty (Z.pos p)) with (pretty (N.pos p)).
    destruct (Hpos p) as (-> & Hd & Hne & Hp).
    rewrite (split_dot_digits _ Hd). simpl.
    rewrite Hd. simpl. rewrite andb_true_r, Hne, Hp.
    f_equal. simpl. rewrite ?Z.mul_1_r, ?Z.add_0_r. apply Qred_integer.
  - change (pretty (Z.neg p)) with (String "-" (pretty (N.pos p))).
    destruct (Hpos p) as (_ & Hd & Hne & Hp).
    cbn [split_sign]. rewrite (split_dot_digits _ Hd). simpl.
    rewrite Hd. simpl. rewrite andb_true_r, Hne, Hp.
    f_equal. simpl. rewrite ?Z.mul_1_r, ?Z.add_0_r. apply Qred_integer.
Qed.

(** *** Searching a text *)

(** A pattern whose first character does not occur in the text is not found
    in it. *)
Lemma contains_first_char (c : ascii) (pattern s : string) :
  every_char (fun a => negb (Ascii.eqb a c)) s = true ->
  contains (String c pattern) s = false.
Proof.
  induction s as [|a s IH]; [done|]. simpl.
  intros [Ha Hs]%andb_prop. rewrite (IH Hs).
  apply negb_true_iff, Ascii.eqb_neq in Ha.
  destruct (ascii_dec c a) as [->|Hne]; [done|]. done.
Qed.

(** No numeral contains a pattern that starts with a letter. *)
Lemma contains_numeral (c : ascii) (pattern : string) (z : Z) :
  numeral_char c = false ->
  contains (String c pattern) (pretty z) = false.
Proof.
  intros Hc. apply contains_first_char.
  apply (every_char_weaken numeral_char); [|apply pretty_Z_numeral].
  intros a Ha. apply negb_true_iff, Ascii.eqb_neq. intros ->. congruence.
Qed.

End Numerals.

(** ** The cache manager on its own *)

Section CacheManager.

Import Sheets Spec.

(** X1: a value stored with [set] is returned by [get] for less than
    [CACHE_DURATION] seconds; from then on [get] reports a miss and drops
    the entry. Lookups of other keys are not affected by the store. *)
Theorem cache_set_then_get {V : Type} (key : string) (value : V) (t t' : Q)
    (cm : Cache.CacheManager V) :
  let cm1 := Cache.set key value t cm in
  ((t' - t < Cache.CACHE_DURATION)%Q ->
   (Cache.get key t' cm1).1 = Some value
   /\ Cache.cache (Cache.get key t' cm1).2 = Cache.cache cm1)
  /\ ((Cache.CACHE_DURATION <= t' - t)%Q ->
      (Cache.get key t' cm1).1 = None
      /\ Cache.cache (Cache.get key t' cm1).2 !! key = None)
  /\ (forall other : string,
        other <> key -> (Cache.get other t' cm1).1 = (Cache.get other t' cm).1).
Proof.
  intros cm1. unfold cm1, Cache.get, Cache.set. simpl.
  rewrite lookup_insert_eq.
  split; [|split].
  - intros Hlive. destruct (Qlt_le_dec _ _) as [_|Hle]; [done|].
    by apply Qle_not_lt in Hle.
  - intros Hold. destruct (Qlt_le_dec _ _) as [Hlt|_].
    + by apply Qlt_not_le in Hlt.
    + simpl. split; [done|]. by rewrite lookup_delete_eq.
  - intros other Hne. rewrite lookup_insert_ne by done.
    destruct (Cache.cache cm !! other) as [[stamp v]|]; [|done].
    by destruct (Qlt_le_dec _ _).
Qed.

Lemma cache_set_then_get_witness :
  (Cache.get "k" 1009 (Cache.set "k" (RVal (VInt 7)) 1000 Cache.init)).1
  = Some (RVal (VInt 7))
  /\ (Cache.get "k" 1010 (Cache.set "k" (RVal (VInt 7)) 1000 Cache.init)).1
     = None.
Proof.
  pose proof (cache_set_then_get "k" (RVal (VInt 7)) 1000 1009 Cache.init)
    as (Hlive & _ & _).
  pose proof (cache_set_then_get "k" (RVal (VInt 7)) 1000 1010 Cache.init)
    as (_ & Hold & _).
  split; [apply Hlive|apply Hold]; by vm_compute.
Defined.

(** *** What the counters count *)

(** Entries dropped and the invalidation counter move together: apart from
    [set], no call changes the number of live entries plus the number of
    invalidations counted. *)
Lemma invalidate_balance {V : Type} (key : option string)
    (cm : Cache.CacheManager V) :
  (size (Cache.cache (Cache.invalidate key cm))
   + Cache.invalidations (Cache.invalidate key cm)
   = size (Cache.cache cm) + Cache.invalidations cm)%nat
  /\ Cache.hits (Cache.invalidate key cm) = Cache.hits cm
  /\ Cache.misses (Cache.invalidate key cm) = Cache.misses cm.
Proof.
  unfold Cache.invalidate. destruct key as [k|]; simpl.
  - destruct (Cache.cache cm !! k) as [e|] eqn:Hk; simpl; [|done].
    rewrite map_size_delete, Hk.
    assert (size (Cache.cache cm) <> O).
    { apply map_size_ne_0_lookup. by exists k. }
    repeat split. lia.
  - rewrite map_size_empty. repeat split. lia.
Qed.

Lemma invalidate_pattern_balance {V : Type} (pattern : string)
    (cm : Cache.CacheManager V) :
  (size (Cache.cache (Cache.invalidate_pattern pattern cm))
   + Cache.invalidations (Cache.invalidate_pattern pattern cm)
   = size (Cache.cache cm) + Cache.invalidations cm)%nat
  /\ Cache.hits (Cache.invalidate_pattern pattern cm) = Cache.hits cm
  /\ Cache.misses (Cache.invalidate_pattern pattern cm) = Cache.misses cm.
Proof.
  unfold Cache.invalidate_pattern. simpl. repeat split.
  pose proof (map_size_filter
                (fun kv : string * (Q * V) => contains pattern kv.1 = false)
                (Cache.cache cm)).
  lia.
Qed.

Lemma invalidate_transaction_cache_balance {V : Type} (transaction_id : value)
    (cm : Cache.CacheManager V) :
  (size (Cache.cache (Cache.invalidate_transaction_cache transaction_id cm))
   + Cache.invalidations (Cache.invalidate_transaction_cache transaction_id cm)
   = size (Cache.cache cm) + Cache.invalidations cm)%nat
  /\ Cache.hits (Cache.invalidate_transaction_cache transaction_id cm)
     = Cache.hits cm
  /\ Cache.misses (Cache.invalidate_transaction_cache transaction_id cm)
     = Cache.misses cm.
Proof.
  assert (Hfold : forall (ps : list string) (cm0 : Cache.CacheManager V),
    let cm1 := fold_left (fun acc p => Cache.invalidate_pattern p acc) ps cm0 in
    (size (Cache.cache cm1) + Cache.invalidations cm1
     = size (Cache.cache cm0) + Cache.invalidations cm0)%nat
    /\ Cache.hits cm1 = Cache.hits cm0 /\ Cache.misses cm1 = Cache.misses cm0).
  { induction ps as [|p ps IH]; intros cm0; [done|]. simpl.
    destruct (IH (Cache.invalidate_pattern p cm0)) as (-> & -> & ->).
    apply invalidate_pattern_balance. }
  unfold Cache.invalidate_transaction_cache.
  destruct transaction_id; try apply invalidate_balance. apply Hfold.
Qed.

Lemma get_balance {V : Type} (key : string) (t : Q) (cm : Cache.CacheManager V) :
  let cm1 := (Cache.get key t cm).2 in
  (size (Cache.cache cm1) + Cache.invalidations cm1
   = size (Cache.cache cm) + Cache.invalidations cm)%nat
  /\ (Cache.hits cm1 + Cache.misses cm1
      = S (Cache.hits cm + Cache.misses cm))%nat.
Proof.
  unfold Cache.get.
  destruct (Cache.cache cm !! key) as [[stamp v]|] eqn:Hk; simpl;
    [|split; lia].
  destruct (Qlt_le_dec _ _); simpl; [split; lia|].
  rewrite map_size_delete, Hk.
  assert (size (Cache.cache cm) <> O).
  { apply map_size_ne_0_lookup. by exists key. }
  split; lia.
Qed.

(** X2: on a cache manager that starts empty, [hits + misses] is the number
    of [get] calls made, and the entries still held plus the invalidations
    counted never exceed the number of [set] calls made, whatever calls are
    made in whatever order. *)
Theorem cache_counters (calls : list cache_call) :
  let cm := after_cache_calls calls in
  (Cache.hits cm + Cache.misses cm = length (List.filter is_get calls))%nat
  /\ (size (Cache.cache cm) + Cache.invalidations cm
      <= length (List.filter is_set calls))%nat.
Proof.
  unfold after_cache_calls.
  induction calls as [|k calls IH] using rev_ind; [by vm_compute|].
  rewrite fold_left_app, !List.filter_app, !length_app. simpl.
  set (cm := fold_left after_cache_call calls Cache.init) in *.
  destruct IH as [Hgets Hsets].
  destruct k as [key t|key value t|key|pattern|transaction_id];
    cbn [after_cache_call List.filter is_get is_set length].
  - destruct (get_balance key t cm) as [Hb Hc]. cbv zeta in Hb, Hc. lia.
  - unfold Cache.set. cbn [Cache.cache Cache.hits Cache.misses
                            Cache.invalidations].
    split; [lia|]. rewrite map_size_insert.
    destruct (Cache.cache cm !! key); unfold id; lia.
  - destruct (invalidate_balance key cm) as (? & ? & ?). lia.
  - destruct (invalidate_pattern_balance pattern cm) as (? & ? & ?). lia.
  - destruct (invalidate_transaction_cache_balance transaction_id cm)
      as (? & ? & ?). lia.
Qed.

(** *** Which entries a change of the transactions removes *)

Lemma invalidate_pattern_lookup {V : Type} (pattern key : string)
    (cm : Cache.CacheManager V) :
  Cache.cache (Cache.invalidate_pattern pattern cm) !! key
  = if contains pattern key then None else Cache.cache cm !! key.
Proof.
  unfold Cache.invalidate_pattern. simpl.
  rewrite map_lookup_filter.
  destruct (Cache.cache cm !! key) as [e|]; simpl;
    destruct (contains pattern key); try done.
Qed.

(** The keys of the day functions contain no transaction pattern. *)
Lemma day_keys_are_not_transaction_keys (chat_id : Z) :
  transaction_key ("is_day_open:" +:+ pretty chat_id) = false
  /\ transaction_key ("get_day_settings:" +:+ pretty chat_id) = false
  /\ transaction_key ("get_current_rate:" +:+ pretty chat_id) = false.
Proof.
  unfold transaction_key, Cache.transaction_patterns.
  cbv beta iota fix delta [String.append existsb]. cbn.
  by rewrite !contains_numeral.
Qed.

Lemma invalidate_transaction_cache_lookup {V : Type} (key : string)
    (cm : Cache.CacheManager V) :
  Cache.cache (Cache.invalidate_transaction_cache VNone cm) !! key
  = if transaction_key key then None else Cache.cache cm !! key.
Proof.
  unfold Cache.invalidate_transaction_cache, transaction_key,
    Cache.transaction_patterns.
  cbn [fold_left existsb]. rewrite !invalidate_pattern_lookup.
  repeat (destruct (contains _ key); cbn [orb]; try done).
Qed.

(** The cached record of every single transaction goes. *)
Lemma invalidated_get_transaction {V : Type} (text : string)
    (cm : Cache.CacheManager V) :
  Cache.cache (Cache.invalidate_transaction_cache VNone cm)
    !! ("get_transaction:" +:+ text) = None.
Proof.
  rewrite invalidate_transaction_cache_lookup.
  assert (transaction_key ("get_transaction:" +:+ text) = true) as ->; [|done].
  unfold transaction_key, Cache.transaction_patterns.
  cbv beta iota fix delta [String.append existsb]. by cbn.
Qed.

(** The cached lists of transactions go, whatever their arguments. *)
Lemma invalidated_get_all_transactions {V : Type} (text : string)
    (cm : Cache.CacheManager V) :
  Cache.cache (Cache.invalidate_transaction_cache VNone cm)
    !! ("get_all_transactions" +:+ text) = None.
Proof.
  rewrite invalidate_transaction_cache_lookup.
  assert (transaction_key ("get_all_transactions" +:+ text) = true) as ->;
    [|done].
  unfold transaction_key, Cache.transaction_patterns.
  cbv beta iota fix delta [String.append existsb]. cbn.
  assert (String.prefix "" text = true) as -> by (by destruct text).
  by destruct (contains "get_transaction" text).
Qed.

(** A lookup of a key that is not held is a miss and changes no entry. *)
Lemma cache_get_absent {V : Type} (k : string) (t : Q)
    (cm : Cache.CacheManager V) :
  Cache.cache cm !! k = None ->
  (Cache.get k t cm).1 = None
  /\ Cache.cache (Cache.get k t cm).2 = Cache.cache cm.
Proof. intros Hk. unfold Cache.get. by rewrite Hk. Qed.

(** X3: [invalidate_transaction_cache()] without an identifier, as
    [add_transaction] calls it, removes exactly the entries whose key
    contains one of the five transaction patterns. The entry of every
    [get_transaction(id)] is among them; the entries of [is_day_open],
    [get_day_settings] and [get_current_rate] of every chat stay. *)
Theorem invalidate_transaction_cache_all {V : Type}
    (cm : Cache.CacheManager V) :
  let cm' := Cache.invalidate_transaction_cache VNone cm in
  (forall key : string,
     Cache.cache cm' !! key
     = if transaction_key key then None else Cache.cache cm !! key)
  /\ (forall transaction_id : Z,
        Cache.cache cm' !! ("get_transaction:" +:+ pretty transaction_id)
        = None)
  /\ (forall chat_id : Z,
        Cache.cache cm' !! ("is_day_open:" +:+ pretty chat_id)
        = Cache.cache cm !! ("is_day_open:" +:+ pretty chat_id)
        /\ Cache.cache cm' !! ("get_day_settings:" +:+ pretty chat_id)
           = Cache.cache cm !! ("get_day_settings:" +:+ pretty chat_id)
        /\ Cache.cache cm' !! ("get_current_rate:" +:+ pretty chat_id)
           = Cache.cache cm !! ("get_current_rate:" +:+ pretty chat_id)).
Proof.
  intros cm'.
  split; [intros key; apply invalidate_transaction_cache_lookup|split].
  - intros transaction_id. apply invalidated_get_transaction.
  - intros chat_id. unfold cm'. rewrite !invalidate_transaction_cache_lookup.
    by destruct (day_keys_are_not_transaction_keys chat_id) as (-> & -> & ->).
Qed.

End CacheManager.

(** ** The decorator: expiry and keys *)

Section DecoratorKeys.

Import Sheets Spec.

(** A stale entry is dropped by the lookup. *)
Lemma cache_get_expired {V : Type} (k : string) (t stamp : Q) (v : V)
    (cm : Cache.CacheManager V) :
  Cache.cache cm !! k = Some (stamp, v) ->
  (Cache.CACHE_DURATION <= t - stamp)%Q ->
  (Cache.get k t cm).1 = None
  /\ Cache.cache (Cache.get k t cm).2 = delete k (Cache.cache cm).
Proof.
  intros Hentry Hold. unfold Cache.get. rewrite Hentry.
  destruct (Qlt_le_dec _ _) as [Hlt|_]; [|done].
  by apply Qlt_not_le in Hlt.
Qed.

(** X4: once a cached result is [CACHE_DURATION] seconds old, the decorated
    method no longer returns it: the body runs again, from a state in which
    the entry is gone, and the call returns what the body returns. *)
Theorem cache_result_expired (key_pattern : list piece)
    (function_name : string) (func : list value -> kwargs -> M result)
    (args : list value) (kw : kwargs) (c : Client) (stamp : Q) (v : result) :
  let key := cache_key key_pattern function_name args kw in
  dummy_mode c = false -> DEBUG (env c) = false ->
  Cache.cache (cache_manager c) !! key = Some (stamp, v) ->
  (Cache.CACHE_DURATION <= now (env c) - stamp)%Q ->
  let c0 :=
    set_cache_manager (Cache.get key (now (env c)) (cache_manager c)).2 c in
  Cache.cache (cache_manager c0) !! key = None
  /\ (cache_result key_pattern function_name func args kw c).1
     = (func args kw c0).1.
Proof.
  intros key Hlive Hdebug Hentry Hold c0.
  destruct (cache_get_expired key (now (env c)) stamp v (cache_manager c)
              Hentry Hold) as [Hmiss Hcache].
  split.
  - unfold c0. simpl. rewrite Hcache. apply lookup_delete_eq.
  - rewrite cache_result_unfold by assumption. fold key. unfold c0.
    destruct (Cache.get key (now (env c)) (cache_manager c)) as [o cm].
    simpl in Hmiss. subst o. simpl.
    destruct (func args kw (set_cache_manager cm c)) as [[r|e] c']; [|done].
    by destruct (is_None r).
Qed.

Lemma cache_result_expired_witness :
  let c := set_cache_manager
             (Cache.set "get_transaction:2" (RVal (VInt 0)) 990
                        Cache.init)
             Fixtures.three_client in
  match (get_transaction [VInt 2] [] c).1 with
  | Ret (RDict t) => t !! "amount" = Some (VStr "2000")
  | _ => False
  end.
Proof.
  intros c.
  destruct (cache_result_expired [Lit "get_transaction:"; Field 0]
              "get_transaction" get_transaction_func [VInt 2] [] c
              990 (RVal (VInt 0))) as [_ Hrun];
    [reflexivity|reflexivity|reflexivity|by vm_compute|].
  unfold get_transaction. rewrite Hrun. by vm_compute.
Defined.

(** A key pattern without fields gives the same key to every call. *)
Lemma constant_cache_key (name : string) (args : list value) (kw : kwargs) :
  cache_key [Lit name] name args kw = name.
Proof.
  unfold cache_key.
  destruct (map str args ++ _) as [|a l]; [done|].
  cbn [format]. unfold ebind. by rewrite append_empty_r.
Qed.

(** A live entry under a constant key answers every call. *)
Lemma constant_key_hit (name : string)
    (func : list value -> kwargs -> M result) (args : list value)
    (kw : kwargs) (c : Client) (stamp : Q) (v : result) :
  dummy_mode c = false -> DEBUG (env c) = false ->
  Cache.cache (cache_manager c) !! name = Some (stamp, v) ->
  (now (env c) - stamp < Cache.CACHE_DURATION)%Q ->
  (cache_result [Lit name] name func args kw c).1 = Ret v
  /\ remote (cache_result [Lit name] name func args kw c).2 = remote c
  /\ cache (cache_result [Lit name] name func args kw c).2 = cache c.
Proof.
  intros Hlive Hdebug Hentry Hfresh.
  rewrite cache_result_unfold by assumption.
  rewrite constant_cache_key.
  by rewrite (cache_get_live name (now (env c)) stamp v (cache_manager c)
                Hentry Hfresh).
Qed.

(** X5: the decorator keys of [get_daily_statistics],
    [get_daily_transactions] and [get_unpaid_transactions] name no argument.
    While an entry under such a key is less than [CACHE_DURATION] seconds
    old, every call of the method returns it without reaching the
    spreadsheet, for whichever chat it is made and whether or not it asks
    for [force_refresh]. *)
Theorem constant_key_answers_every_call (args : list value) (kw : kwargs)
    (c : Client) (stamp : Q) (v : result) :
  dummy_mode c = false -> DEBUG (env c) = false ->
  (now (env c) - stamp < Cache.CACHE_DURATION)%Q ->
  (Cache.cache (cache_manager c) !! "get_daily_statistics" = Some (stamp, v) ->
   (get_daily_statistics args kw c).1 = Ret v
   /\ remote (get_daily_statistics args kw c).2 = remote c
   /\ cache (get_daily_statistics args kw c).2 = cache c)
  /\ (Cache.cache (cache_manager c) !! "get_daily_transactions"
      = Some (stamp, v) ->
      (get_daily_transactions args kw c).1 = Ret v
      /\ remote (get_daily_transactions args kw c).2 = remote c)
  /\ (Cache.cache (cache_manager c) !! "get_unpaid_transactions"
      = Some (stamp, v) ->
      (get_unpaid_transactions args kw c).1 = Ret v
      /\ remote (get_unpaid_transactions args kw c).2 = remote c).
Proof.
  intros Hlive Hdebug Hfresh. split; [|split]; intros Hentry.
  - by apply (constant_key_hit "get_daily_statistics" _ _ _ _ stamp).
  - destruct (constant_key_hit "get_daily_transactions"
                get_daily_transactions_func args kw c stamp v)
      as (? & ? & _); done.
  - destruct (constant_key_hit "get_unpaid_transactions"
                get_unpaid_transactions_func args kw c stamp v)
      as (? & ? & _); done.
Qed.

Lemma constant_key_answers_every_call_witness :
  let c := set_cache_manager
             (Cache.set "get_daily_statistics"
                        (RStats (zero_stats None (Some []))) 995 Cache.init)
             Fixtures.three_client in
  (get_daily_statistics [VInt (-5)] [("force_refresh", VBool true)] c).1
  = Ret (RStats (zero_stats None (Some []))).
Proof.
  intros c.
  apply (proj1 (constant_key_answers_every_call
                  [VInt (-5)] [("force_refresh", VBool true)] c 995
                  (RStats (zero_stats None (Some [])))
                  eq_refl eq_refl eq_refl)).
  reflexivity.
Defined.

End DecoratorKeys.

(** ** What never changes the transactions worksheet *)

Section ReadOnly.

Import Sheets Spec.

Lemma same_sheet_refl (c : Client) : same_sheet c c.
Proof. done. Qed.

Lemma same_sheet_trans (c1 c2 c3 : Client) :
  same_sheet c1 c2 -> same_sheet c2 c3 ->
  same_sheet c1 c3.
Proof. unfold same_sheet. congruence. Qed.

Lemma keeps_ret {A : Type} (a : A) : keeps_sheet (ret a).
Proof. intros c. apply same_sheet_refl. Qed.

Lemma keeps_raise {A : Type} (e : exn) : keeps_sheet (raise (A := A) e).
Proof. intros c. apply same_sheet_refl. Qed.

Lemma keeps_self : keeps_sheet self.
Proof. intros c. apply same_sheet_refl. Qed.

Lemma keeps_lift {A : Type} (x : E A) : keeps_sheet (lift x).
Proof. intros c. destruct x; apply same_sheet_refl. Qed.

Lemma keeps_item {A : Type} (l : list A) (i : nat) :
  keeps_sheet (item l i).
Proof. intros c. unfold item. destruct (l !! i); apply same_sheet_refl. Qed.

Lemma keeps_as_list (r : result) : keeps_sheet (as_list r).
Proof. intros c. destruct r; apply same_sheet_refl. Qed.

Lemma keeps_bind {A B : Type} (m : M A) (k : A -> M B) :
  keeps_sheet m -> (forall a, keeps_sheet (k a)) ->
  keeps_sheet (bind m k).
Proof.
  intros Hm Hk c. unfold bind. specialize (Hm c).
  destruct (m c) as [[a|e] c1]; [|exact Hm].
  eapply same_sheet_trans; [exact Hm|apply Hk].
Qed.

Lemma keeps_try_except {A : Type} (body : M A) (handles : exn -> bool)
    (handler : exn -> M A) :
  keeps_sheet body -> (forall e, keeps_sheet (handler e)) ->
  keeps_sheet (try_except body handles handler).
Proof.
  intros Hbody Hhandler c. unfold try_except. specialize (Hbody c).
  destruct (body c) as [[a|e] c1]; [exact Hbody|].
  destruct (handles e); [|exact Hbody].
  eapply same_sheet_trans; [exact Hbody|apply Hhandler].
Qed.

Lemma keeps_api : keeps_sheet api.
Proof.
  intros c. unfold api. by destruct (faults (remote c)) as [|[|] fs].
Qed.

Lemma keeps_with_cache_manager f : keeps_sheet (with_cache_manager f).
Proof. by intros c. Qed.

(** Writing to one of the auxiliary worksheets. *)
Lemma keeps_modify_aux (w : aux_sheet) (f : Client -> option (list row)) :
  keeps_sheet
    (modify (fun c => set_remote (set_aux_rows w (f c) (remote c)) c)).
Proof. intros c. by destruct w. Qed.

Lemma keeps_modify_cache (f : Client -> gmap string stats) :
  keeps_sheet (modify (fun c => set_cache (f c) c)).
Proof. by intros c. Qed.

Lemma keeps_cache_result (key_pattern : list piece) (function_name : string)
    (func : list value -> kwargs -> M result) (args : list value)
    (kw : kwargs) :
  (forall a k, keeps_sheet (func a k)) ->
  keeps_sheet (cache_result key_pattern function_name func args kw).
Proof.
  intros Hfunc. unfold cache_result.
  apply keeps_bind; [apply keeps_self|]. intros c0.
  destruct (dummy_mode c0); [apply Hfunc|].
  destruct (_ && _); [apply Hfunc|].
  destruct (Cache.get _ _ _) as [[v|] cm].
  - apply keeps_bind; [by intros c|]. intros _. apply keeps_ret.
  - apply keeps_bind; [by intros c|]. intros _.
    apply keeps_bind; [apply Hfunc|]. intros r.
    destruct (is_None r); [apply keeps_ret|].
    apply keeps_bind; [apply keeps_self|]. intros c'.
    apply keeps_bind; [apply keeps_with_cache_manager|]. intros _.
    apply keeps_ret.
Qed.

End ReadOnly.

(** One step of the walk through a method that leaves the worksheet. *)
Ltac keeps_step :=
  lazymatch goal with
  | |- Spec.keeps_sheet (Sheets.bind _ _) =>
      apply keeps_bind; [|intros ?]
  | |- Spec.keeps_sheet (Sheets.try_except _ _ _) =>
      apply keeps_try_except; [|intros ?]
  | |- Spec.keeps_sheet (Sheets.ret _) => apply keeps_ret
  | |- Spec.keeps_sheet (Sheets.raise _) => apply keeps_raise
  | |- Spec.keeps_sheet Sheets.self => apply keeps_self
  | |- Spec.keeps_sheet (Sheets.lift _) => apply keeps_lift
  | |- Spec.keeps_sheet (Sheets.item _ _) => apply keeps_item
  | |- Spec.keeps_sheet (Sheets.as_list _) => apply keeps_as_list
  | |- Spec.keeps_sheet Sheets.api => apply keeps_api
  | |- Spec.keeps_sheet (Sheets.with_cache_manager _) =>
      apply keeps_with_cache_manager
  | |- Spec.keeps_sheet (Sheets.cache_result _ _ _ _ _) =>
      apply keeps_cache_result; intros ? ?
  | |- Spec.keeps_sheet (if ?b then _ else _) => destruct b
  | |- Spec.keeps_sheet (match ?x with _ => _ end) => destruct x
  | |- Spec.keeps_sheet (let '(_, _) := ?x in _) => destruct x
  end.

Section ReadOnlyMethods.

Import Sheets Spec.

Lemma keeps_open_by_key : keeps_sheet open_by_key.
Proof. apply keeps_api. Qed.

Lemma keeps_worksheet (w : aux_sheet) : keeps_sheet (worksheet w).
Proof. unfold worksheet. repeat keeps_step. Qed.

Lemma keeps_aux_get_all_values (w : aux_sheet) :
  keeps_sheet (aux_get_all_values w).
Proof. unfold aux_get_all_values. repeat keeps_step. Qed.

Lemma keeps_aux_append_row (w : aux_sheet) (r : list value) :
  keeps_sheet (aux_append_row w r).
Proof.
  unfold aux_append_row. keeps_step; [apply keeps_api|].
  apply (keeps_modify_aux w (fun c => Some _)).
Qed.

Lemma keeps_aux_update_row (w : aux_sheet) (i : nat) (r : list value) :
  keeps_sheet (aux_update_row w i r).
Proof.
  unfold aux_update_row. keeps_step; [apply keeps_api|].
  apply (keeps_modify_aux w (fun c => Some _)).
Qed.

Lemma keeps_create_aux (w : aux_sheet) : keeps_sheet (create_aux w).
Proof.
  unfold create_aux, add_worksheet.
  keeps_step; [apply keeps_open_by_key|].
  keeps_step; [|apply keeps_aux_update_row].
  keeps_step; [apply keeps_api|].
  apply (keeps_modify_aux w (fun c => _)).
Qed.

End ReadOnlyMethods.

(** The walk through a whole method. *)
Ltac keeps_walk :=
  repeat first
    [ keeps_step
    | apply keeps_open_by_key
    | apply keeps_worksheet
    | apply keeps_aux_get_all_values
    | apply keeps_aux_append_row
    | apply keeps_aux_update_row
    | apply keeps_create_aux
    | apply keeps_modify_cache
    | progress unfold Sheets.col_values_1, Sheets.row_values,
        Sheets.get_all_values
    | lazymatch goal with
      | |- Spec.keeps_sheet (Sheets.modify _) => by intros ?
      end ].

Section ReadOnlyStore.

Import Sheets Spec.

Lemma keeps_get_transaction args kw :
  keeps_sheet (get_transaction args kw).
Proof. unfold get_transaction, get_transaction_func. keeps_walk. Qed.

Lemma keeps_get_all_transactions args kw :
  keeps_sheet (get_all_transactions args kw).
Proof. unfold get_all_transactions, get_all_transactions_func. keeps_walk. Qed.

Lemma keeps_get_daily_transactions args kw :
  keeps_sheet (get_daily_transactions args kw).
Proof.
  unfold get_daily_transactions, get_daily_transactions_func. keeps_walk.
  apply keeps_get_all_transactions.
Qed.

Lemma keeps_get_unpaid_transactions args kw :
  keeps_sheet (get_unpaid_transactions args kw).
Proof.
  unfold get_unpaid_transactions, get_unpaid_transactions_func.
  keeps_step. keeps_step; [apply keeps_get_all_transactions|]. keeps_walk.
Qed.

Lemma keeps_get_day_settings args kw :
  keeps_sheet (get_day_settings args kw).
Proof. unfold get_day_settings, get_day_settings_func. keeps_walk. Qed.

Lemma keeps_get_current_rate args kw :
  keeps_sheet (get_current_rate args kw).
Proof.
  unfold get_current_rate, get_current_rate_func.
  keeps_step. keeps_step; [apply keeps_get_day_settings|]. keeps_walk.
Qed.

Lemma keeps_is_day_open args kw : keeps_sheet (is_day_open args kw).
Proof. unfold is_day_open, is_day_open_func. keeps_walk. Qed.

Lemma keeps_get_daily_statistics args kw :
  keeps_sheet (get_daily_statistics args kw).
Proof.
  unfold get_daily_statistics, get_daily_statistics_func.
  keeps_step. keeps_step; [apply keeps_self|].
  keeps_step.
  { destruct (_ && _); keeps_walk. }
  keeps_step; [apply keeps_self|].
  destruct (if truthy _ then None else _); [apply keeps_ret|].
  keeps_step; [|apply keeps_ret].
  keeps_step; [apply keeps_get_all_transactions|].
  keeps_step; [apply keeps_as_list|].
  keeps_step; [apply keeps_lift|].
  lazymatch goal with
  | |- keeps_sheet (match ?x with _ => _ end) => destruct x as [|t ts]
  end; [keeps_walk|].
  keeps_step; [apply keeps_get_day_settings|]. keeps_walk.
Qed.

Lemma keeps_save_day_settings rate commission_percent chat_id :
  keeps_sheet (save_day_settings rate commission_percent chat_id).
Proof. unfold save_day_settings. keeps_walk. Qed.

Lemma keeps_set_day_status is_open chat_id :
  keeps_sheet (set_day_status is_open chat_id).
Proof. unfold set_day_status. keeps_walk. Qed.

(** X6: no read of transactions writes to the transactions worksheet, from
    whatever state it is called, with whatever arguments, and whichever API
    calls fail: the worksheet is afterwards what it was. *)
Theorem transaction_reads_keep_the_sheet :
  (forall args kw, keeps_sheet (get_transaction args kw))
  /\ (forall args kw, keeps_sheet (get_all_transactions args kw))
  /\ (forall args kw, keeps_sheet (get_daily_transactions args kw))
  /\ (forall args kw, keeps_sheet (get_unpaid_transactions args kw)).
Proof.
  split; [exact keeps_get_transaction|].
  split; [exact keeps_get_all_transactions|].
  split; [exact keeps_get_daily_transactions|].
  exact keeps_get_unpaid_transactions.
Qed.

(** X7: reading and saving the day settings, and reading the current rate,
    never change the transactions worksheet, whichever API calls fail. *)
Theorem day_settings_keep_the_sheet :
  (forall args kw, keeps_sheet (get_day_settings args kw))
  /\ (forall args kw, keeps_sheet (get_current_rate args kw))
  /\ (forall rate commission_percent chat_id,
        keeps_sheet (save_day_settings rate commission_percent chat_id)).
Proof.
  split; [exact keeps_get_day_settings|].
  split; [exact keeps_get_current_rate|exact keeps_save_day_settings].
Qed.

(** X8: reading and setting the day status, and computing the daily
    statistics, never change the transactions worksheet, whichever API calls
    fail. *)
Theorem day_status_and_statistics_keep_the_sheet :
  (forall args kw, keeps_sheet (is_day_open args kw))
  /\ (forall is_open chat_id, keeps_sheet (set_day_status is_open chat_id))
  /\ (forall args kw, keeps_sheet (get_daily_statistics args kw)).
Proof.
  split; [exact keeps_is_day_open|].
  split; [exact keeps_set_day_status|exact keeps_get_daily_statistics].
Qed.

End ReadOnlyStore.

(** ** Adding a transaction and reading it back *)

Section AddAndRead.

Import Sheets Spec.

Lemma max_list_bound (l : list Z) (m : Z) :
  max_list l = Some m -> forall x, x ∈ l -> x <= m.
Proof.
  revert m. induction l as [|y l IH]; intros m Hm x Hx; [set_solver|].
  simpl in Hm. destruct (max_list l) as [m'|] eqn:Hl.
  - injection Hm as <-. apply elem_of_cons in Hx as [->|Hx]; [lia|].
    specialize (IH m' eq_refl x Hx). lia.
  - injection Hm as <-. destruct l as [|y' l'].
    + apply elem_of_cons in Hx as [->|Hx]; [lia|set_solver].
    + simpl in Hl. by destruct (max_list l').
Qed.

Lemma parse_digits_nonneg (s : string) (acc : Z) :
  0 <= acc -> 0 <= parse_digits acc s.
Proof.
  revert acc. induction s as [|c s IH]; intros acc Hacc; [done|].
  simpl. apply IH. lia.
Qed.

(** The identifier that [add_transaction] chooses in regular mode. *)
Lemma next_id_fresh (all_ids : list string) (m : Z) :
  max_list (map (parse_digits 0) (List.filter isdigit all_ids)) = Some m ->
  0 < m + 1
  /\ forall s, s ∈ all_ids -> isdigit s = true -> parse_digits 0 s < m + 1.
Proof.
  intros Hmax.
  assert (Hbound : forall s, s ∈ all_ids -> isdigit s = true ->
                             parse_digits 0 s <= m).
  { intros s Hs Hd. apply (max_list_bound _ _ Hmax).
    apply list_elem_of_fmap. exists s. split; [done|].
    apply list_elem_of_In, filter_In. split; [by apply list_elem_of_In|done]. }
  split; [|intros s Hs Hd; specialize (Hbound s Hs Hd); lia].
  destruct (List.filter isdigit all_ids) as [|s l] eqn:Hf; [done|].
  assert (Hs : In s (List.filter isdigit all_ids)) by (rewrite Hf; by left).
  apply filter_In in Hs as [Hs Hd]. apply list_elem_of_In in Hs.
  specialize (Hbound s Hs Hd).
  pose proof (parse_digits_nonneg s 0). lia.
Qed.

(** The identifiers that the dummy-mode branch reads off the records. *)
Lemma emap_id_number (l : list dict) (ids : list Z) (t : dict) (z : Z) :
  emap (fun t => id_number (get t "id" (VInt 0))) l = inr ids ->
  t ∈ l -> get t "id" (VInt 0) = VInt z -> z ∈ ids.
Proof.
  revert ids. induction l as [|t0 l IH]; intros ids Hemap Ht Hz;
    [set_solver|].
  simpl in Hemap. unfold ebind in Hemap.
  destruct (id_number (get t0 "id" (VInt 0))) as [e|i] eqn:Hi; [done|].
  destruct (emap _ l) as [e|rest] eqn:Hl; [done|].
  injection Hemap as <-.
  apply elem_of_cons in Ht as [->|Ht].
  - rewrite Hz in Hi. injection Hi as <-. by left.
  - right. by apply (IH rest eq_refl).
Qed.

(** What a successful [add_transaction] leaves behind in regular mode. *)
Lemma add_transaction_appends (data : dict) (c : Client) :
  dummy_mode c = false ->
  wp (add_transaction data)
     (fun o c' =>
        forall new_id : Z, o = Ret new_id ->
          (exists r : list value,
             new_row new_id (env c) data = inr r
             /\ sheet (remote c') = sheet (remote c) ++ [map cell_text r])
          /\ cache_manager c'
             = Cache.invalidate_transaction_cache VNone (cache_manager c)
          /\ env c' = env c
          /\ dummy_mode c' = false
          /\ faults (remote c') = tail (tail (faults (remote c)))
          /\ 0 < new_id
          /\ forall r : row, r ∈ tail (sheet (remote c)) ->
               isdigit (nth 0 r "") = true ->
               parse_digits 0 (nth 0 r "") < new_id) c.
Proof.
  intros Hlive.
  set (Q := fun (o : outcome Z) (c' : Client) => forall new_id : Z, _).
  assert (Hraise : forall e c', Q (Raise e) c') by (intros e c' z [=]).
  unfold add_transaction. apply wp_try_reraise.
  wp_steps. rewrite Hlive.
  unfold col_values_1. wp_steps.
  apply wp_api; [|apply Hraise].
  wp_steps. simpl sheet.
  set (ids := tail (map _ _)).
  assert (Hids : forall r : row, r ∈ tail (sheet (remote c)) ->
                                 nth 0 r "" ∈ ids).
  { intros r Hr. unfold ids. destruct (sheet (remote c)) as [|h rows];
      [set_solver|].
    simpl in *. apply list_elem_of_fmap. by exists r. }
  assert (Hafter : forall new_id : Z,
    0 < new_id ->
    (forall s, s ∈ ids -> isdigit s = true -> parse_digits 0 s < new_id) ->
    wp (r <- lift (new_row new_id (env c) data) ;;
        append_row r ;;;
        with_cache_manager (Cache.invalidate_transaction_cache VNone) ;;;
        ret new_id) Q (after_call c)).
  { intros new_id Hpos Hfresh. wp_steps.
    destruct (new_row new_id (env c) data) as [e|r] eqn:Hrow;
      [apply Hraise|].
    unfold append_row. wp_steps.
    apply wp_api; [|apply Hraise].
    wp_steps. intros new_id0 [= <-]. simpl.
    split; [by exists r|]. repeat split; try done.
    intros r0 Hr0. apply Hfresh. by apply Hids. }
  destruct ids as [|i0 ids'] eqn:Hcol.
  - wp_step. apply Hafter; [lia|set_solver].
  - destruct (max_list _) as [m|] eqn:Hmax; wp_step; [|apply Hraise].
    destruct (next_id_fresh _ _ Hmax) as [Hpos Hfresh]. by apply Hafter.
Qed.

(** What a successful [add_transaction] leaves behind in dummy mode. *)
Lemma add_transaction_appends_dummy (data : dict) (c : Client) :
  dummy_mode c = true ->
  wp (add_transaction data)
     (fun o c' =>
        forall new_id : Z, o = Ret new_id ->
          (exists t : dict,
             new_dummy_transaction new_id (env c) data = inr t
             /\ daily_transactions c' = daily_transactions c ++ [t])
          /\ dummy_mode c' = true
          /\ forall (t : dict) (z : Z), t ∈ daily_transactions c ->
               get t "id" (VInt 0) = VInt z -> z < new_id) c.
Proof.
  intros Hdummy.
  set (Q := fun (o : outcome Z) (c' : Client) => forall new_id : Z, _).
  assert (Hraise : forall e c', Q (Raise e) c') by (intros e c' z [=]).
  unfold add_transaction. apply wp_try_reraise.
  wp_steps. rewrite Hdummy.
  assert (Hafter : forall new_id : Z,
    (forall (t : dict) (z : Z), t ∈ daily_transactions c ->
       get t "id" (VInt 0) = VInt z -> z < new_id) ->
    wp (transaction <- lift (new_dummy_transaction new_id (env c) data) ;;
        modify (fun c0 => set_daily_transactions
                            (daily_transactions c0 ++ [transaction]) c0) ;;;
        with_cache_manager (Cache.invalidate_transaction_cache VNone) ;;;
        ret new_id) Q c).
  { intros new_id Hfresh. wp_steps.
    destruct (new_dummy_transaction new_id (env c) data) as [e|t] eqn:Ht;
      [apply Hraise|].
    wp_steps. intros new_id0 [= <-]. simpl.
    split; [by exists t|]. by split. }
  wp_step.
  destruct (daily_transactions c) as [|t0 ts] eqn:Hts.
  - wp_step. apply Hafter. set_solver.
  - do 2 wp_step.
    destruct (emap _ _) as [e|ids] eqn:Hemap; [apply Hraise|].
    destruct (max_list ids) as [m|] eqn:Hmax; wp_step; [|apply Hraise].
    apply Hafter. intros t z Ht Hz.
    pose proof (max_list_bound ids m Hmax z
                  (emap_id_number _ ids t z Hemap Ht Hz)).
    lia.
Qed.

(** X9: the identifier that a successful [add_transaction] returns is new.
    In regular mode it is positive and greater than every number in the ID
    column below the header; in dummy mode it is greater than the integer
    identifier of every record held. *)
Theorem add_transaction_fresh_id (data : dict) (c c' : Client) (new_id : Z) :
  add_transaction data c = (Ret new_id, c') ->
  (dummy_mode c = false ->
   0 < new_id
   /\ forall r : row, r ∈ tail (sheet (remote c)) ->
        isdigit (nth 0 r "") = true -> parse_digits 0 (nth 0 r "") < new_id)
  /\ (dummy_mode c = true ->
      forall (t : dict) (z : Z), t ∈ daily_transactions c ->
        get t "id" (VInt 0) = VInt z -> z < new_id).
Proof.
  intros Hrun. split; intros Hmode.
  - pose proof (add_transaction_appends data c Hmode) as Hwp.
    unfold wp in Hwp. rewrite Hrun in Hwp. simpl in Hwp.
    by destruct (Hwp new_id eq_refl) as (_ & _ & _ & _ & _ & Hpos & Hfresh).
  - pose proof (add_transaction_appends_dummy data c Hmode) as Hwp.
    unfold wp in Hwp. rewrite Hrun in Hwp. simpl in Hwp.
    by destruct (Hwp new_id eq_refl) as (_ & _ & Hfresh).
Qed.

Lemma add_transaction_fresh_id_witness :
  0 < 4
  /\ forall r : row, r ∈ tail (sheet (remote Fixtures.three_client)) ->
       isdigit (nth 0 r "") = true -> parse_digits 0 (nth 0 r "") < 4.
Proof.
  apply (proj1 (add_transaction_fresh_id Fixtures.data_with_hash
                  Fixtures.three_client _ 4
                  (pair_run _ _ eq_refl)) eq_refl).
Defined.

(** *** Reading the new row back *)

Lemma find_row_fresh (x : string) (col : list string) :
  (forall s, s ∈ col -> s <> x) ->
  find_row x (col ++ [x]) = Some (length col).
Proof.
  unfold find_row. induction col as [|y col IH]; intros Hfresh; simpl.
  - by rewrite decide_True.
  - rewrite decide_False by (apply Hfresh; by left).
    specialize (IH (fun s Hs => Hfresh s (list_elem_of_further _ _ _ Hs))).
    destruct (list_find _ (col ++ [x])) as [[i v]|]; [|done].
    simpl in *. by injection IH as ->.
Qed.

(** The text of a new identifier is in no earlier cell of the ID column. *)
Lemma new_id_not_in_column (c : Client) (new_id : Z) :
  has_header c -> 0 < new_id ->
  (forall r : row, r ∈ tail (sheet (remote c)) ->
     isdigit (nth 0 r "") = true -> parse_digits 0 (nth 0 r "") < new_id) ->
  forall s, s ∈ map (fun r : row => nth 0 r "") (sheet (remote c)) ->
            s <> pretty new_id.
Proof.
  intros (h & rows & Hsheet & Hh) Hpos Hfresh s Hs ->.
  destruct (pretty_Z_reads_back new_id) as [Hd Hp]; [lia|].
  rewrite Hsheet in Hs, Hfresh. simpl in Hs, Hfresh.
  apply elem_of_cons in Hs as [Hs|Hs].
  - rewrite <- Hs in Hh. congruence.
  - apply list_elem_of_fmap in Hs as (r & Hr & Hin).
    rewrite Hr in Hd, Hp. specialize (Hfresh r Hin Hd). lia.
Qed.

(** The body of [get_transaction] on a healthy backend: the record made of
    the first row that carries the identifier. *)
Lemma get_transaction_func_reads (transaction_id : value) (i : nat)
    (old : row) (t : dict) (c : Client) :
  dummy_mode c = false -> healthy c ->
  find_row (str transaction_id)
           (map (fun r : row => nth 0 r "") (sheet (remote c))) = Some i ->
  sheet (remote c) !! i = Some old ->
  transaction_of_row_data old = inr t ->
  (get_transaction_func [transaction_id] [] c).1 = Ret (RDict t).
Proof.
  intros Hlive Hhealthy Hfind Hold Ht.
  change (wp (get_transaction_func [transaction_id] [])
            (fun o _ => o = Ret (RDict t)) c).
  unfold get_transaction_func.
  change (param 0 "transaction_id" VNone [transaction_id] [])
    with transaction_id.
  apply wp_try_default.
  wp_steps. rewrite Hlive. unfold col_values_1. wp_steps.
  apply wp_api_healthy; [exact Hhealthy|].
  wp_steps. simpl sheet. rewrite Hfind.
  unfold row_values. wp_steps.
  apply wp_api_healthy; [by apply after_call_healthy|].
  wp_steps. simpl sheet. rewrite Nat.sub_succ, Nat.sub_0_r.
  rewrite (nth_lookup_Some _ _ [] _ Hold), Ht. by wp_steps.
Qed.

(** The decorated [get_transaction] when the cache holds nothing for the
    identifier. *)
Lemma get_transaction_reads (transaction_id : value) (i : nat) (old : row)
    (t : dict) (c : Client) :
  dummy_mode c = false -> healthy c ->
  find_row (str transaction_id)
           (map (fun r : row => nth 0 r "") (sheet (remote c))) = Some i ->
  sheet (remote c) !! i = Some old ->
  transaction_of_row_data old = inr t ->
  Cache.cache (cache_manager c) !! ("get_transaction:" +:+ str transaction_id)
  = None ->
  (get_transaction [transaction_id] [] c).1 = Ret (RDict t).
Proof.
  intros Hlive Hhealthy Hfind Hold Ht Hcache.
  destruct (DEBUG (env c)) eqn:Hdebug.
  - unfold get_transaction, cache_result, bind, self. simpl.
    rewrite Hlive, Hdebug. simpl.
    by apply (get_transaction_func_reads transaction_id i old).
  - unfold get_transaction. rewrite cache_result_unfold by assumption.
    rewrite get_transaction_key.
    destruct (cache_get_absent _ (now (env c)) _ Hcache) as [Hmiss _].
    destruct (Cache.get _ _ _) as [o cm]. simpl in Hmiss. subst o.
    pose proof (get_transaction_func_reads transaction_id i old t
                  (set_cache_manager cm c) Hlive Hhealthy Hfind Hold Ht) as Hf.
    destruct (get_transaction_func _ _ _) as [o c']. simpl in Hf. subst o.
    done.
Qed.

(** The record that [get_transaction] makes of a new row. *)
Lemma transaction_of_new_row (new_id : Z) (e : Env) (data : dict)
    (r : list value) :
  new_row new_id e data = inr r ->
  exists amount method commission rate : value,
    data !! "amount" = Some amount /\ data !! "method" = Some method
    /\ data !! "commission" = Some commission /\ data !! "rate" = Some rate
    /\ transaction_of_row_data (map cell_text r)
       = inr (record_of_new_row new_id e data amount method commission
                                rate).
Proof.
  unfold new_row, ebind, esubscript. intros H.
  destruct (data !! "amount") as [amount|]; [|discriminate].
  destruct (data !! "method") as [method|]; [|discriminate].
  destruct (data !! "commission") as [commission|]; [|discriminate].
  destruct (data !! "rate") as [rate|]; [|discriminate].
  injection H as <-.
  exists amount, method, commission, rate. repeat split.
  unfold transaction_of_row_data, ebind, eitem, int_. simpl.
  by rewrite int_of_string_pretty.
Qed.

(** X10: in regular mode on a healthy backend whose worksheet has its header
    row, a transaction that [add_transaction] has added is found by
    [get_transaction] under the identifier returned, whatever the cache held
    before: the record carries that identifier, the time of the call, the
    cell texts of the data given, the not-paid status and an empty hash. *)
Theorem add_transaction_then_get_transaction (data : dict) (c c1 : Client)
    (new_id : Z) :
  dummy_mode c = false -> healthy c -> has_header c ->
  add_transaction data c = (Ret new_id, c1) ->
  exists amount method commission rate : value,
    data !! "amount" = Some amount /\ data !! "method" = Some method
    /\ data !! "commission" = Some commission /\ data !! "rate" = Some rate
    /\ (get_transaction [VInt new_id] [] c1).1
       = Ret (RDict
                (record_of_new_row new_id (env c) data amount method
                                   commission rate)).
Proof.
  intros Hlive Hhealthy Hheader Hrun.
  pose proof (add_transaction_appends data c Hlive) as Hwp.
  unfold wp in Hwp. rewrite Hrun in Hwp. simpl in Hwp.
  destruct (Hwp new_id eq_refl)
    as ((r & Hrow & Hsheet) & Hcm & Henv & Hlive1 & Hfaults & Hpos & Hfresh).
  destruct (transaction_of_new_row new_id (env c) data r Hrow)
    as (amount & method & commission & rate & Ha & Hm & Hc & Hr & Ht).
  exists amount, method, commission, rate. repeat (split; [done|]).
  assert (H0 : nth 0 (map cell_text r) "" = pretty new_id).
  { apply new_row_cells in Hrow as (H0 & _ & _).
    by apply nth_lookup_Some with (d := "") in H0. }
  apply (get_transaction_reads (VInt new_id) (length (sheet (remote c)))
           (map cell_text r)).
  - exact Hlive1.
  - unfold healthy in *. by rewrite Hfaults, Hhealthy.
  - rewrite Hsheet, map_app. simpl map. rewrite H0.
    rewrite <- (length_map (fun r0 : row => nth 0 r0 "")).
    apply find_row_fresh. by apply new_id_not_in_column.
  - rewrite Hsheet. by apply list_lookup_middle.
  - exact Ht.
  - rewrite Hcm. apply invalidated_get_transaction.
Qed.

Lemma add_transaction_then_get_transaction_witness :
  match (get_transaction [VInt 4] []
           (add_transaction Fixtures.data_with_hash Fixtures.three_client).2).1
  with
  | Ret (RDict t) =>
      t !! "id" = Some (VInt 4) /\ t !! "amount" = Some (VStr "1000")
      /\ t !! "status" = Some (VStr STATUS_UNPAID)
  | _ => False
  end.
Proof.
  destruct (add_transaction_then_get_transaction Fixtures.data_with_hash
              Fixtures.three_client
              (add_transaction Fixtures.data_with_hash
                               Fixtures.three_client).2
              4 eq_refl eq_refl)
    as (amount & method & commission & rate & Ha & Hm & Hc & Hr & Hget).
  - exists Fixtures.headers, Fixtures.three_rows. by split.
  - apply pair_run. vm_compute. reflexivity.
  - rewrite Hget. injection Ha as <-. by vm_compute.
Defined.

(** *** The new row in the list of all transactions *)

(** Without a date, the loop of [get_all_transactions] keeps every row of at
    least seven cells. *)
Lemma transactions_of_rows_all (rows : list row) :
  transactions_of_rows VNone rows
  = inr (map transaction_of_row
           (List.filter (fun r : row => negb (length r <? 7)%nat) rows)).
Proof.
  induction rows as [|r rows IH]; [done|]. simpl.
  destruct (length r <? 7)%nat; [exact IH|]. by rewrite IH.
Qed.

(** The body of [get_all_transactions] without arguments on a healthy
    backend. *)
Lemma get_all_transactions_func_reads (c : Client) :
  dummy_mode c = false -> healthy c ->
  (get_all_transactions_func [] [] c).1
  = Ret (RList (map transaction_of_row
                  (List.filter (fun r : row => negb (length r <? 7)%nat)
                               (tail (sheet (remote c)))))).
Proof.
  intros Hlive Hhealthy.
  change (wp (get_all_transactions_func [] [])
            (fun o _ => o = Ret (RList (map transaction_of_row
                  (List.filter (fun r : row => negb (length r <? 7)%nat)
                               (tail (sheet (remote c))))))) c).
  unfold get_all_transactions_func.
  change (param 0 "date" VNone [] []) with VNone.
  change (param 1 "force_refresh" (VBool false) [] []) with (VBool false).
  cbn [truthy]. do 2 wp_step. apply wp_try_default.
  wp_steps. rewrite Hlive. unfold get_all_values. wp_steps.
  apply wp_api_healthy; [exact Hhealthy|].
  wp_steps. simpl sheet. rewrite transactions_of_rows_all. by wp_steps.
Qed.

Lemma transaction_of_new_row_listed (new_id : Z) (e : Env) (data : dict)
    (r : list value) :
  0 < new_id ->
  new_row new_id e data = inr r ->
  exists amount method commission rate : value,
    data !! "amount" = Some amount /\ data !! "method" = Some method
    /\ data !! "commission" = Some commission /\ data !! "rate" = Some rate
    /\ (length (map cell_text r) <? 7)%nat = false
    /\ transaction_of_row (map cell_text r)
       = record_of_new_row new_id e data amount method commission rate.
Proof.
  unfold new_row, ebind, esubscript. intros Hpos H.
  destruct (data !! "amount") as [amount|]; [|discriminate].
  destruct (data !! "method") as [method|]; [|discriminate].
  destruct (data !! "commission") as [commission|]; [|discriminate].
  destruct (data !! "rate") as [rate|]; [|discriminate].
  injection H as <-.
  exists amount, method, commission, rate. repeat split.
  unfold transaction_of_row, record_of_new_row. simpl.
  destruct (pretty_Z_reads_back new_id) as [-> ->]; [lia|done].
Qed.

(** X11: in regular mode on a healthy backend whose worksheet is not empty,
    the list that [get_all_transactions()] returns after a successful
    [add_transaction] is the list of the rows held before followed by the
    record of the new transaction, whatever the cache held before. *)
Theorem add_transaction_then_get_all_transactions (data : dict)
    (c c1 : Client) (new_id : Z) :
  dummy_mode c = false -> healthy c -> sheet (remote c) <> [] ->
  add_transaction data c = (Ret new_id, c1) ->
  exists (amount method commission rate : value) (before : list dict),
    data !! "amount" = Some amount /\ data !! "method" = Some method
    /\ data !! "commission" = Some commission /\ data !! "rate" = Some rate
    /\ transactions_of_rows VNone (tail (sheet (remote c))) = inr before
    /\ (get_all_transactions [] [] c1).1
       = Ret (RList (before
                     ++ [record_of_new_row new_id (env c) data amount method
                                           commission rate])).
Proof.
  intros Hlive Hhealthy Hsheet0 Hrun.
  pose proof (add_transaction_appends data c Hlive) as Hwp.
  unfold wp in Hwp. rewrite Hrun in Hwp. simpl in Hwp.
  destruct (Hwp new_id eq_refl)
    as ((r & Hrow & Hsheet) & Hcm & Henv & Hlive1 & Hfaults & Hpos & Hfresh).
  destruct (transaction_of_new_row_listed new_id (env c) data r Hpos Hrow)
    as (amount & method & commission & rate & Ha & Hm & Hc & Hr & Hlen & Ht).
  exists amount, method, commission, rate. eexists.
  repeat (split; [done|]).
  split; [apply transactions_of_rows_all|].
  assert (Hhealthy1 : healthy c1).
  { unfold healthy in *. by rewrite Hfaults, Hhealthy. }
  assert (Hresult : forall cm : Cache.CacheManager result,
    (get_all_transactions_func [] [] (set_cache_manager cm c1)).1
    = Ret (RList
             (map transaction_of_row
                (List.filter (fun r0 : row => negb (length r0 <? 7)%nat)
                             (tail (sheet (remote c))))
              ++ [record_of_new_row new_id (env c) data amount method
                                    commission rate]))).
  { intros cm.
    rewrite get_all_transactions_func_reads by done.
    simpl sheet. rewrite Hsheet.
    destruct (sheet (remote c)) as [|h rows]; [done|]. simpl tail.
    by rewrite List.filter_app, map_app; simpl; rewrite Hlen; simpl;
      rewrite Ht. }
  destruct (DEBUG (env c1)) eqn:Hdebug.
  - unfold get_all_transactions, cache_result, bind, self. simpl.
    rewrite Hlive1, Hdebug. simpl.
    specialize (Hresult (cache_manager c1)). by destruct c1.
  - unfold get_all_transactions. rewrite cache_result_unfold by assumption.
    change (cache_key _ _ [] []) with "get_all_transactions".
    assert (Habsent : Cache.cache (cache_manager c1) !! "get_all_transactions"
                      = None).
    { rewrite Hcm. rewrite <- (append_empty_r "get_all_transactions").
      apply invalidated_get_all_transactions. }
    destruct (cache_get_absent _ (now (env c1)) _ Habsent) as [Hmiss _].
    destruct (Cache.get _ _ _) as [o cm]. simpl in Hmiss. subst o.
    specialize (Hresult cm).
    destruct (get_all_transactions_func _ _ _) as [o c']. simpl in Hresult.
    by subst o.
Qed.

Lemma add_transaction_then_get_all_transactions_witness :
  match (get_all_transactions [] []
           (add_transaction Fixtures.data_with_hash Fixtures.three_client).2).1
  with
  | Ret (RList l) =>
      (fun t : dict => t !! "id") <$> l
      = [Some (VInt 1); Some (VInt 2); Some (VInt 3); Some (VInt 4)]
  | _ => False
  end.
Proof.
  destruct (add_transaction_then_get_all_transactions Fixtures.data_with_hash
              Fixtures.three_client
              (add_transaction Fixtures.data_with_hash
                               Fixtures.three_client).2
              4 eq_refl eq_refl)
    as (amount & method & commission & rate & before
        & Ha & Hm & Hc & Hr & Hbefore & Hget).
  - discriminate.
  - apply pair_run. vm_compute. reflexivity.
  - rewrite Hget. injection Hbefore as <-. by vm_compute.
Defined.

(** *** The same in dummy mode *)

Lemma find_in_memory_fresh (new_id : Z) (l : list dict) (t : dict) :
  ids_are_ints l ->
  (forall (t0 : dict) (z : Z), t0 ∈ l -> get t0 "id" (VInt 0) = VInt z ->
     z < new_id) ->
  t !! "id" = Some (VInt new_id) ->
  find_in_memory (VInt new_id) (l ++ [t]) = inr (Some t).
Proof.
  intros Hints Hfresh Ht. induction l as [|t0 l IH]; simpl.
  - unfold esubscript, ebind. rewrite Ht. simpl. by rewrite Z.eqb_refl.
  - apply Forall_cons in Hints as [[z Hz] Hints].
    unfold esubscript, ebind. rewrite Hz. simpl.
    assert (z < new_id).
    { apply (Hfresh t0); [by left|]. unfold get. by rewrite Hz. }
    rewrite (proj2 (Z.eqb_neq new_id z)) by lia.
    apply IH; [done|]. intros t1 z1 Ht1. apply Hfresh. by right.
Qed.

(** X12: in dummy mode, when every record held carries an integer
    identifier, a transaction that [add_transaction] has added is returned by
    [get_transaction] under the identifier returned: the record holds that
    identifier, the entries of the data given, the not-paid status and an
    empty hash; and the records held still all carry integer identifiers. *)
Theorem add_transaction_then_get_transaction_dummy (data : dict)
    (c c1 : Client) (new_id : Z) :
  dummy_mode c = true -> ids_are_ints (daily_transactions c) ->
  add_transaction data c = (Ret new_id, c1) ->
  exists t : dict,
    get_transaction [VInt new_id] [] c1 = (Ret (RDict t), c1)
    /\ t !! "id" = Some (VInt new_id)
    /\ t !! "amount" = data !! "amount" /\ t !! "method" = data !! "method"
    /\ t !! "commission" = data !! "commission"
    /\ t !! "rate" = data !! "rate"
    /\ t !! "status" = Some (VStr STATUS_UNPAID)
    /\ t !! "hash" = Some (VStr "")
    /\ ids_are_ints (daily_transactions c1).
Proof.
  intros Hdummy Hints Hrun.
  pose proof (add_transaction_appends_dummy data c Hdummy) as Hwp.
  unfold wp in Hwp. rewrite Hrun in Hwp. simpl in Hwp.
  destruct (Hwp new_id eq_refl) as ((t & Ht & Hlist) & Hdummy1 & Hfresh).
  exists t.
  assert (Hfields : t !! "id" = Some (VInt new_id)
            /\ t !! "amount" = data !! "amount"
            /\ t !! "method" = data !! "method"
            /\ t !! "commission" = data !! "commission"
            /\ t !! "rate" = data !! "rate"
            /\ t !! "status" = Some (VStr STATUS_UNPAID)
            /\ t !! "hash" = Some (VStr "")).
  { revert Ht. unfold new_dummy_transaction, ebind, esubscript.
    destruct (data !! "amount"); [|discriminate].
    destruct (data !! "method"); [|discriminate].
    destruct (data !! "commission"); [|discriminate].
    destruct (data !! "rate"); [|discriminate].
    by intros [= <-]. }
  destruct Hfields as (Hid & Ha & Hm & Hc & Hr & Hs & Hh).
  split; [|repeat (split; [done|])].
  - unfold get_transaction, cache_result, bind, self. simpl.
    rewrite Hdummy1.
    unfold get_transaction_func, try_except, bind, self. simpl.
    rewrite Hdummy1, Hlist.
    change (param 0 "transaction_id" VNone [VInt new_id] [])
      with (VInt new_id).
    by rewrite (find_in_memory_fresh new_id _ t Hints Hfresh Hid).
  - rewrite Hlist. apply Forall_app. split; [done|].
    apply Forall_singleton. by exists new_id.
Qed.

Lemma add_transaction_then_get_transaction_dummy_witness :
  match (get_transaction [VInt 2] []
           (add_transaction Fixtures.data_with_hash Fixtures.dummy_client).2).1
  with
  | Ret (RDict t) =>
      t !! "id" = Some (VInt 2) /\ t !! "amount" = Some (VInt 1000)
  | _ => False
  end.
Proof.
  destruct (add_transaction_then_get_transaction_dummy
              Fixtures.data_with_hash Fixtures.dummy_client
              (add_transaction Fixtures.data_with_hash
                               Fixtures.dummy_client).2
              2 eq_refl)
    as (t & Hget & Hid & Hamount & _).
  - apply Forall_singleton. by exists 1.
  - apply pair_run. vm_compute. reflexivity.
  - rewrite Hget. simpl. by rewrite Hid, Hamount.
Defined.

End AddAndRead.

(** ** Setting the day status and asking for it *)

Section DayRoundTrip.

Import Sheets Spec Fixtures.

(** *** The stable sort *)

Lemma insert_by_last {A : Type} (key : A -> string) (x : A) (l : list A) :
  (forall y, y ∈ l -> String.ltb (key x) (key y) = false) ->
  insert_by key x l = l ++ [x].
Proof.
  induction l as [|y l IH]; intros Hl; [done|]. simpl.
  rewrite (Hl y) by (by left). rewrite IH; [done|].
  intros z Hz. apply Hl. by right.
Qed.

Lemma insert_by_elem_of {A : Type} (key : A -> string) (x y : A)
    (l : list A) :
  y ∈ insert_by key x l -> y = x \/ y ∈ l.
Proof.
  induction l as [|z l IH]; simpl.
  - intros ->%list_elem_of_singleton. by left.
  - destruct (String.ltb _ _).
    + intros [->|H]%elem_of_cons; [by left|by right].
    + intros [->|H]%elem_of_cons; [right; by left|].
      destruct (IH H) as [->|Hin]; [by left|right; by right].
Qed.

Lemma fold_insert_by_elem_of {A : Type} (key : A -> string) (y : A)
    (l acc : list A) :
  y ∈ fold_left (fun acc x => insert_by key x acc) l acc ->
  y ∈ l \/ y ∈ acc.
Proof.
  revert acc. induction l as [|x l IH]; intros acc; simpl; [by right|].
  intros [Hl|Hacc]%IH; [left; by right|].
  destruct (insert_by_elem_of key x y acc Hacc) as [->|Hin];
    [left; by left|by right].
Qed.

(** An element that comes last and whose key no other key exceeds is the
    last element after sorting. *)
Lemma sort_by_last {A : Type} (key : A -> string) (x : A) (l : list A) :
  (forall y, y ∈ l -> String.ltb (key x) (key y) = false) ->
  exists sorted : list A, sort_by key (l ++ [x]) = sorted ++ [x].
Proof.
  intros Hl. unfold sort_by. rewrite fold_left_app. simpl.
  eexists. apply insert_by_last.
  intros y [Hy|Hy]%fold_insert_by_elem_of; [by apply Hl|set_solver].
Qed.

(** *** Opening an auxiliary worksheet on a healthy backend *)

Lemma healthy_after_call (c : Client) : healthy c -> healthy (after_call c).
Proof. apply after_call_healthy. Qed.

(** The worksheet is there: two API calls. *)
Lemma open_existing {A : Type} (w : aux_sheet) (rows : list row) (a : A)
    (handler : exn -> M A) (Q : outcome A -> Client -> Prop) (c : Client) :
  healthy c ->
  aux_rows w (remote c) = Some rows ->
  Q (Ret a) (after_call (after_call c)) ->
  wp (try_except (open_by_key ;;; worksheet w ;;; ret a)
                 is_WorksheetNotFound handler) Q c.
Proof.
  intros Hhealthy Hrows HQ.
  apply wp_try_except. unfold open_by_key, worksheet.
  wp_steps. apply wp_api_healthy; [done|].
  wp_steps. apply wp_api_healthy; [by apply healthy_after_call|].
  wp_steps.
  assert (aux_rows w (remote (after_call (after_call c))) = Some rows) as ->
    by (destruct w; exact Hrows).
  by wp_steps.
Qed.

(** The worksheet is opened, or created with its header row. *)
Lemma ensure_aux (w : aux_sheet) (Q : outcome unit -> Client -> Prop)
    (c : Client) :
  healthy c ->
  (forall c' : Client,
     healthy c' -> env c' = env c -> dummy_mode c' = dummy_mode c ->
     cache_manager c' = cache_manager c ->
     aux_rows w (remote c') = Some (opened_rows w c) ->
     Q (Ret tt) c') ->
  wp (try_except (open_by_key ;;; worksheet w)
                 is_WorksheetNotFound
                 (fun _ => create_aux w)) Q c.
Proof.
  intros Hhealthy HQ.
  apply wp_try_except. unfold open_by_key, worksheet.
  wp_steps. apply wp_api_healthy; [done|].
  wp_steps. apply wp_api_healthy; [by apply healthy_after_call|].
  wp_steps.
  destruct (aux_rows w (remote (after_call (after_call c)))) as [rows|]
    eqn:Hrows.
  - wp_steps. apply HQ; try done.
    + by do 2 apply healthy_after_call.
    + unfold opened_rows.
      assert (aux_rows w (remote c) = Some rows) as ->
        by (destruct w; exact Hrows).
      by destruct w.
  - wp_steps. simpl.
    unfold create_aux, open_by_key, add_worksheet, aux_update_row.
    wp_steps. apply wp_api_healthy; [by do 2 apply healthy_after_call|].
    wp_steps. apply wp_api_healthy; [by do 3 apply healthy_after_call|].
    wp_steps. apply wp_api_healthy.
    { unfold healthy in *. destruct w; simpl; by rewrite Hhealthy. }
    wp_steps. apply HQ.
    + unfold healthy in *. destruct w; simpl; by rewrite Hhealthy.
    + by destruct w.
    + by destruct w.
    + by destruct w.
    + unfold opened_rows.
      assert (aux_rows w (remote c) = None) as ->
        by (destruct w; exact Hrows).
      by destruct w.
Qed.

(** [set_day_status] on a healthy backend. *)
Lemma set_day_status_healthy (is_open : bool) (chat_id : Z) (c : Client) :
  dummy_mode c = false -> healthy c ->
  wp (set_day_status is_open (VInt chat_id))
     (fun o c' =>
        o = Ret true /\ healthy c' /\ env c' = env c
        /\ dummy_mode c' = false
        /\ ws_DayStatus (remote c')
           = Some (opened_rows DayStatus c
                   ++ [status_row is_open chat_id (env c)])
        /\ Cache.cache (cache_manager c')
             !! ("is_day_open:" +:+ pretty chat_id) = None) c.
Proof.
  intros Hlive Hhealthy. unfold set_day_status. apply wp_try_default.
  wp_steps. rewrite Hlive. wp_step.
  apply ensure_aux; [done|].
  intros c1 Hhealthy1 Henv1 Hmode1 Hcm1 Hrows1.
  unfold aux_append_row. wp_steps.
  apply wp_api_healthy; [done|].
  wp_steps. simpl.
  repeat split; try done.
  - unfold healthy in *. simpl. by rewrite Hhealthy1.
  - congruence.
  - unfold aux_current. simpl in Hrows1. simpl. rewrite Hrows1. simpl.
    unfold status_row. by destruct is_open.
  - apply invalidate_lookup.
Qed.

(** The chat branch of [is_day_open] when the newest row of the chat is the
    last one of the worksheet. *)
Lemma chat_day_open_latest (is_open : bool) (chat_id : Z) (e : Env)
    (data_rows : list row) :
  (forall r : row, r ∈ data_rows -> row_is_for (pretty chat_id) r = true ->
     String.ltb (clock e) (cell r 2) = false) ->
  chat_day_open (today e) (VInt chat_id)
                (data_rows ++ [status_row is_open chat_id e])
  = inr is_open.
Proof.
  intros Hearlier. unfold chat_day_open.
  change (str (VInt chat_id)) with (pretty chat_id).
  rewrite List.filter_app.
  assert (Hnew : List.filter (row_is_for (pretty chat_id))
                   [status_row is_open chat_id e]
                 = [status_row is_open chat_id e]).
  { simpl. unfold row_is_for. simpl. by rewrite String.eqb_refl. }
  rewrite Hnew.
  set (F := List.filter (row_is_for (pretty chat_id)) data_rows).
  destruct (sort_by_last (fun r : row => cell r 2)
              (status_row is_open chat_id e) F) as [sorted Hsorted].
  { intros y Hy. apply list_elem_of_In, filter_In in Hy as [Hy Hfor].
    apply Hearlier; [by apply list_elem_of_In|done]. }
  destruct (F ++ [status_row is_open chat_id e]) as [|r0 l0] eqn:Hne.
  { by destruct F. }
  rewrite Hsorted. unfold ebind, eitem.
  rewrite length_app. simpl length.
  replace (length sorted + 1 - 1)%nat with (length sorted) by lia.
  rewrite list_lookup_middle by done. simpl.
  rewrite String.eqb_refl. by destruct is_open.
Qed.

(** The body of [is_day_open] on a healthy backend, for a chat whose newest
    status row is the last row of the worksheet. *)
Lemma is_day_open_func_latest (is_open : bool) (chat_id : Z)
    (rows : list row) (c : Client) :
  dummy_mode c = false -> healthy c ->
  rows <> [] ->
  ws_DayStatus (remote c)
  = Some (rows ++ [status_row is_open chat_id (env c)]) ->
  (forall r : row, r ∈ tail rows -> row_is_for (pretty chat_id) r = true ->
     String.ltb (clock (env c)) (cell r 2) = false) ->
  (is_day_open_func [VInt chat_id] [] c).1 = Ret (RVal (VBool is_open)).
Proof.
  intros Hlive Hhealthy Hne Hws Hearlier.
  change (wp (is_day_open_func [VInt chat_id] [])
            (fun o _ => o = Ret (RVal (VBool is_open))) c).
  unfold is_day_open_func.
  change (param 0 "chat_id" VNone [VInt chat_id] []) with (VInt chat_id).
  apply wp_try_default.
  wp_steps. rewrite Hlive. wp_step.
  apply (open_existing DayStatus
           (rows ++ [status_row is_open chat_id (env c)]) true);
    [done|exact Hws|].
  simpl negb. cbv iota.
  unfold aux_get_all_values. wp_steps.
  apply wp_api_healthy; [by do 2 apply healthy_after_call|].
  wp_steps. unfold aux_current. simpl. rewrite Hws. simpl.
  destruct rows as [|h rows]; [done|]. simpl.
  rewrite length_app. simpl.
  replace (length rows + 1 <=? 0)%nat with false
    by (symmetry; apply Nat.leb_gt; lia).
  rewrite chat_day_open_latest by exact Hearlier.
  by wp_steps.
Qed.

(** X13: opening or closing the day of a chat is what [is_day_open] then
    reports for the chat. In regular mode this holds on a healthy backend
    when the status worksheet, if it exists, has its header row and holds no
    row of the chat with a time of day later than the present one; in dummy
    mode it holds always. *)
Theorem set_day_status_then_is_day_open (is_open : bool) (chat_id : Z)
    (c : Client) :
  let out := set_day_status is_open (VInt chat_id) c in
  (dummy_mode c = false -> healthy c -> status_sheet_ready chat_id c ->
   out.1 = Ret true
   /\ (is_day_open [VInt chat_id] [] out.2).1 = Ret (RVal (VBool is_open)))
  /\ (dummy_mode c = true ->
      out.1 = Ret true
      /\ (is_day_open [VInt chat_id] [] out.2).1
         = Ret (RVal (VBool is_open))).
Proof.
  intros out. split.
  - intros Hlive Hhealthy Hready.
    pose proof (set_day_status_healthy is_open chat_id c Hlive Hhealthy)
      as Hset.
    unfold wp in Hset. fold out in Hset.
    destruct Hset as (Hret & Hhealthy1 & Henv1 & Hlive1 & Hws1 & Hcache1).
    split; [exact Hret|].
    assert (Hrows : opened_rows DayStatus c <> []
              /\ forall r : row, r ∈ tail (opened_rows DayStatus c) ->
                   row_is_for (pretty chat_id) r = true ->
                   String.ltb (clock (env c)) (cell r 2) = false).
    { unfold opened_rows. simpl.
      destruct (ws_DayStatus (remote c)) as [rows|] eqn:Hws.
      - by apply Hready.
      - split; [done|]. simpl. set_solver. }
    destruct Hrows as [Hne Hearlier].
    assert (Hfunc : forall cm : Cache.CacheManager result,
      (is_day_open_func [VInt chat_id] [] (set_cache_manager cm out.2)).1
      = Ret (RVal (VBool is_open))).
    { intros cm.
      apply (is_day_open_func_latest is_open chat_id
               (opened_rows DayStatus c)); try done.
      - simpl. by rewrite Henv1.
      - simpl. by rewrite Henv1. }
    destruct (DEBUG (env out.2)) eqn:Hdebug.
    + unfold is_day_open, cache_result, bind, self. simpl.
      rewrite Hlive1, Hdebug. simpl.
      specialize (Hfunc (cache_manager out.2)). by destruct (out.2).
    + unfold is_day_open. rewrite cache_result_unfold by assumption.
      rewrite is_day_open_key.
      destruct (cache_get_absent _ (now (env out.2)) _ Hcache1) as [Hmiss _].
      destruct (Cache.get _ _ _) as [o cm]. simpl in Hmiss. subst o.
      specialize (Hfunc cm).
      destruct (is_day_open_func _ _ _) as [o c']. simpl in Hfunc.
      by subst o.
  - intros Hdummy. unfold out.
    unfold set_day_status, try_except, bind, self, modify,
      with_cache_manager, modify, ret. simpl. rewrite Hdummy. simpl.
    split; [done|].
    unfold is_day_open, cache_result, bind, self. simpl. rewrite Hdummy.
    unfold is_day_open_func, try_except, bind, self. simpl.
    by rewrite Hdummy.
Qed.

Lemma set_day_status_then_is_day_open_witness :
  (is_day_open [VInt (-5)] []
     (set_day_status true (VInt (-5)) Fixtures.three_client).2).1
  = Ret (RVal (VBool true))
  /\ (is_day_open [VInt (-5)] []
        (set_day_status false (VInt (-5)) Fixtures.dummy_client).2).1
     = Ret (RVal (VBool false)).
Proof.
  split.
  - apply (proj1 (set_day_status_then_is_day_open true (-5)
                    Fixtures.three_client) eq_refl eq_refl).
    intros rows [=].
  - by apply (proj2 (set_day_status_then_is_day_open false (-5)
                       Fixtures.dummy_client) eq_refl).
Defined.

(** The time of day is compared without the date: after a status row of an
    earlier day that carries a later time of day, opening the day of the
    chat is not what [is_day_open] reports. *)
Example set_day_status_after_later_time :
  let c := live (remote_with [] None
                   (Some [ ["Дата"; "Статус"; "Время"; "chat_id"];
                           ["02.11.2026"; "Закрыт"; "23:00:00"; "-5"] ])) in
  let out := set_day_status true (VInt (-5)) c in
  out.1 = Ret true
  /\ (is_day_open [VInt (-5)] [] out.2).1 = Ret (RVal (VBool false)).
Proof. by vm_compute. Qed.

End DayRoundTrip.

(** ** Saving the day settings and reading them back *)

Section SettingsRoundTrip.

Import Sheets Spec Fixtures.

Lemma list_find_filter_first {A : Type} (f : A -> bool) (l : list A)
    (i : nat) (x new : A) :
  list_find (fun y => f y = true) l = Some (i, x) ->
  (length (List.filter f l) <= 1)%nat ->
  f new = true ->
  List.filter f (<[i := new]> l) = [new].
Proof.
  revert i. induction l as [|y l IH]; intros i Hfind Hlen Hnew; [done|].
  simpl in Hfind, Hlen. destruct (decide (f y = true)) as [Hy|Hy].
  - injection Hfind as <- <-. rewrite Hy in Hlen. simpl in *.
    rewrite Hnew. f_equal.
    destruct (List.filter f l); [done|simpl in Hlen; lia].
  - destruct (list_find _ l) as [[j z]|] eqn:Hl; [|done].
    simpl in Hfind. injection Hfind as <- <-.
    apply not_true_is_false in Hy. rewrite Hy in Hlen. simpl.
    rewrite Hy. by apply (IH j).
Qed.

Lemma list_find_filter_none {A : Type} (f : A -> bool) (l : list A) :
  list_find (fun y => f y = true) l = None -> List.filter f l = [].
Proof.
  intros Hnone. apply filter_none. intros x Hx.
  apply list_find_None in Hnone.
  apply not_true_is_false. by apply (proj1 (Forall_forall _ _) Hnone).
Qed.

Lemma invalidate_keeps_None {V : Type} (key : option string) (k : string)
    (cm : Cache.CacheManager V) :
  Cache.cache cm !! k = None ->
  Cache.cache (Cache.invalidate key cm) !! k = None.
Proof.
  intros Hk. unfold Cache.invalidate. destruct key as [k0|]; [|done].
  destruct (Cache.cache cm !! k0); [|done]. simpl.
  apply lookup_delete_None. by right.
Qed.

(** The row that [save_day_settings] writes for the chat. *)
Lemma entry_is_for (chat_id : Z) (today : string) (rate commission : value)
    (old : row) :
  row_is_for (pretty chat_id)
    (overwrite (map cell_text [VStr today; rate; commission;
                               VStr (pretty chat_id)]) old) = true.
Proof.
  unfold row_is_for, overwrite. simpl. by rewrite String.eqb_refl.
Qed.

(** [save_day_settings] on a healthy backend leaves exactly one row for the
    chat, which starts with the date, the rate and the commission given. *)
Lemma save_day_settings_healthy (rate commission : value) (chat_id : Z)
    (c : Client) :
  dummy_mode c = false -> healthy c -> settings_sheet_ready chat_id c ->
  wp (save_day_settings rate commission (VInt chat_id))
     (fun o c' =>
        o = Ret true /\ healthy c' /\ env c' = env c
        /\ dummy_mode c' = false
        /\ (exists (h : row) (data_rows : list row) (old : row),
              ws_DaySettings (remote c') = Some (h :: data_rows)
              /\ List.filter (row_is_for (pretty chat_id)) data_rows
                 = [overwrite
                      (map cell_text [VStr (today (env c)); rate; commission;
                                      VStr (pretty chat_id)]) old])
        /\ cache_manager c'
           = Cache.invalidate
               (Some ("get_current_rate:" +:+ pretty chat_id))
               (Cache.invalidate
                  (Some ("get_day_settings:" +:+ pretty chat_id))
                  (cache_manager c))) c.
Proof.
  intros Hlive Hhealthy Hready. unfold save_day_settings.
  apply wp_try_default.
  wp_steps. rewrite Hlive. wp_step.
  apply ensure_aux; [done|].
  intros c1 Hhealthy1 Henv1 Hmode1 Hcm1 Hrows1.
  assert (Hopened : exists (h : row) (t : list row),
            opened_rows DaySettings c = h :: t
            /\ (length (List.filter (row_is_for (pretty chat_id)) t) <= 1)%nat).
  { unfold opened_rows. simpl.
    destruct (ws_DaySettings (remote c)) as [rows|] eqn:Hws.
    - destruct (Hready rows Hws) as [Hne Hone].
      destruct rows as [|h t]; [done|]. by exists h, t.
    - eexists _, []. split; [reflexivity|]. simpl. lia. }
  destruct Hopened as (h & t & Hopened & Hone). rewrite Hopened in Hrows1.
  unfold aux_get_all_values. wp_steps.
  apply wp_api_healthy; [done|].
  wp_steps. unfold aux_current. simpl aux_rows in *. simpl remote.
  simpl ws_DaySettings. rewrite Hrows1. simpl default. simpl tail.
  change (chat_id_text (VInt chat_id)) with (pretty chat_id).
  change (str (VInt chat_id)) with (pretty chat_id).
  destruct (list_find _ t) as [[i r]|] eqn:Hfind.
  - unfold aux_update_row. wp_steps.
    apply wp_api_healthy; [by apply healthy_after_call|].
    wp_steps. simpl.
    split; [done|]. split.
    { unfold healthy in *. simpl. by rewrite Hhealthy1. }
    split; [congruence|]. split; [congruence|]. split.
    + unfold aux_current. simpl. rewrite Hrows1. simpl.
      replace (i + 2 - 1)%nat with (S i) by lia. simpl.
      eexists h, _, _. split; [reflexivity|].
      apply (list_find_filter_first _ _ _ r); [exact Hfind|exact Hone|].
      apply entry_is_for.
    + by rewrite Hcm1.
  - unfold aux_append_row. wp_steps.
    apply wp_api_healthy; [by apply healthy_after_call|].
    wp_steps. simpl.
    split; [done|]. split.
    { unfold healthy in *. simpl. by rewrite Hhealthy1. }
    split; [congruence|]. split; [congruence|]. split.
    + unfold aux_current. simpl. rewrite Hrows1. simpl.
      eexists h, _, []. split; [reflexivity|].
      rewrite List.filter_app, (list_find_filter_none _ _ Hfind). simpl.
      unfold row_is_for. simpl. by rewrite String.eqb_refl.
    + by rewrite Hcm1.
Qed.

(** The cache key of [get_day_settings(chat_id)]. *)
Lemma get_day_settings_key (chat_id : Z) :
  cache_key [Lit "get_day_settings:"; Field 0] "get_day_settings"
            [VInt chat_id] []
  = "get_day_settings:" +:+ pretty chat_id.
Proof.
  unfold cache_key. simpl.
  change (format _ _) with (inr (B := string) (A := exn)
            ("get_day_settings:" +:+ pretty chat_id +:+ "")).
  by rewrite append_empty_r.
Qed.

(** The number that [get_day_settings] reads from a cell text. *)
Lemma setting_number_reads (r : row) (i : nat) (q : Q) :
  (i < length r)%nat ->
  float_of_string (nth i r "") = Some q ->
  setting_number r i = inr (VFloat q).
Proof.
  intros Hi Hq. unfold setting_number.
  apply Nat.ltb_lt in Hi. rewrite Hi.
  destruct (nth i r "") as [|a s] eqn:Htext; [by vm_compute in Hq|].
  simpl. unfold to_float, ebind. by rewrite Hq.
Qed.

(** The body of [get_day_settings] on a healthy backend whose worksheet
    holds exactly one row for the chat. *)
Lemma get_day_settings_func_reads (chat_id : Z) (h : row)
    (data_rows : list row) (r : row) (qr qc : Q) (c : Client) :
  dummy_mode c = false -> healthy c ->
  ws_DaySettings (remote c) = Some (h :: data_rows) ->
  List.filter (row_is_for (pretty chat_id)) data_rows = [r] ->
  (3 <= length r)%nat ->
  float_of_string (nth 1 r "") = Some qr ->
  float_of_string (nth 2 r "") = Some qc ->
  (get_day_settings_func [VInt chat_id] [] c).1
  = Ret (RDict (<["date" := VStr (nth 0 r "")]>
                (<["rate" := VFloat qr]>
                (<["commission_percent" := VFloat qc]> ∅)))).
Proof.
  intros Hlive Hhealthy Hws Hone Hlen Hqr Hqc.
  change (wp (get_day_settings_func [VInt chat_id] [])
            (fun o _ => o = Ret (RDict (<["date" := VStr (nth 0 r "")]>
                (<["rate" := VFloat qr]>
                (<["commission_percent" := VFloat qc]> ∅))))) c).
  unfold get_day_settings_func.
  change (param 0 "chat_id" VNone [VInt chat_id] []) with (VInt chat_id).
  apply wp_try_default.
  wp_steps. rewrite Hlive. wp_step.
  apply (open_existing DaySettings (h :: data_rows) true);
    [done|exact Hws|].
  simpl negb. cbv iota.
  unfold aux_get_all_values. wp_steps.
  apply wp_api_healthy; [by do 2 apply healthy_after_call|].
  wp_steps.
  assert (aux_current DaySettings (after_call (after_call (after_call c)))
          = h :: data_rows) as ->.
  { unfold aux_current. simpl. by rewrite Hws. }
  assert ((length (h :: data_rows) <=? 1)%nat = false) as ->.
  { destruct data_rows; [done|]. done. }
  cbn [tail]. change (str (VInt chat_id)) with (pretty chat_id).
  rewrite Hone. cbn [sort_by fold_left insert_by length Nat.sub].
  unfold item. cbn [lookup list_lookup]. wp_steps.
  unfold settings_of_row, etry, ebind.
  rewrite (setting_number_reads r 1 qr) by (done || lia).
  rewrite (setting_number_reads r 2 qc) by (done || lia).
  replace (0 <? length r)%nat with true by (symmetry; apply Nat.ltb_lt; lia).
  by wp_steps.
Qed.

(** X14: the day settings saved for a chat are the ones [get_day_settings]
    then returns for it: the current date, and the rate and the commission as
    the numbers that the worksheet shows. In regular mode this holds on a
    healthy backend when the settings worksheet, if it exists, has its header
    row and at most one row for the chat, which is then still so. *)
Theorem save_day_settings_then_get_day_settings (rate commission : value)
    (chat_id : Z) (qr qc : Q) (c : Client) :
  dummy_mode c = false -> healthy c -> settings_sheet_ready chat_id c ->
  float_of_string (cell_text rate) = Some qr ->
  float_of_string (cell_text commission) = Some qc ->
  let out := save_day_settings rate commission (VInt chat_id) c in
  out.1 = Ret true
  /\ (get_day_settings [VInt chat_id] [] out.2).1
     = Ret (RDict (<["date" := VStr (today (env c))]>
                   (<["rate" := VFloat qr]>
                   (<["commission_percent" := VFloat qc]> ∅))))
  /\ settings_sheet_ready chat_id out.2.
Proof.
  intros Hlive Hhealthy Hready Hqr Hqc out.
  pose proof (save_day_settings_healthy rate commission chat_id c
                Hlive Hhealthy Hready) as Hsave.
  unfold wp in Hsave. fold out in Hsave.
  destruct Hsave as (Hret & Hhealthy1 & Henv1 & Hlive1
                     & (h & data_rows & old & Hws1 & Hone) & Hcm1).
  split; [exact Hret|]. split.
  - set (r := overwrite _ old) in Hone.
    assert (Hfunc : forall cm : Cache.CacheManager result,
      (get_day_settings_func [VInt chat_id] [] (set_cache_manager cm out.2)).1
      = Ret (RDict (<["date" := VStr (today (env c))]>
                    (<["rate" := VFloat qr]>
                    (<["commission_percent" := VFloat qc]> ∅))))).
    { intros cm.
      by apply (get_day_settings_func_reads chat_id h data_rows r qr qc);
        try done; unfold r, overwrite; simpl; lia. }
    assert (Hcache1 : Cache.cache (cache_manager out.2)
                        !! ("get_day_settings:" +:+ pretty chat_id) = None).
    { rewrite Hcm1. apply invalidate_keeps_None, invalidate_lookup. }
    destruct (DEBUG (env out.2)) eqn:Hdebug.
    + unfold get_day_settings, cache_result, bind, self. simpl.
      rewrite Hlive1, Hdebug. simpl.
      specialize (Hfunc (cache_manager out.2)). by destruct (out.2).
    + unfold get_day_settings. rewrite cache_result_unfold by assumption.
      rewrite get_day_settings_key.
      destruct (cache_get_absent _ (now (env out.2)) _ Hcache1) as [Hmiss _].
      destruct (Cache.get _ _ _) as [o cm]. simpl in Hmiss. subst o.
      specialize (Hfunc cm).
      destruct (get_day_settings_func _ _ _) as [o c']. simpl in Hfunc.
      by subst o.
  - intros rows Hrows. rewrite Hws1 in Hrows. injection Hrows as <-.
    split; [done|]. simpl. rewrite Hone. simpl. lia.
Qed.

Lemma save_day_settings_then_get_day_settings_witness :
  (get_day_settings [VInt (-5)] []
     (save_day_settings (VFloat (185 # 2)) (VInt 5) (VInt (-5))
                        Fixtures.three_client).2).1
  = Ret (RDict (<["date" := VStr "03.11.2026"]>
                (<["rate" := VFloat (185 # 2)]>
                (<["commission_percent" := VFloat 5]> ∅)))).
Proof.
  apply (save_day_settings_then_get_day_settings (VFloat (185 # 2)) (VInt 5)
           (-5) (185 # 2) 5 Fixtures.three_client eq_refl eq_refl).
  - intros rows [= <-]. split; [done|]. simpl. lia.
  - reflexivity.
  - reflexivity.
Defined.

End SettingsRoundTrip.

(** ** The rate after the day settings were saved *)

Section RateAfterSave.

Import Sheets Spec Fixtures.

Lemma invalidate_lookup_ne {V : Type} (k k' : string)
    (cm : Cache.CacheManager V) :
  k <> k' ->
  Cache.cache (Cache.invalidate (Some k) cm) !! k' = Cache.cache cm !! k'.
Proof.
  intros Hne. unfold Cache.invalidate.
  destruct (Cache.cache cm !! k); [|done]. simpl.
  by apply lookup_delete_ne.
Qed.

(** The key under which [get_current_rate] and [get_daily_statistics] ask for
    the day settings: they pass the chat by keyword. *)
Lemma get_day_settings_keyword_key (chat_id : Z) :
  cache_key [Lit "get_day_settings:"; Field 0] "get_day_settings"
            [] [("chat_id", VInt chat_id)]
  = "get_day_settings:chat_id=" +:+ pretty chat_id.
Proof.
  unfold cache_key. simpl.
  change (format _ _) with (inr (B := string) (A := exn)
            ("get_day_settings:" +:+ ("chat_id=" +:+ pretty chat_id) +:+ "")).
  by rewrite append_empty_r.
Qed.

(** The cache key of [get_current_rate(chat_id)]. *)
Lemma get_current_rate_key (chat_id : Z) :
  cache_key [Lit "get_current_rate:"; Field 0] "get_current_rate"
            [VInt chat_id] []
  = "get_current_rate:" +:+ pretty chat_id.
Proof.
  unfold cache_key. simpl.
  change (format _ _) with (inr (B := string) (A := exn)
            ("get_current_rate:" +:+ pretty chat_id +:+ "")).
  by rewrite append_empty_r.
Qed.

(** The keyword key is neither of the keys that [save_day_settings]
    invalidates. *)
Lemma keyword_key_is_not_invalidated (chat_id : Z) :
  "get_day_settings:" +:+ pretty chat_id
  <> "get_day_settings:chat_id=" +:+ pretty chat_id
  /\ "get_current_rate:" +:+ pretty chat_id
     <> "get_day_settings:chat_id=" +:+ pretty chat_id.
Proof.
  split.
  - change ("get_day_settings:chat_id=" +:+ pretty chat_id)
      with ("get_day_settings:" +:+ ("chat_id=" +:+ pretty chat_id)).
    intros Heq%(inj (String.append "get_day_settings:")).
    pose proof (pretty_Z_numeral chat_id) as Hnum.
    rewrite Heq in Hnum. by vm_compute in Hnum.
  - cbv beta iota fix delta [String.append]. by intros [=].
Qed.

Lemma positive_is_truthy (v : value) (q : Q) :
  number v = inr q -> (0 < q)%Q -> truthy v = true.
Proof.
  destruct v as [|b|z|p|s]; simpl; try done.
  - intros [= <-]. by destruct b.
  - intros [= <-] Hz. apply negb_true_iff, Z.eqb_neq. intros ->. by vm_compute in Hz.
  - intros [= <-] Hp. apply negb_true_iff.
    destruct (Qeq_bool p 0) eqn:Heq; [|done].
    apply Qeq_bool_eq in Heq. rewrite Heq in Hp. by apply Qlt_irrefl in Hp.
Qed.

(** The body of [get_current_rate] when the day settings are answered from
    the cache under the keyword key. *)
Lemma get_current_rate_func_cached (chat_id : Z) (stamp : Q) (d : dict)
    (old_rate : value) (q : Q) (c : Client) :
  dummy_mode c = false -> DEBUG (env c) = false ->
  Cache.cache (cache_manager c)
    !! ("get_day_settings:chat_id=" +:+ pretty chat_id)
  = Some (stamp, RDict d) ->
  (now (env c) - stamp < Cache.CACHE_DURATION)%Q ->
  d !! "rate" = Some old_rate -> number old_rate = inr q -> (0 < q)%Q ->
  (get_current_rate_func [VInt chat_id] [] c).1 = Ret (RVal old_rate)
  /\ remote (get_current_rate_func [VInt chat_id] [] c).2 = remote c.
Proof.
  intros Hlive Hdebug Hentry Hfresh Hrate Hq Hpos.
  change (wp (get_current_rate_func [VInt chat_id] [])
            (fun o c' => o = Ret (RVal old_rate) /\ remote c' = remote c) c).
  unfold get_current_rate_func.
  change (param 0 "chat_id" VNone [VInt chat_id] []) with (VInt chat_id).
  wp_step. unfold wp at 1. unfold get_day_settings.
  rewrite cache_result_unfold by assumption.
  rewrite get_day_settings_keyword_key.
  rewrite (cache_get_live _ _ stamp (RDict d) _ Hentry Hfresh).
  cbn [fst snd].
  assert (Hne : d <> ∅).
  { intros ->. by rewrite lookup_empty in Hrate. }
  cbn [result_truthy]. rewrite bool_decide_eq_false_2 by done.
  cbn [negb]. unfold get. rewrite Hrate. cbn [default]. unfold id.
  rewrite (positive_is_truthy old_rate q Hq Hpos). cbn [negb].
  wp_steps. rewrite Hq.
  assert (Qleb q 0 = false) as ->.
  { unfold Qleb. destruct (Qlt_le_dec 0 q) as [_|Hle]; [done|].
    by apply Qle_not_lt in Hle. }
  by wp_steps.
Qed.

(** X15: [save_day_settings] drops the cached answers of
    [get_day_settings(chat)] and [get_current_rate(chat)], but
    [get_current_rate] asks for the settings by keyword, under a third key
    that stays. While an entry under that key is less than [CACHE_DURATION]
    seconds old, [get_current_rate] therefore still returns the rate held
    there after new settings have been saved, without reading the
    worksheet. *)
Theorem get_current_rate_after_save_day_settings (rate commission : value)
    (chat_id : Z) (stamp : Q) (d : dict) (old_rate : value) (q : Q)
    (c : Client) :
  dummy_mode c = false -> DEBUG (env c) = false -> healthy c ->
  settings_sheet_ready chat_id c ->
  Cache.cache (cache_manager c)
    !! ("get_day_settings:chat_id=" +:+ pretty chat_id)
  = Some (stamp, RDict d) ->
  (now (env c) - stamp < Cache.CACHE_DURATION)%Q ->
  d !! "rate" = Some old_rate -> number old_rate = inr q -> (0 < q)%Q ->
  let out := save_day_settings rate commission (VInt chat_id) c in
  out.1 = Ret true
  /\ (get_current_rate [VInt chat_id] [] out.2).1 = Ret (RVal old_rate)
  /\ remote (get_current_rate [VInt chat_id] [] out.2).2 = remote out.2.
Proof.
  intros Hlive Hdebug Hhealthy Hready Hentry Hfresh Hrate Hq Hpos out.
  pose proof (save_day_settings_healthy rate commission chat_id c
                Hlive Hhealthy Hready) as Hsave.
  unfold wp in Hsave. fold out in Hsave.
  destruct Hsave as (Hret & Hhealthy1 & Henv1 & Hlive1 & _ & Hcm1).
  split; [exact Hret|].
  destruct (keyword_key_is_not_invalidated chat_id) as [Hne1 Hne2].
  assert (Hdebug1 : DEBUG (env out.2) = false) by (by rewrite Henv1).
  assert (Habsent : Cache.cache (cache_manager out.2)
                      !! ("get_current_rate:" +:+ pretty chat_id) = None).
  { rewrite Hcm1. apply invalidate_lookup. }
  assert (Hkept : Cache.cache (cache_manager out.2)
                    !! ("get_day_settings:chat_id=" +:+ pretty chat_id)
                  = Some (stamp, RDict d)).
  { by rewrite Hcm1, !invalidate_lookup_ne. }
  unfold get_current_rate. rewrite cache_result_unfold by assumption.
  rewrite get_current_rate_key.
  destruct (cache_get_absent _ (now (env out.2)) _ Habsent) as [Hmiss Hsame].
  destruct (Cache.get _ _ _) as [o cm]. simpl in Hmiss, Hsame. subst o.
  destruct (get_current_rate_func_cached chat_id stamp d old_rate q
              (set_cache_manager cm out.2)) as [Hres Hremote]; try done.
  { simpl. by rewrite Hsame. }
  { simpl. by rewrite Henv1. }
  destruct (get_current_rate_func _ _ _) as [o c']. simpl in Hres, Hremote.
  subst o.
  assert (is_None (RVal old_rate) = false) as ->
    by (by destruct old_rate).
  by split.
Qed.

Lemma get_current_rate_after_save_day_settings_witness :
  let c := (get_current_rate [VInt (-5)] [] Fixtures.three_client).2 in
  let out := save_day_settings (VInt 200) (VInt 10) (VInt (-5)) c in
  out.1 = Ret true
  /\ (get_current_rate [VInt (-5)] [] out.2).1 = Ret (RVal (VFloat 100)).
Proof.
  intros c out.
  assert (Hready : settings_sheet_ready (-5) c).
  { intros rows Hrows. vm_compute in Hrows. injection Hrows as <-.
    split; [done|]. vm_compute. lia. }
  assert (Hentry : Cache.cache (cache_manager c)
                     !! ("get_day_settings:chat_id=" +:+ pretty (-5))
                   = Some (1000%Q,
                           RDict (<["date" := VStr "03.11.2026"]>
                                  (<["rate" := VFloat 100]>
                                  (<["commission_percent" := VFloat 10]>
                                   ∅))))).
  { vm_compute. reflexivity. }
  destruct (get_current_rate_after_save_day_settings (VInt 200) (VInt 10)
              (-5) 1000
              (<["date" := VStr "03.11.2026"]>
               (<["rate" := VFloat 100]>
               (<["commission_percent" := VFloat 10]> ∅)))
              (VFloat 100) 100 c
              eq_refl eq_refl eq_refl Hready Hentry eq_refl eq_refl eq_refl
              eq_refl)
    as (Hsaved & Hrate & _).
  split; [exact Hsaved|exact Hrate].
Defined.

End RateAfterSave.
(** ** The statistics cache of the facade, over time *)

Section FacadeOverTime.

Import DataManager Spec.

Lemma stats_key_inj (a b : Z) : stats_key a = stats_key b -> a = b.
Proof.
  unfold stats_key. intros H.
  apply (inj (String.append "day_stats_")) in H.
  by apply (inj pretty) in H.
Qed.

Lemma on_sheets_stats_cache {A : Type} (m : Sheets.M A) (s : State) :
  stats_cache (on_sheets m s).2 = stats_cache s.
Proof. unfold on_sheets. by destruct (m (sheets_client s)). Qed.

Lemma on_db_stats_cache {A : Type}
    (f : Database.DB -> E A * Database.DB) (s : State) :
  stats_cache (on_db f s).2 = stats_cache s.
Proof. unfold on_db. by destruct (f (db_manager s)). Qed.

Lemma add_transaction_stats_cache (chat : Z) (data : dict) (s : State) :
  stats_cache (add_transaction chat data s).2 = stats_cache s.
Proof.
  unfold add_transaction.
  destruct (data_source s);
    [apply on_db_stats_cache|apply on_sheets_stats_cache].
Qed.

Lemma update_transaction_stats_cache (transaction_id : Z) (data : dict)
    (s : State) :
  stats_cache (update_transaction transaction_id data s).2 = stats_cache s.
Proof.
  unfold update_transaction.
  destruct (data_source s);
    [apply on_db_stats_cache|apply on_sheets_stats_cache].
Qed.

Lemma mark_transaction_paid_stats_cache (transaction_id : Z)
    (transaction_hash : string) (s : State) :
  stats_cache (mark_transaction_paid transaction_id transaction_hash s).2
  = stats_cache s.
Proof.
  unfold mark_transaction_paid.
  destruct (data_source s);
    [apply on_db_stats_cache|apply on_sheets_stats_cache].
Qed.

(** Asking for the statistics of a chat replaces at most the record of that
    chat. *)
Lemma get_daily_statistics_other (chat chat_id : Z) (force : bool) (s : State) :
  chat <> chat_id ->
  stats_cache (get_daily_statistics chat force s).2 !! inr (stats_key chat_id)
  = stats_cache s !! inr (stats_key chat_id).
Proof.
  intros Hne. unfold get_daily_statistics.
  destruct (if force then None else stats_cache s !! inr (stats_key chat));
    [reflexivity|].
  assert (Hkey : @inr Z string (stats_key chat) <> inr (stats_key chat_id)).
  { intros H. assert (H' : stats_key chat = stats_key chat_id) by congruence.
    by apply stats_key_inj in H'. }
  destruct (data_source s).
  - pose proof (on_db_stats_cache
      (fun d => let '(st, d') :=
                  Database.get_daily_statistics chat force d in
                (inr (RStats st), d')) s) as Hsame.
    destruct (on_db _ s) as [[r|e] s1]; simpl in *.
    + rewrite lookup_insert_ne by exact Hkey. by rewrite Hsame.
    + by rewrite Hsame.
  - pose proof (on_sheets_stats_cache
      (Sheets.get_daily_statistics [VInt chat] [("force_refresh", VBool force)])
      s) as Hsame.
    destruct (on_sheets _ s) as [[r|e] s1]; simpl in *.
    + rewrite lookup_insert_ne by exact Hkey. by rewrite Hsame.
    + by rewrite Hsame.
Qed.

Lemma facade_trace_keeps_record (chat_id : Z) (s s' : State) (r : result) :
  stats_cache s !! inr (stats_key chat_id) = Some r ->
  facade_trace chat_id s s' ->
  stats_cache s' !! inr (stats_key chat_id) = Some r.
Proof.
  intros Hcached Htrace.
  induction Htrace
    as [|s' chat data _ IH|s' tid data _ IH|s' tid h _ IH|s' chat _ IH
        |s' chat force Hside _ IH].
  - exact Hcached.
  - by rewrite add_transaction_stats_cache.
  - by rewrite update_transaction_stats_cache.
  - by rewrite mark_transaction_paid_stats_cache.
  - by rewrite clear_stats_cache_str_keys.
  - destruct (decide (chat = chat_id)) as [-> |Hne].
    + destruct Hside as [?| ->]; [done|].
      unfold get_daily_statistics. by rewrite IH.
    + by rewrite get_daily_statistics_other.
Qed.

(** X16: the statistics that the facade holds for a chat are what
    [get_daily_statistics] returns for the chat from then on, without asking
    either store, whatever transactions are added, updated or marked paid
    through the facade, whichever statistics caches are cleared, and
    whichever statistics are asked for in between; only a call with
    [force_refresh] for the chat itself replaces them. *)
Theorem stats_cache_outlives_writes (chat_id : Z) (s s' : State) (r : result) :
  stats_cache s !! inr (stats_key chat_id) = Some r ->
  facade_trace chat_id s s' ->
  get_daily_statistics chat_id false s' = (Sheets.Ret r, s').
Proof.
  intros Hcached Htrace.
  unfold get_daily_statistics.
  by rewrite (facade_trace_keeps_record chat_id s s' r Hcached Htrace).
Qed.

Lemma stats_cache_outlives_writes_witness :
  let s1 := (get_daily_statistics (-5) false
               (init false Fixtures.three_db Fixtures.three_client)).2 in
  let s2 := (add_transaction (-5) Fixtures.data_with_hash s1).2 in
  let s3 := clear_stats_cache (-5) s2 in
  (get_daily_statistics (-5) false s3).1
  = (get_daily_statistics (-5) false
       (init false Fixtures.three_db Fixtures.three_client)).1
  /\ length (Sheets.sheet (Sheets.remote (sheets_client s3))) = 5%nat.
Proof.
  intros s1 s2 s3.
  assert (Hfirst :
    exists r, (get_daily_statistics (-5) false
                 (init false Fixtures.three_db Fixtures.three_client)).1
              = Sheets.Ret r
              /\ stats_cache s1 !! inr (stats_key (-5)) = Some r).
  { eexists. split; vm_compute; reflexivity. }
  destruct Hfirst as (r & Hr & Hcached).
  split; [|vm_compute; reflexivity].
  rewrite Hr.
  refine (f_equal fst
    (stats_cache_outlives_writes (-5) s1 s3 r Hcached _)).
  apply facade_clear, facade_add, facade_start.
Defined.

End FacadeOverTime.
(** ** What the facade adds to a new transaction *)

Section FacadeAdd.

Import Spec.

(** X17: on the spreadsheet store in regular mode, a transaction added
    through the facade is written with the chat identifier in the chat_id
    column; its group column holds the group of the data when that is given
    and not empty, and the chat identifier otherwise. The row carries the
    identifier returned and the not-paid status. *)
Theorem facade_add_transaction_row (chat_id : Z) (data : dict)
    (s s' : DataManager.State) (new_id : Z) :
  DataManager.data_source s = DataManager.sheets ->
  Sheets.dummy_mode (DataManager.sheets_client s) = false ->
  DataManager.add_transaction chat_id data s = (Sheets.Ret new_id, s') ->
  exists r : Sheets.row,
    Sheets.sheet (Sheets.remote (DataManager.sheets_client s'))
    = Sheets.sheet (Sheets.remote (DataManager.sheets_client s)) ++ [r]
    /\ r !! 0%nat = Some (pretty new_id)
    /\ r !! 6%nat = Some Sheets.STATUS_UNPAID
    /\ r !! 7%nat
       = Some (if truthy (get data "group" VNone)
               then Sheets.cell_text (get data "group" VNone)
               else pretty chat_id)
    /\ r !! 9%nat = Some (pretty chat_id).
Proof.
  intros Hsource Hlive Hadd.
  unfold DataManager.add_transaction in Hadd. rewrite Hsource in Hadd.
  unfold DataManager.on_sheets in Hadd.
  set (data1 := <["chat_id" := VStr (pretty chat_id)]> data) in *.
  set (data2 := if negb (truthy (get data1 "group" VNone))
                then <["group" := VStr (pretty chat_id)]> data1
                else data1) in *.
  pose proof (add_transaction_appends data2 (DataManager.sheets_client s) Hlive)
    as Hwp.
  unfold wp in Hwp.
  destruct (Sheets.add_transaction data2 (DataManager.sheets_client s))
    as [o c'] eqn:Hrun.
  simpl in Hwp. injection Hadd as -> <-.
  destruct (Hwp new_id eq_refl) as ((r & Hrow & Hsheet) & _).
  exists (map Sheets.cell_text r). split; [exact Hsheet|].
  assert (Hchat : get data2 "chat_id" (VStr "") = VStr (pretty chat_id)).
  { unfold data2, get. destruct (negb _).
    - rewrite lookup_insert_ne by done. unfold data1.
      by rewrite lookup_insert_eq.
    - unfold data1. by rewrite lookup_insert_eq. }
  assert (Hgroup :
    Sheets.cell_text (get data2 "group" (VStr ""))
    = if truthy (get data "group" VNone)
      then Sheets.cell_text (get data "group" VNone)
      else pretty chat_id).
  { assert (Hg1 : get data1 "group" VNone = get data "group" VNone).
    { unfold data1, get. by rewrite lookup_insert_ne. }
    unfold data2. rewrite Hg1.
    destruct (truthy (get data "group" VNone)) eqn:Htruthy; simpl.
    - unfold get in *. unfold data1. rewrite lookup_insert_ne by done.
      destruct (data !! "group"); [done|discriminate].
    - unfold get. by rewrite lookup_insert_eq. }
  unfold Sheets.new_row, ebind, esubscript in Hrow.
  destruct (data2 !! "amount"); [|discriminate].
  destruct (data2 !! "method"); [|discriminate].
  destruct (data2 !! "commission"); [|discriminate].
  destruct (data2 !! "rate"); [|discriminate].
  injection Hrow as <-. simpl.
  rewrite Hchat, Hgroup. auto.
Qed.

Lemma facade_add_transaction_row_witness :
  exists r : Sheets.row,
    Sheets.sheet
      (Sheets.remote
         (DataManager.sheets_client
            (DataManager.add_transaction (-7) Fixtures.data_with_hash
               (DataManager.init false Fixtures.three_db
                                 Fixtures.three_client)).2))
    = Sheets.sheet (Sheets.remote Fixtures.three_client) ++ [r]
    /\ r !! 7%nat = Some "-7" /\ r !! 9%nat = Some "-7".
Proof.
  destruct (facade_add_transaction_row (-7) Fixtures.data_with_hash
              (DataManager.init false Fixtures.three_db Fixtures.three_client)
              (DataManager.add_transaction (-7) Fixtures.data_with_hash
                 (DataManager.init false Fixtures.three_db
                                   Fixtures.three_client)).2
              4 eq_refl eq_refl)
    as (r & Hsheet & _ & _ & Hgroup & Hchat).
  - apply pair_run. vm_compute. reflexivity.
  - exists r. split; [exact Hsheet|]. split; [exact Hgroup|exact Hchat].
Defined.

End FacadeAdd.

(** ** Updates of a transaction that is not there *)

Section UnknownTransaction.

Import Sheets Spec.

Lemma update_in_memory_unknown (transaction_id : value) (data : dict)
    (l : list dict) :
  unknown_in_memory transaction_id l ->
  forall l', update_in_memory transaction_id data l <> inr (Some l').
Proof.
  induction 1 as [|t l Ht _ IH]; intros l'; simpl; [discriminate|].
  unfold ebind at 1, esubscript.
  destruct (t !! "id") as [i|] eqn:Hid; [|discriminate].
  rewrite (Ht i eq_refl). unfold ebind.
  destruct (update_in_memory transaction_id data l) as [e|[l0|]] eqn:Hrest;
    simpl; try discriminate.
  by destruct (IH l0).
Qed.

(** X18: [update_transaction] for an identifier that no transaction carries
    returns [False] and changes nothing. In regular mode it has made its one
    API call, whether or not that call failed, and has written no cell and
    dropped no cache entry; in dummy mode the client is exactly what it
    was. *)
Theorem update_transaction_unknown (transaction_id : value) (data : dict)
    (c : Client) :
  (dummy_mode c = false -> unknown_on_sheet transaction_id c ->
   update_transaction transaction_id data c = (Ret false, after_call c))
  /\ (dummy_mode c = true ->
      unknown_in_memory transaction_id (daily_transactions c) ->
      update_transaction transaction_id data c = (Ret false, c)).
Proof.
  split.
  - intros Hlive Hunknown. unfold unknown_on_sheet in Hunknown.
    assert (H : wp (update_transaction transaction_id data)
                   (fun o c' => o = Ret false /\ c' = after_call c) c).
    { unfold update_transaction. apply wp_try_default.
      wp_steps. rewrite Hlive. unfold col_values_1. wp_steps.
      apply wp_api; [|done].
      wp_steps. simpl sheet. rewrite Hunknown. by wp_steps. }
    unfold wp in H.
    destruct (update_transaction transaction_id data c) as [o c'].
    simpl in H. by destruct H as [-> ->].
  - intros Hdummy Hunknown.
    unfold update_transaction, try_except, bind, self, lift, ret.
    simpl. rewrite Hdummy.
    pose proof (update_in_memory_unknown transaction_id data _ Hunknown)
      as Hnone.
    destruct (update_in_memory transaction_id data (daily_transactions c))
      as [e|[l'|]]; simpl; try reflexivity.
    by destruct (Hnone l').
Qed.

Lemma update_transaction_unknown_witness :
  update_transaction (VInt 99) Fixtures.data_with_hash Fixtures.three_client
  = (Ret false, after_call Fixtures.three_client)
  /\ update_transaction (VInt 99) Fixtures.data_with_hash
                        Fixtures.dummy_client
     = (Ret false, Fixtures.dummy_client).
Proof.
  destruct (update_transaction_unknown (VInt 99) Fixtures.data_with_hash
              Fixtures.three_client) as [Hlive _].
  destruct (update_transaction_unknown (VInt 99) Fixtures.data_with_hash
              Fixtures.dummy_client) as [_ Hdummy].
  split.
  - apply Hlive; [reflexivity|]. vm_compute. reflexivity.
  - apply Hdummy; [reflexivity|].
    unfold unknown_in_memory. simpl.
    constructor; [|constructor].
    intros i Hi. vm_compute in Hi. injection Hi as <-. reflexivity.
Defined.

End UnknownTransaction.
